(** * networking-ovn: the OVN plugin (networking_ovn/plugin.py)

    A shallow embedding of the security-group-to-ACL compiler, the port
    option resolver and the topology synchronisation entry points of
    [OVNPlugin], together with the properties stated about them. *)

From Stdlib Require Import ZArith String Ascii DecimalString.
From Stdlib Require Import DecimalZ DecimalPos.
From stdpp Require Import gmap strings list fin_maps.

Open Scope string_scope.
Open Scope Z_scope.
Open Scope list_scope.

(** ** Python-level preliminaries *)

(** The double-quote character, as used inside match expressions. *)
Definition dq : string := String (ascii_of_nat 34) EmptyString.

(** ['%d' % n] and [str(n)] on integers. *)
Definition str_of_Z (z : Z) : string := NilZero.string_of_int (Z.to_int z).

(** ['%s' % x] where [x] is a string or [None]. *)
Definition pystr (o : option string) : string :=
  match o with
  | Some s => s
  | None => "None"
  end.

(** Truthiness of a value that is a string or [None]. *)
Definition truthy_str (o : option string) : bool :=
  match o with
  | Some s => negb (bool_decide (s = EmptyString))
  | None => false
  end.

(** Truthiness of a value that is an integer or [None]. *)
Definition truthy_int (o : option Z) : bool :=
  match o with
  | Some n => negb (n =? 0)
  | None => false
  end.

(** [needle in hay] on strings. *)
Fixpoint contains (hay needle : string) : bool :=
  String.prefix needle hay ||
  match hay with
  | EmptyString => false
  | String _ rest => contains rest needle
  end.

(** [s[-1]] and [s[:-1]]. *)
Fixpoint str_last (s : string) : option ascii :=
  match s with
  | EmptyString => None
  | String c EmptyString => Some c
  | String _ rest => str_last rest
  end.

Fixpoint str_init (s : string) : string :=
  match s with
  | EmptyString => EmptyString
  | String _ EmptyString => EmptyString
  | String c rest => String c (str_init rest)
  end.

(** Values that can sit in a binding profile. *)
Inductive pyval :=
| VNone
| VBool (b : bool)
| VInt (n : Z)
| VStr (s : string).

(** Truthiness of a value. *)
Definition truthy (v : pyval) : bool :=
  match v with
  | VNone => false
  | VBool b => b
  | VInt n => negb (n =? 0)
  | VStr s => negb (bool_decide (s = EmptyString))
  end.

(** [int(v)]; on strings only plain decimal literals are read. *)
Definition int_ (v : pyval) : option Z :=
  match v with
  | VNone => None
  | VBool b => Some (if b then 1 else 0)
  | VInt n => Some n
  | VStr s => Z.of_int <$> NilZero.int_of_string s
  end.

(** [d.get(k)]: the value under [k], or [None]. *)
Definition dict_get (d : gmap string pyval) (k : string) : pyval :=
  default VNone (d !! k).

(** The classes a parameter table can require ([six.string_types],
    [six.integer_types]). *)
Inductive pytype := TString | TInteger.

(** [isinstance(v, t)]; a Python [bool] is an [int]. *)
Definition isinstance (v : pyval) (t : pytype) : bool :=
  match t, v with
  | TString, VStr _ => true
  | TInteger, VInt _ => true
  | TInteger, VBool _ => true
  | _, _ => false
  end.

(** Exceptions raised by the plugin and by its collaborators. *)
Inductive exn :=
| InvalidInput (error_message : string)
| ServiceUnavailable
| NetworkNotFound (net_id : string)
| NetworkInUse (net_id : string)
| PortNotFound (port_id : string)
| SubnetNotFound (subnet_id : string)
| SecurityGroupNotFound (sg_id : string)
| DBDuplicateEntry
| KeyError (key : string)
| ValueError
| TypeError
| RuntimeError (msg : string).

Inductive result (A : Type) :=
| Ok (a : A)
| Raise (e : exn).
Arguments Ok {A} a.
Arguments Raise {A} e.

#[global] Instance result_ret : MRet result := λ A a, Ok a.
#[global] Instance result_bind : MBind result := λ A B k m,
  match m with
  | Ok a => k a
  | Raise e => Raise e
  end.

(** ** Data model *)

Module FixedIp.
Record t := { subnet_id : string; ip_address : string }.
End FixedIp.

Module AddressPair.
Record t := { mac_address : string; ip_address : string }.
End AddressPair.

(** A port dictionary.  [fixed_ips], [allowed_address_pairs] and
    [security_groups] are [None] when the key is absent. *)
Module Port.
Record t := {
  id : string;
  name : string;
  network_id : string;
  mac_address : string;
  admin_state_up : bool;
  fixed_ips : option (list FixedIp.t);
  allowed_address_pairs : option (list AddressPair.t);
  security_groups : option (list string)
}.
End Port.

Module Rule.
Record t := {
  id : string;
  security_group_id : string;
  direction : string;
  ethertype : string;
  protocol : option string;
  port_range_min : option Z;
  port_range_max : option Z;
  remote_ip_prefix : option string;
  remote_group_id : option string
}.

Definition with_port_range_min (v : option Z) (r : t) : t :=
  {| id := id r; security_group_id := security_group_id r;
     direction := direction r; ethertype := ethertype r;
     protocol := protocol r; port_range_min := v;
     port_range_max := port_range_max r;
     remote_ip_prefix := remote_ip_prefix r;
     remote_group_id := remote_group_id r |}.

Definition with_port_range_max (v : option Z) (r : t) : t :=
  {| id := id r; security_group_id := security_group_id r;
     direction := direction r; ethertype := ethertype r;
     protocol := protocol r; port_range_min := port_range_min r;
     port_range_max := v;
     remote_ip_prefix := remote_ip_prefix r;
     remote_group_id := remote_group_id r |}.
End Rule.

(** A row of the port / security-group binding table. *)
Module Binding.
Record t := { port_id : string; security_group_id : string }.
End Binding.

Module Subnet.
Record t := {
  id : string;
  network_id : string;
  ip_version : Z;
  cidr : string
}.
End Subnet.

Module Network.
Record t := { id : string; name : string }.
End Network.

(** [port.get(key, [])] for a key that names a list of strings.  The only
    such attribute of a port dictionary is ['security_groups']; any other
    key is absent and yields the default. *)
Definition port_get_list (port : Port.t) (key : string) : list string :=
  if decide (key = "security_groups")
  then default [] (Port.security_groups port)
  else [].

(** The body of a port-create request ([port['port']]): the attributes of
    the port and its binding profile, which is [None] when the key is absent
    or the attribute is not set. *)
Module PortReq.
Record t := {
  port : Port.t;
  binding_profile : option (gmap string pyval)
}.
End PortReq.

(** The body of a port-update request; an attribute that the request does
    not carry is [None]. *)
Module PortUpdate.
Record t := {
  name : option string;
  admin_state_up : option bool;
  fixed_ips : option (list FixedIp.t);
  allowed_address_pairs : option (list AddressPair.t);
  security_groups : option (list string);
  binding_profile : option (gmap string pyval)
}.
End PortUpdate.

(** The body of a network-create request; a provider attribute that is not
    specified is [None]. *)
Module NetworkReq.
Record t := {
  id : string;
  name : string;
  physical_network : option string;
  network_type : option string;
  segmentation_id : option Z
}.
End NetworkReq.

(** ** Match expression builder *)

Definition _acl_direction (r : Rule.t) (port : Port.t) : string * string :=
  let '(portdir, remote_portdir) :=
    if decide (Rule.direction r = "ingress")
    then ("outport", "inport")
    else ("inport", "outport") in
  (portdir +:+ " == " +:+ dq +:+ Port.id port +:+ dq, remote_portdir).

Definition _acl_ethertype (r : Rule.t)
  : string * option string * option string :=
  if decide (Rule.ethertype r = "IPv4") then
    (" && ip4", Some "ip4", Some "icmp4")
  else if decide (Rule.ethertype r = "IPv6") then
    (" && ip6", Some "ip6", Some "icmp6")
  else (EmptyString, None, None).

Definition _acl_remote_ip_prefix (r : Rule.t) (ip : option string) : string :=
  if negb (truthy_str (Rule.remote_ip_prefix r)) then EmptyString
  else
    let src_or_dst :=
      if decide (Rule.direction r = "ingress") then "src" else "dst" in
    " && " +:+ pystr ip +:+ "." +:+ src_or_dst +:+ " == "
      +:+ pystr (Rule.remote_ip_prefix r).

Definition _acl_protocol_and_ports (r : Rule.t) (icmp : option string)
  : string :=
  let '(protocol, port_match) :=
    if bool_decide (Rule.protocol r = Some "tcp")
       || bool_decide (Rule.protocol r = Some "udp")
    then (Rule.protocol r, pystr (Rule.protocol r) +:+ ".dst")
    else if bool_decide (Rule.protocol r = Some "icmp")
    then (icmp, pystr icmp +:+ ".type")
    else (None, EmptyString) in
  if truthy_str protocol then
    let m0 := " && " +:+ pystr protocol in
    let m1 :=
      if truthy_int (Rule.port_range_min r)
         && negb (bool_decide (Rule.port_range_min r = Some (-1)))
      then m0 +:+ " && " +:+ port_match +:+ " >= "
              +:+ str_of_Z (default 0 (Rule.port_range_min r))
      else m0 in
    if truthy_int (Rule.port_range_max r)
       && negb (bool_decide (Rule.port_range_max r = Some (-1)))
    then m1 +:+ " && " +:+ port_match +:+ " <= "
            +:+ str_of_Z (default 0 (Rule.port_range_max r))
    else m1
  else EmptyString.

(** ** Constants of [networking_ovn.common] *)

(** Modelled from the spec: [utils.ovn_name] is not part of the plugin
    module; the spec only says that a Logical Switch is keyed by a derived
    name that is a stable function of the network id.  The model prefixes
    the id. *)
Definition ovn_name (id : string) : string := "neutron-" +:+ id.

(** Modelled from the spec: the ACL constants of [ovn_const].  The spec gives
    the actions (allow, allow-related, drop) and says that drop-all entries
    sit at a lower priority than the allow entries. *)
Definition ACL_PRIORITY_ALLOW : Z := 1002.
Definition ACL_PRIORITY_DROP : Z := 1001.
Definition ACL_ACTION_DROP : string := "drop".
Definition ACL_ACTION_ALLOW_RELATED : string := "allow-related".
Definition ACL_ACTION_ALLOW : string := "allow".

(** Modelled from the spec: the external-id keys of [ovn_const], under which
    the display names and the provider attributes are stashed. *)
Definition OVN_NETWORK_NAME_EXT_ID_KEY : string := "neutron:network_name".
Definition OVN_PORT_NAME_EXT_ID_KEY : string := "neutron:port_name".
Definition OVN_PHYSNET_EXT_ID_KEY : string := "neutron:provnet-physical-network".
Definition OVN_NETTYPE_EXT_ID_KEY : string := "neutron:provnet-network-type".
Definition OVN_SEGID_EXT_ID_KEY : string := "neutron:provnet-segmentation-id".

(** Modelled from the spec: [ovn_const.OVN_PORT_BINDING_PROFILE_PARAMS], the
    recognised parameter groups of a binding profile: the trunk group
    (parent-name, tag) and the VTEP group (physical switch, logical switch),
    each key with the class its value must have. *)
Definition OVN_PORT_BINDING_PROFILE_PARAMS
  : list (list (string * option pytype)) :=
  [ [("parent_name", Some TString); ("tag", Some TInteger)];
    [("vtep_physical_switch", Some TString);
     ("vtep_logical_switch", Some TString)] ].

(** ** Topology store commands *)

Module Acl.
Record t := {
  lswitch : string;
  lport : string;
  priority : Z;
  action : string;
  log : bool;
  direction : string;
  match_ : string;
  external_ids : gmap string string
}.
End Acl.

Module LPort.
Record t := {
  lport_name : string;
  lswitch_name : string;
  addresses : list string;
  external_ids : gmap string string;
  parent_name : pyval;
  tag : pyval;
  enabled : option bool;
  options : option (gmap string pyval);
  type : option string;
  port_security : list string
}.
End LPort.

(** The commands of the northbound API that the plugin builds. *)
Inductive OvnCmd :=
| create_lswitch (lswitch_name : string) (external_ids : gmap string string)
| delete_lswitch (lswitch_name : string) (if_exists : bool)
| create_lport (lp : LPort.t)
| set_lport (lp : LPort.t)
| delete_lport (lport_name lswitch : string)
| add_acl (acl : Acl.t)
| delete_acl (lswitch lport : string).

(** ** The model store, as the plugin reads it *)

Module SecurityGroup.
Record t := { id : string; security_group_rules : list Rule.t }.
End SecurityGroup.

Record NeutronDb := {
  db_networks : gmap string Network.t;
  db_ports : gmap string Port.t;
  db_subnets : gmap string Subnet.t;
  db_security_groups : gset string;
  db_security_group_rules : list Rule.t;
  db_port_bindings : list Binding.t
}.

Definition get_port (db : NeutronDb) (id : string) : result Port.t :=
  match db_ports db !! id with
  | Some p => Ok p
  | None => Raise (PortNotFound id)
  end.

Definition get_subnet (db : NeutronDb) (id : string) : result Subnet.t :=
  match db_subnets db !! id with
  | Some s => Ok s
  | None => Raise (SubnetNotFound id)
  end.

Definition get_security_group (db : NeutronDb) (id : string)
  : result SecurityGroup.t :=
  if decide (id ∈ db_security_groups db) then
    Ok {| SecurityGroup.id := id;
          SecurityGroup.security_group_rules :=
            filter (λ r, Rule.security_group_id r = id)
                   (db_security_group_rules db) |}
  else Raise (SecurityGroupNotFound id).

(** [_get_port_security_group_bindings] with the filter
    [{'security_group_id': [sg]}]. *)
Definition _get_port_security_group_bindings (db : NeutronDb) (sg : string)
  : list Binding.t :=
  filter (λ b, Binding.security_group_id b = sg) (db_port_bindings db).

(** [get_security_group_rules] with the filter [{'remote_group_id': [sg]}]. *)
Definition get_security_group_rules (db : NeutronDb) (sg : string)
  : list Rule.t :=
  filter (λ r, Rule.remote_group_id r = Some sg) (db_security_group_rules db).

(** A [for] loop whose body may raise. *)
Fixpoint for_each {A S : Type} (body : S → A → result S) (l : list A) (s : S)
  : result S :=
  match l with
  | [] => Ok s
  | x :: l' => s' ← body s x; for_each body l' s'
  end.

(** ** ACL rule compiler *)

Definition _acl_remote_group_id (db : NeutronDb) (r : Rule.t)
    (sg_ports_cache : gmap string (list Binding.t)) (port : Port.t)
    (remote_portdir : string)
  : string * bool * gmap string (list Binding.t) :=
  if negb (truthy_str (Rule.remote_group_id r)) then
    (EmptyString, false, sg_ports_cache)
  else
    let g := default EmptyString (Rule.remote_group_id r) in
    let '(sg_ports, sg_ports_cache) :=
      match sg_ports_cache !! g with
      | Some sg_ports => (sg_ports, sg_ports_cache)
      | None =>
          let sg_ports := _get_port_security_group_bindings db g in
          (sg_ports, <[g := sg_ports]> sg_ports_cache)
      end in
    let sg_ports :=
      filter (λ p, Binding.port_id p ≠ Port.id port) sg_ports in
    match sg_ports with
    | [] => (EmptyString, true, sg_ports_cache)
    | _ =>
        let m := " && " +:+ remote_portdir +:+ " == {" in
        let m :=
          foldl (λ m p, m +:+ dq +:+ Binding.port_id p +:+ dq +:+ ",")
                m sg_ports in
        let m :=
          if bool_decide (str_last m = Some ","%char) then str_init m else m in
        (m +:+ "}", false, sg_ports_cache)
    end.

Definition dir_map (direction : string) : result string :=
  if decide (direction = "ingress") then Ok "to-lport"
  else if decide (direction = "egress") then Ok "from-lport"
  else Raise (KeyError direction).

Definition _add_sg_rule_acl_for_port (db : NeutronDb) (port : Port.t)
    (r : Rule.t) (sg_ports_cache : gmap string (list Binding.t))
  : result (option Acl.t * gmap string (list Binding.t)) :=
  let '(m, remote_portdir) := _acl_direction r port in
  let '(ip_match, ip, icmp) := _acl_ethertype r in
  let m := m +:+ ip_match in
  let m := m +:+ _acl_remote_ip_prefix r ip in
  let '(group_match, empty_match, sg_ports_cache) :=
    _acl_remote_group_id db r sg_ports_cache port remote_portdir in
  if empty_match then Ok (None, sg_ports_cache)
  else
    let m := m +:+ group_match in
    let m := m +:+ _acl_protocol_and_ports r icmp in
    d ← dir_map (Rule.direction r);
    Ok (Some {| Acl.lswitch := ovn_name (Port.network_id port);
                Acl.lport := Port.id port;
                Acl.priority := ACL_PRIORITY_ALLOW;
                Acl.action := ACL_ACTION_ALLOW_RELATED;
                Acl.log := false;
                Acl.direction := d;
                Acl.match_ := m;
                Acl.external_ids := {[ "neutron:lport" := Port.id port ]} |},
        sg_ports_cache).

(** The key under which [_add_acl_cmd] files a command. *)
Definition acl_key (cmd : Acl.t) : string * Z * string * string :=
  (Acl.direction cmd, Acl.priority cmd, Acl.action cmd, Acl.match_ cmd).

(** The [acls] dictionary, kept as an association list in insertion order
    (the order in which a Python dictionary yields its values is
    unspecified). *)
Definition _add_acl_cmd (acls : list (string * Z * string * string * Acl.t))
    (cmd : option Acl.t) : list (string * Z * string * string * Acl.t) :=
  match cmd with
  | None => acls
  | Some cmd =>
      let key := acl_key cmd in
      if decide (key ∈ acls.*1) then acls else acls ++ [(key, cmd)]
  end.

(** The body of the loop of [_add_acl_dhcp] over the fixed IPs. *)
Definition add_acl_dhcp_step (db : NeutronDb) (port : Port.t)
    (st : list OvnCmd * gmap string Subnet.t) (ip : FixedIp.t)
  : result (list OvnCmd * gmap string Subnet.t) :=
  let '(txn, subnet_cache) := st in
  '(subnet, subnet_cache) ←
    match subnet_cache !! FixedIp.subnet_id ip with
    | Some subnet => Ok (subnet, subnet_cache)
    | None =>
        subnet ← get_subnet db (FixedIp.subnet_id ip);
        Ok (subnet, <[FixedIp.subnet_id ip := subnet]> subnet_cache)
    end;
  if negb (Subnet.ip_version subnet =? 4) then Ok (txn, subnet_cache)
  else
    Ok (txn ++ [add_acl
      {| Acl.lswitch := ovn_name (Port.network_id port);
         Acl.lport := Port.id port;
         Acl.priority := ACL_PRIORITY_ALLOW;
         Acl.action := ACL_ACTION_ALLOW;
         Acl.log := false;
         Acl.direction := "to-lport";
         Acl.match_ :=
           "outport == " +:+ dq +:+ Port.id port +:+ dq
           +:+ " && ip4 && ip4.src == " +:+ Subnet.cidr subnet
           +:+ " && udp && udp.src == 67 && udp.dst == 68";
         Acl.external_ids := {[ "neutron:lport" := Port.id port ]} |}],
        subnet_cache).

Definition _add_acl_dhcp (db : NeutronDb) (port : Port.t) (txn : list OvnCmd)
    (subnet_cache : gmap string Subnet.t)
  : result (list OvnCmd * gmap string Subnet.t) :=
  match Port.fixed_ips port with
  | None => Raise (KeyError "fixed_ips")
  | Some ips => for_each (add_acl_dhcp_step db port) ips (txn, subnet_cache)
  end.

Definition _drop_all_ip_traffic_for_port (port : Port.t) (txn : list OvnCmd)
  : list OvnCmd :=
  foldl
    (λ txn '(direction, p),
       txn ++ [add_acl
         {| Acl.lswitch := ovn_name (Port.network_id port);
            Acl.lport := Port.id port;
            Acl.priority := ACL_PRIORITY_DROP;
            Acl.action := ACL_ACTION_DROP;
            Acl.log := false;
            Acl.direction := direction;
            Acl.match_ := p +:+ " == " +:+ dq +:+ Port.id port +:+ dq
                          +:+ " && ip";
            Acl.external_ids := {[ "neutron:lport" := Port.id port ]} |}])
    txn [("from-lport", "inport"); ("to-lport", "outport")].

(** The body of the loop of [_add_acls] over the rules of one group. *)
Definition add_acls_rule_step (db : NeutronDb) (port : Port.t)
    (st : list (string * Z * string * string * Acl.t)
          * gmap string (list Binding.t)) (r : Rule.t)
  : result (list (string * Z * string * string * Acl.t)
            * gmap string (list Binding.t)) :=
  let '(acls, sg_ports_cache) := st in
  '(cmd, sg_ports_cache) ← _add_sg_rule_acl_for_port db port r sg_ports_cache;
  Ok (_add_acl_cmd acls cmd, sg_ports_cache).

(** The body of the loop of [_add_acls] over the security groups. *)
Definition add_acls_group_step (db : NeutronDb) (port : Port.t)
    (st : list (string * Z * string * string * Acl.t)
          * option (gmap string SecurityGroup.t)
          * gmap string (list Binding.t)) (sg_id : string)
  : result (list (string * Z * string * string * Acl.t)
            * option (gmap string SecurityGroup.t)
            * gmap string (list Binding.t)) :=
  let '(acls, sg_cache, sg_ports_cache) := st in
  '(sg, sg_cache) ←
    match sg_cache with
    | Some c =>
        match (if bool_decide (c = ∅) then None else c !! sg_id) with
        | Some sg => Ok (sg, Some c)
        | None =>
            sg ← get_security_group db sg_id;
            Ok (sg, Some (<[sg_id := sg]> c))
        end
    | None =>
        sg ← get_security_group db sg_id;
        Ok (sg, None)
    end;
  '(acls, sg_ports_cache) ←
    for_each (add_acls_rule_step db port)
             (SecurityGroup.security_group_rules sg) (acls, sg_ports_cache);
  Ok (acls, sg_cache, sg_ports_cache).

(** [_add_acls] returns the transaction and the three caches in their final
    state.  A cache passed as [None] is replaced by a fresh dictionary
    ([sg_cache] excepted, which then stays [None]); the order in which the
    values of [acls] are added is the order of insertion. *)
Definition _add_acls (db : NeutronDb) (port : Port.t) (txn : list OvnCmd)
    (sg_cache : option (gmap string SecurityGroup.t))
    (sg_ports_cache : option (gmap string (list Binding.t)))
    (subnet_cache : option (gmap string Subnet.t))
  : result (list OvnCmd * option (gmap string SecurityGroup.t)
            * gmap string (list Binding.t) * gmap string Subnet.t) :=
  let sec_groups := port_get_list port "security_groups" in
  match sec_groups with
  | [] => Ok (txn, sg_cache, default ∅ sg_ports_cache, default ∅ subnet_cache)
  | _ =>
      let txn := _drop_all_ip_traffic_for_port port txn in
      let subnet_cache := default ∅ subnet_cache in
      '(txn, subnet_cache) ← _add_acl_dhcp db port txn subnet_cache;
      let sg_ports_cache := default ∅ sg_ports_cache in
      let acls : list (string * Z * string * string * Acl.t) := [] in
      '(acls, sg_cache, sg_ports_cache) ←
        for_each (add_acls_group_step db port) sec_groups
                 (acls, sg_cache, sg_ports_cache);
      Ok (txn ++ (add_acl <$> acls.*2), sg_cache, sg_ports_cache, subnet_cache)
  end.

(** ** Port option resolver *)

Module OvnPortInfo.
Record t := {
  type : option string;
  options : option (gmap string pyval);
  addresses : list string;
  port_security : list string;
  parent_name : pyval;
  tag : pyval
}.
End OvnPortInfo.

Definition _get_allowed_mac_addresses_from_port (port : Port.t)
  : list string :=
  let allowed_macs : gset string := {[ Port.mac_address port ]} in
  let allowed_address_pairs := default [] (Port.allowed_address_pairs port) in
  let allowed_macs :=
    foldl (λ s a, s ∪ {[ AddressPair.mac_address a ]})
          allowed_macs allowed_address_pairs in
  elements allowed_macs.

Definition _get_ovn_port_options (binding_profile : gmap string pyval)
    (port : Port.t) : OvnPortInfo.t :=
  let vtep_physical_switch := dict_get binding_profile "vtep_physical_switch" in
  if truthy vtep_physical_switch then
    let vtep_logical_switch := dict_get binding_profile "vtep_logical_switch" in
    {| OvnPortInfo.type := Some "vtep";
       OvnPortInfo.options :=
         Some (<["vtep_physical_switch" := vtep_physical_switch]>
                 (<["vtep_logical_switch" := vtep_logical_switch]> ∅));
       OvnPortInfo.addresses := ["unknown"];
       OvnPortInfo.port_security := [];
       OvnPortInfo.parent_name := VNone;
       OvnPortInfo.tag := VNone |}
  else
    let parent_name := dict_get binding_profile "parent_name" in
    let tag := dict_get binding_profile "tag" in
    let addresses :=
      match Port.fixed_ips port with
      | Some ips =>
          (λ ip, Port.mac_address port +:+ " " +:+ FixedIp.ip_address ip)
            <$> ips
      | None => [Port.mac_address port]
      end in
    let allowed_macs := _get_allowed_mac_addresses_from_port port in
    {| OvnPortInfo.type := None;
       OvnPortInfo.options := None;
       OvnPortInfo.addresses := addresses;
       OvnPortInfo.port_security := allowed_macs;
       OvnPortInfo.parent_name := parent_name;
       OvnPortInfo.tag := tag |}.

(** ** Binding-profile validation *)

(** The loop of [_get_data_from_binding_profile] over the parameter groups.
    It returns [param_dict] and the group at which the loop stopped
    ([None] when no group was entered). *)
Fixpoint select_param_set (profile : gmap string pyval)
    (params : list (list (string * option pytype)))
    (param_dict : gmap string pyval)
    (last : option (list (string * option pytype)))
  : result (gmap string pyval * option (list (string * option pytype))) :=
  match params with
  | [] => Ok (param_dict, last)
  | param_set :: rest =>
      let param_keys := param_set.*1 in
      let param_dict :=
        foldl (λ d param_key,
                 match profile !! param_key with
                 | Some v => <[param_key := v]> d
                 | None => d
                 end)
              param_dict param_keys in
      if bool_decide (size param_dict = 0%nat) then
        select_param_set profile rest param_dict (Some param_set)
      else if negb (bool_decide (size param_dict = length param_keys)) then
        Raise (InvalidInput "Invalid binding:profile. all are required.")
      else if negb (bool_decide (size profile = length param_keys)) then
        Raise (InvalidInput "Invalid binding:profile. too many parameters")
      else Ok (param_dict, Some param_set)
  end.

(** [_get_data_from_binding_profile], with the parameter table as an
    argument.  The error messages are abridged: the values formatted into
    them are left out.  A parent that is not a string (which the table
    excludes) is reported as a port that is not found. *)
Definition _get_data_from_binding_profile (db : NeutronDb)
    (params : list (list (string * option pytype)))
    (profile : option (gmap string pyval))
  : result (gmap string pyval) :=
  match profile with
  | None => Ok ∅
  | Some profile =>
      '(param_dict, param_set) ← select_param_set profile params ∅ None;
      if bool_decide (param_dict = ∅) then Ok ∅
      else
        let param_set := default [] param_set in
        _ ← for_each
              (λ (_ : unit) '(param_key, param_type),
                 match param_type with
                 | None => Ok tt
                 | Some param_type =>
                     match param_dict !! param_key with
                     | None => Raise (KeyError param_key)
                     | Some param_value =>
                         if negb (isinstance param_value param_type) then
                           Raise (InvalidInput
                             "Invalid binding:profile. value invalid type")
                         else Ok tt
                     end
                 end)
              param_set tt;
        _ ← (if bool_decide ("parent_name" ∈ param_set.*1) then
               match param_dict !! "parent_name" with
               | Some (VStr parent) => _ ← get_port db parent; Ok tt
               | Some _ => Raise (PortNotFound EmptyString)
               | None => Raise (KeyError "parent_name")
               end
             else Ok tt);
        _ ← (if bool_decide ("tag" ∈ param_set.*1) then
               match param_dict !! "tag" with
               | Some v =>
                   match int_ v with
                   | Some tag =>
                       if (tag <? 0) || (tag >? 4095) then
                         Raise (InvalidInput
                           "Invalid binding:profile. tag must be an int between 1 and 4096, inclusive.")
                       else Ok tt
                   | None =>
                       Raise (match v with VStr _ => ValueError | _ => TypeError end)
                   end
               | None => Raise (KeyError "tag")
               end
             else Ok tt);
        Ok param_dict
  end.

(** ** Model adapter: the writes of the orchestration framework

    These are the inherited [super(OVNPlugin, self)] operations.  They are
    external to the plugin; the model keeps what the plugin relies on: rows
    keyed by id, and the port / security-group binding table kept in step
    with the ports. *)

Definition set_networks (f : gmap string Network.t → gmap string Network.t)
    (db : NeutronDb) : NeutronDb :=
  {| db_networks := f (db_networks db);
     db_ports := db_ports db;
     db_subnets := db_subnets db;
     db_security_groups := db_security_groups db;
     db_security_group_rules := db_security_group_rules db;
     db_port_bindings := db_port_bindings db |}.

Definition set_ports (f : gmap string Port.t → gmap string Port.t)
    (g : list Binding.t → list Binding.t) (db : NeutronDb) : NeutronDb :=
  {| db_networks := db_networks db;
     db_ports := f (db_ports db);
     db_subnets := db_subnets db;
     db_security_groups := db_security_groups db;
     db_security_group_rules := db_security_group_rules db;
     db_port_bindings := g (db_port_bindings db) |}.

Definition db_create_network (db : NeutronDb) (net : NetworkReq.t)
  : result (NeutronDb * Network.t) :=
  match db_networks db !! NetworkReq.id net with
  | Some _ => Raise DBDuplicateEntry
  | None =>
      let row := {| Network.id := NetworkReq.id net;
                    Network.name := NetworkReq.name net |} in
      Ok (set_networks (insert (NetworkReq.id net) row) db, row)
  end.

(** A network that still has ports cannot be deleted. *)
Definition db_delete_network (db : NeutronDb) (network_id : string)
  : result NeutronDb :=
  match db_networks db !! network_id with
  | None => Raise (NetworkNotFound network_id)
  | Some _ =>
      if bool_decide
           (map_Forall (λ _ p, Port.network_id p ≠ network_id) (db_ports db))
      then Ok (set_networks (delete network_id) db)
      else Raise (NetworkInUse network_id)
  end.

Definition bindings_of (port_id : string) (sgs : list string)
  : list Binding.t :=
  (λ sg, {| Binding.port_id := port_id; Binding.security_group_id := sg |})
    <$> sgs.

(** The stored port has its list attributes filled in. *)
Definition db_create_port (db : NeutronDb) (p : Port.t)
  : result (NeutronDb * Port.t) :=
  match db_networks db !! Port.network_id p, db_ports db !! Port.id p with
  | None, _ => Raise (NetworkNotFound (Port.network_id p))
  | Some _, Some _ => Raise DBDuplicateEntry
  | Some _, None =>
      let sgs := default [] (Port.security_groups p) in
      let row :=
        {| Port.id := Port.id p; Port.name := Port.name p;
           Port.network_id := Port.network_id p;
           Port.mac_address := Port.mac_address p;
           Port.admin_state_up := Port.admin_state_up p;
           Port.fixed_ips := Some (default [] (Port.fixed_ips p));
           Port.allowed_address_pairs :=
             Some (default [] (Port.allowed_address_pairs p));
           Port.security_groups := Some sgs |} in
      Ok (set_ports (insert (Port.id p) row)
                    (λ bs, bs ++ bindings_of (Port.id p) sgs) db, row)
  end.

Definition db_update_port (db : NeutronDb) (id : string) (u : PortUpdate.t)
  : result (NeutronDb * Port.t) :=
  p ← get_port db id;
  let row :=
    {| Port.id := Port.id p;
       Port.name := default (Port.name p) (PortUpdate.name u);
       Port.network_id := Port.network_id p;
       Port.mac_address := Port.mac_address p;
       Port.admin_state_up :=
         default (Port.admin_state_up p) (PortUpdate.admin_state_up u);
       Port.fixed_ips :=
         match PortUpdate.fixed_ips u with
         | Some ips => Some ips | None => Port.fixed_ips p end;
       Port.allowed_address_pairs :=
         match PortUpdate.allowed_address_pairs u with
         | Some a => Some a | None => Port.allowed_address_pairs p end;
       Port.security_groups :=
         match PortUpdate.security_groups u with
         | Some sgs => Some sgs | None => Port.security_groups p end |} in
  Ok (set_ports (insert id row)
        (λ bs,
           match PortUpdate.security_groups u with
           | Some sgs =>
               filter (λ b, Binding.port_id b ≠ id) bs ++ bindings_of id sgs
           | None => bs
           end) db, row).

(** [update_security_group_on_port]: whether the request changes the set of
    security groups of the port. *)
Definition update_security_group_on_port (u : PortUpdate.t)
    (original_port : Port.t) : bool :=
  match PortUpdate.security_groups u with
  | Some sgs =>
      negb (bool_decide
        ((list_to_set sgs : gset string)
         = list_to_set (default [] (Port.security_groups original_port))))
  | None => false
  end.

Definition db_delete_port (db : NeutronDb) (port_id : string)
  : result NeutronDb :=
  match db_ports db !! port_id with
  | None => Raise (PortNotFound port_id)
  | Some _ =>
      Ok (set_ports (delete port_id)
                    (filter (λ b, Binding.port_id b ≠ port_id)) db)
  end.

(** The first part of [create_network]: the provider attributes of the
    request are validated and turned into external ids. *)
Definition network_ext_ids (net : NetworkReq.t)
  : result (gmap string string) :=
  let ext_ids : gmap string string := ∅ in
  let physnet := NetworkReq.physical_network net in
  if truthy_str physnet then
    let nettype := NetworkReq.network_type net in
    if negb (bool_decide (nettype = Some "flat")
             || bool_decide (nettype = Some "vlan")) then
      Raise (InvalidInput
        "network type is not supported with provider networks (only flat or vlan).")
    else
      let segid := NetworkReq.segmentation_id net in
      let ext_ids :=
        <[OVN_NETTYPE_EXT_ID_KEY := pystr nettype]>
          (<[OVN_PHYSNET_EXT_ID_KEY := pystr physnet]> ext_ids) in
      if truthy_int segid then
        Ok (<[OVN_SEGID_EXT_ID_KEY := str_of_Z (default 0 segid)]> ext_ids)
      else Ok ext_ids
  else Ok ext_ids.

(** ** Topology store client

    The northbound API object [self._ovn]: running a transaction with
    [check_error=True] either yields the new store or raises and leaves the
    store as it was; [lswitch_external_ids] is the
    [idlutils.row_by_value] lookup of a Logical Switch by name. *)
Class OvnApi (OvnNb : Type) := {
  execute : OvnNb → list OvnCmd → result OvnNb;
  lswitch_external_ids : OvnNb → string → option (gmap string string)
}.

Section Plugin.
Context {OvnNb : Type} `{!OvnApi OvnNb}.

(** The two stores, and the transactions submitted to the topology store
    so far (whether they succeeded or not). *)
Record World := {
  w_db : NeutronDb;
  w_nb : OvnNb;
  w_log : list (list OvnCmd)
}.

Definition with_db (db : NeutronDb) (w : World) : World :=
  {| w_db := db; w_nb := w_nb w; w_log := w_log w |}.

(** Leaving a [with self._ovn.transaction(check_error=True)] block, or
    [.execute(check_error=True)] on a single command. *)
Definition commit (w : World) (txn : list OvnCmd) : result unit * World :=
  match execute (w_nb w) txn with
  | Ok nb =>
      (Ok tt, {| w_db := w_db w; w_nb := nb; w_log := w_log w ++ [txn] |})
  | Raise e =>
      (Raise e,
       {| w_db := w_db w; w_nb := w_nb w; w_log := w_log w ++ [txn] |})
  end.

(** *** Networks *)

Definition create_network_in_ovn (w : World) (network : Network.t)
    (ext_ids : gmap string string) : result Network.t * World :=
  let ext_ids :=
    <[OVN_NETWORK_NAME_EXT_ID_KEY := Network.name network]> ext_ids in
  match commit w [create_lswitch (ovn_name (Network.id network)) ext_ids] with
  | (Ok _, w) => (Ok network, w)
  | (Raise e, w) => (Raise e, w)
  end.

Definition delete_network (w : World) (network_id : string)
  : result unit * World :=
  match db_delete_network (w_db w) network_id with
  | Raise e => (Raise e, w)
  | Ok db =>
      let w := with_db db w in
      (* a failure of the topology store is logged and swallowed *)
      let '(_, w) := commit w [delete_lswitch (ovn_name network_id) true] in
      (Ok tt, w)
  end.

(** [_process_l3_create] only records whether the network is external; it
    is left out. *)
Definition create_network (w : World) (net : NetworkReq.t)
  : result Network.t * World :=
  match network_ext_ids net with
  | Raise e => (Raise e, w)
  | Ok ext_ids =>
      match db_create_network (w_db w) net with
      | Raise e => (Raise e, w)
      | Ok (db, result) =>
          let w := with_db db w in
          match create_network_in_ovn w result ext_ids with
          | (Ok network, w) => (Ok network, w)
          | (Raise _, w) =>
              match delete_network w (Network.id result) with
              | (Ok _, w) => (Raise ServiceUnavailable, w)
              | (Raise e, w) => (Raise e, w)
              end
          end
      end
  end.

(** *** Cascade refresher *)

(** A [for] loop whose body submits transactions and may raise. *)
Fixpoint for_each_w {A S : Type}
    (body : World → S → A → result S * World) (l : list A)
    (w : World) (s : S) : result S * World :=
  match l with
  | [] => (Ok s, w)
  | x :: l' =>
      match body w s x with
      | (Ok s', w') => for_each_w body l' w' s'
      | (Raise e, w') => (Raise e, w')
      end
  end.

(** The body of the loop of [_update_acls_for_security_group] over the
    bindings of the group. *)
Definition refresh_acls_step (db : NeutronDb) (exclude_ports : list string)
    (st : list OvnCmd * option (gmap string SecurityGroup.t)
          * gmap string (list Binding.t) * gmap string Subnet.t)
    (binding : Binding.t)
  : result (list OvnCmd * option (gmap string SecurityGroup.t)
            * gmap string (list Binding.t) * gmap string Subnet.t) :=
  let '(txn, sg_cache, sg_ports_cache, subnet_cache) := st in
  if bool_decide (Binding.port_id binding ∈ exclude_ports) then
    Ok (txn, sg_cache, sg_ports_cache, subnet_cache)
  else
    port ← get_port db (Binding.port_id binding);
    let txn :=
      txn ++ [delete_acl (ovn_name (Port.network_id port)) (Port.id port)] in
    _add_acls db port txn sg_cache (Some sg_ports_cache) (Some subnet_cache).

(** The body of the transaction of [_update_acls_for_security_group]. *)
Definition refresh_acls_txn (db : NeutronDb) (sg_ports : list Binding.t)
    (exclude_ports : list string)
    (sg_ports_cache : gmap string (list Binding.t))
    (subnet_cache : gmap string Subnet.t)
  : result (list OvnCmd * option (gmap string SecurityGroup.t)
            * gmap string (list Binding.t) * gmap string Subnet.t) :=
  for_each (refresh_acls_step db exclude_ports) sg_ports
           ([], Some ∅, sg_ports_cache, subnet_cache).

Definition _update_acls_for_security_group (w : World)
    (security_group_id : string)
    (sg_ports_cache : option (gmap string (list Binding.t)))
    (exclude_ports : option (list string))
    (subnet_cache : option (gmap string Subnet.t))
  : result (gmap string (list Binding.t) * gmap string Subnet.t) * World :=
  let exclude_ports := default [] exclude_ports in
  let sg_ports :=
    _get_port_security_group_bindings (w_db w) security_group_id in
  let sg_ports_cache := default ∅ sg_ports_cache in
  let subnet_cache := default ∅ subnet_cache in
  match refresh_acls_txn (w_db w) sg_ports exclude_ports
                         sg_ports_cache subnet_cache with
  | Raise e => (Raise e, w)
  | Ok (txn, _, sg_ports_cache, subnet_cache) =>
      match commit w txn with
      | (Ok _, w) => (Ok (sg_ports_cache, subnet_cache), w)
      | (Raise e, w) => (Raise e, w)
      end
  end.

Definition _refresh_remote_security_group (w : World) (sec_group : string)
    (sg_ports_cache : gmap string (list Binding.t))
    (exclude_ports : list string) (subnet_cache : gmap string Subnet.t)
  : result (gmap string (list Binding.t) * gmap string Subnet.t) * World :=
  let refering_rules := get_security_group_rules (w_db w) sec_group in
  let sg_ids : gset string :=
    list_to_set (Rule.security_group_id <$> refering_rules) in
  for_each_w
    (λ w '(sg_ports_cache, subnet_cache) sg_id,
       _update_acls_for_security_group w sg_id (Some sg_ports_cache)
         (Some exclude_ports) (Some subnet_cache))
    (elements sg_ids) w (sg_ports_cache, subnet_cache).

(** *** Ports *)

Definition tenant_lport (port : Port.t) (lswitch_name : string)
    (external_ids : gmap string string) (ovn_port_info : OvnPortInfo.t)
  : LPort.t :=
  {| LPort.lport_name := Port.id port;
     LPort.lswitch_name := lswitch_name;
     LPort.addresses := OvnPortInfo.addresses ovn_port_info;
     LPort.external_ids := external_ids;
     LPort.parent_name := OvnPortInfo.parent_name ovn_port_info;
     LPort.tag := OvnPortInfo.tag ovn_port_info;
     LPort.enabled := Some (Port.admin_state_up port);
     LPort.options := OvnPortInfo.options ovn_port_info;
     LPort.type := OvnPortInfo.type ovn_port_info;
     LPort.port_security := OvnPortInfo.port_security ovn_port_info |}.

(** The body of the second transaction of [_create_port_in_ovn]: the
    [localnet] port of a provider network, the port itself and its ACL
    entries. *)
Definition create_port_txn (db : NeutronDb) (port : Port.t)
    (ovn_port_info : OvnPortInfo.t) (net_ext_ids : gmap string string)
    (lswitch_name : string) (external_ids : gmap string string)
  : result (list OvnCmd * option (gmap string SecurityGroup.t)
            * gmap string (list Binding.t) * gmap string Subnet.t) :=
  let physnet := net_ext_ids !! OVN_PHYSNET_EXT_ID_KEY in
  txn ←
    (if truthy_str physnet then
       vlan_id ←
         match net_ext_ids !! OVN_SEGID_EXT_ID_KEY with
         | None => Ok VNone
         | Some vlan_id =>
             match int_ (VStr vlan_id) with
             | Some n => Ok (VInt n)
             | None => Raise ValueError
             end
         end;
       Ok [create_lport
         {| LPort.lport_name := "provnet-" +:+ Port.id port;
            LPort.lswitch_name := lswitch_name;
            LPort.addresses := ["unknown"];
            LPort.external_ids := external_ids;
            LPort.parent_name := VNone;
            LPort.tag := vlan_id;
            LPort.enabled := None;
            LPort.options :=
              Some {[ "network_name" := VStr (pystr physnet) ]};
            LPort.type := Some "localnet";
            LPort.port_security := [] |}]
     else Ok []);
  let txn :=
    txn ++ [create_lport
              (tenant_lport port lswitch_name external_ids ovn_port_info)] in
  _add_acls db port txn None (Some ∅) (Some ∅).

Definition _create_port_in_ovn (w : World) (port : Port.t)
    (ovn_port_info : OvnPortInfo.t) : result Port.t * World :=
  let external_ids : gmap string string :=
    {[ OVN_PORT_NAME_EXT_ID_KEY := Port.name port ]} in
  let lswitch_name := ovn_name (Port.network_id port) in
  match lswitch_external_ids (w_nb w) lswitch_name with
  | None =>
      (Raise (RuntimeError
                ("Logical Switch " +:+ lswitch_name +:+ " does not exist")),
       w)
  | Some net_ext_ids =>
      let physnet := net_ext_ids !! OVN_PHYSNET_EXT_ID_KEY in
      let lswitch_name :=
        if truthy_str physnet then ovn_name (Port.id port)
        else lswitch_name in
      let '(r, w) :=
        if truthy_str physnet
        then commit w [create_lswitch lswitch_name external_ids]
        else (Ok tt, w) in
      match r with
      | Raise e => (Raise e, w)
      | Ok _ =>
          match create_port_txn (w_db w) port ovn_port_info net_ext_ids
                                lswitch_name external_ids with
          | Raise e => (Raise e, w)
          | Ok (txn, _, sg_ports_cache, subnet_cache) =>
              match commit w txn with
              | (Raise e, w) => (Raise e, w)
              | (Ok _, w) =>
                  match
                    for_each_w
                      (λ w '(sg_ports_cache, subnet_cache) sg_id,
                         _refresh_remote_security_group w sg_id
                           sg_ports_cache [Port.id port] subnet_cache)
                      (port_get_list port "security_group") w
                      (sg_ports_cache, subnet_cache)
                  with
                  | (Ok _, w) => (Ok port, w)
                  | (Raise e, w) => (Raise e, w)
                  end
              end
          end
      end
  end.

Definition _update_port_in_ovn (w : World) (sg_updated : bool)
    (original_port port : Port.t) (ovn_port_info : OvnPortInfo.t)
  : result Port.t * World :=
  let external_ids : gmap string string :=
    {[ OVN_PORT_NAME_EXT_ID_KEY := Port.name port ]} in
  (* [set_lport] names no switch *)
  let txn :=
    [set_lport (tenant_lport port EmptyString external_ids ovn_port_info);
     delete_acl (ovn_name (Port.network_id port)) (Port.id port)] in
  match _add_acls (w_db w) port txn None (Some ∅) (Some ∅) with
  | Raise e => (Raise e, w)
  | Ok (txn, _, sg_ports_cache, subnet_cache) =>
      match commit w txn with
      | (Raise e, w) => (Raise e, w)
      | (Ok _, w) =>
          if sg_updated then
            let old_sg_ids : gset string :=
              list_to_set (port_get_list original_port "security_groups") in
            let new_sg_ids : gset string :=
              list_to_set (port_get_list port "security_groups") in
            let refresh :=
              λ w '(sg_ports_cache, subnet_cache) sg_id,
                _refresh_remote_security_group w sg_id sg_ports_cache
                  [Port.id port] subnet_cache in
            let detached_sg_ids := old_sg_ids ∖ new_sg_ids in
            match for_each_w refresh (elements detached_sg_ids) w
                             (sg_ports_cache, subnet_cache) with
            | (Raise e, w) => (Raise e, w)
            | (Ok caches, w) =>
                let attached_sg_ids := new_sg_ids ∖ old_sg_ids in
                match for_each_w refresh (elements attached_sg_ids) w
                                 caches with
                | (Raise e, w) => (Raise e, w)
                | (Ok _, w) => (Ok port, w)
                end
            end
          else (Ok port, w)
      end
  end.

(** Inside the model-store transaction of [create_port] the binding profile
    is validated first, then the row is written; the port-binding and
    extra-DHCP-option bookkeeping is left out. *)
Definition create_port (w : World) (req : PortReq.t)
  : result Port.t * World :=
  let in_session :=
    binding_profile ←
      _get_data_from_binding_profile (w_db w)
        OVN_PORT_BINDING_PROFILE_PARAMS (PortReq.binding_profile req);
    '(db, db_port) ← db_create_port (w_db w) (PortReq.port req);
    Ok (binding_profile, db, db_port) in
  match in_session with
  | Raise e => (Raise e, w)
  | Ok (binding_profile, db, db_port) =>
      let w := with_db db w in
      let ovn_port_info := _get_ovn_port_options binding_profile db_port in
      _create_port_in_ovn w db_port ovn_port_info
  end.

(** [update_port]; as for [create_port], the port-binding and
    extra-DHCP-option bookkeeping is left out. *)
Definition update_port (w : World) (id : string) (req : PortUpdate.t)
  : result Port.t * World :=
  let in_session :=
    binding_profile ←
      _get_data_from_binding_profile (w_db w)
        OVN_PORT_BINDING_PROFILE_PARAMS (PortUpdate.binding_profile req);
    original_port ← get_port (w_db w) id;
    '(db, updated_port) ← db_update_port (w_db w) id req;
    let sg_updated := update_security_group_on_port req original_port in
    Ok (binding_profile, original_port, db, updated_port, sg_updated) in
  match in_session with
  | Raise e => (Raise e, w)
  | Ok (binding_profile, original_port, db, updated_port, sg_updated) =>
      let w := with_db db w in
      let ovn_port_info :=
        _get_ovn_port_options binding_profile updated_port in
      _update_port_in_ovn w sg_updated original_port updated_port
                          ovn_port_info
  end.

(** [delete_port]; the floating IPs of the port are not modelled. *)
Definition delete_port (w : World) (port_id : string)
  : result unit * World :=
  match get_port (w_db w) port_id with
  | Raise e => (Raise e, w)
  | Ok port =>
      let '(r, w) :=
        match commit w [delete_lswitch (ovn_name (Port.id port)) false] with
        | (Raise (RuntimeError _), w) =>
            commit w [delete_lport port_id
                                   (ovn_name (Port.network_id port));
                      delete_acl (ovn_name (Port.network_id port))
                                 (Port.id port)]
        | other => other
        end in
      match r with
      | Raise e => (Raise e, w)
      | Ok _ =>
          match db_delete_port (w_db w) port_id with
          | Raise e => (Raise e, w)
          | Ok db => (Ok tt, with_db db w)
          end
      end
  end.

End Plugin.

Arguments World OvnNb : clear implicits.

(** ** A topology store

    Modelled from the spec: the northbound database and the behaviour of its
    commands ([networking_ovn.ovsdb]) are outside the plugin module.  The
    spec describes logical switches that contain logical ports and ACL
    entries, ACL entries tagged with the port that owns them, atomic
    transactions, and a switch deletion that fails when the switch is
    absent. *)

Module LSwitch.
Record t := {
  external_ids : gmap string string;
  ports : list LPort.t;
  acls : list Acl.t
}.
End LSwitch.

Record NbStore := {
  nb_reachable : bool;
  nb_switches : gmap string LSwitch.t
}.

Definition set_switches (f : gmap string LSwitch.t → gmap string LSwitch.t)
    (nb : NbStore) : NbStore :=
  {| nb_reachable := nb_reachable nb; nb_switches := f (nb_switches nb) |}.

Definition on_switch (nb : NbStore) (name : string)
    (f : LSwitch.t → LSwitch.t) : result NbStore :=
  match nb_switches nb !! name with
  | Some sw => Ok (set_switches (insert name (f sw)) nb)
  | None => Raise (RuntimeError ("Logical Switch " +:+ name +:+ " does not exist"))
  end.

Definition acl_owned_by (lport : string) (a : Acl.t) : Prop :=
  Acl.external_ids a !! "neutron:lport" = Some lport.

#[global] Instance acl_owned_by_dec (lport : string) (a : Acl.t)
  : Decision (acl_owned_by lport a) :=
  decide (Acl.external_ids a !! "neutron:lport" = Some lport).

Definition nb_apply (nb : NbStore) (cmd : OvnCmd) : result NbStore :=
  match cmd with
  | create_lswitch name ext =>
      match nb_switches nb !! name with
      | Some _ => Ok nb
      | None =>
          Ok (set_switches
                (insert name {| LSwitch.external_ids := ext;
                                LSwitch.ports := [];
                                LSwitch.acls := [] |}) nb)
      end
  | delete_lswitch name if_exists =>
      match nb_switches nb !! name with
      | Some _ => Ok (set_switches (delete name) nb)
      | None =>
          if if_exists then Ok nb
          else Raise (RuntimeError
                        ("Logical Switch " +:+ name +:+ " does not exist"))
      end
  | create_lport lp =>
      on_switch nb (LPort.lswitch_name lp)
        (λ sw, {| LSwitch.external_ids := LSwitch.external_ids sw;
                  LSwitch.ports := LSwitch.ports sw ++ [lp];
                  LSwitch.acls := LSwitch.acls sw |})
  | set_lport lp =>
      Ok (set_switches
            (fmap (λ sw,
               {| LSwitch.external_ids := LSwitch.external_ids sw;
                  LSwitch.ports :=
                    (λ p, if decide (LPort.lport_name p = LPort.lport_name lp)
                          then lp else p) <$> LSwitch.ports sw;
                  LSwitch.acls := LSwitch.acls sw |})) nb)
  | delete_lport lport_name lswitch =>
      on_switch nb lswitch
        (λ sw, {| LSwitch.external_ids := LSwitch.external_ids sw;
                  LSwitch.ports :=
                    filter (λ p, LPort.lport_name p ≠ lport_name)
                           (LSwitch.ports sw);
                  LSwitch.acls := LSwitch.acls sw |})
  | add_acl acl =>
      on_switch nb (Acl.lswitch acl)
        (λ sw, {| LSwitch.external_ids := LSwitch.external_ids sw;
                  LSwitch.ports := LSwitch.ports sw;
                  LSwitch.acls := LSwitch.acls sw ++ [acl] |})
  | delete_acl lswitch lport =>
      match nb_switches nb !! lswitch with
      | None => Ok nb
      | Some sw =>
          Ok (set_switches
                (insert lswitch
                   {| LSwitch.external_ids := LSwitch.external_ids sw;
                      LSwitch.ports := LSwitch.ports sw;
                      LSwitch.acls :=
                        filter (λ a, ¬ acl_owned_by lport a)
                               (LSwitch.acls sw) |}) nb)
      end
  end.

Definition nb_execute (nb : NbStore) (txn : list OvnCmd) : result NbStore :=
  if nb_reachable nb then for_each nb_apply txn nb
  else Raise (RuntimeError "OVSDB connection lost").

#[global] Instance nb_store_api : OvnApi NbStore := {
  execute := nb_execute;
  lswitch_external_ids nb name :=
    LSwitch.external_ids <$> nb_switches nb !! name
}.

(** ** Specification-level definitions *)

(** The clause that a bound of a port range contributes, as the spec words
    it: nothing when the bound is unset. *)
Definition bound_clause (port_match op : string) (bound : option Z) : string :=
  match bound with
  | Some n =>
      if bool_decide (n = 0 ∨ n = -1) then EmptyString
      else " && " +:+ port_match +:+ op +:+ str_of_Z n
  | None => EmptyString
  end.


(** The subnet record that the compiler uses for a subnet id: the cached
    one if there is one, the stored one otherwise. *)
Definition resolve_subnet (db : NeutronDb) (cache : gmap string Subnet.t)
    (id : string) : option Subnet.t :=
  match cache !! id with
  | Some s => Some s
  | None => db_subnets db !! id
  end.

(** The two drop-all entries of a port. *)
Definition drop_all (port : Port.t) (direction p : string) : OvnCmd :=
  add_acl {| Acl.lswitch := ovn_name (Port.network_id port);
             Acl.lport := Port.id port;
             Acl.priority := ACL_PRIORITY_DROP;
             Acl.action := ACL_ACTION_DROP;
             Acl.log := false;
             Acl.direction := direction;
             Acl.match_ := p +:+ " == " +:+ dq +:+ Port.id port +:+ dq
                           +:+ " && ip";
             Acl.external_ids := {[ "neutron:lport" := Port.id port ]} |}.

(** The DHCP bootstrap allow entry of a port for one IPv4 subnet. *)
Definition dhcp_allow (port : Port.t) (subnet : Subnet.t) : OvnCmd :=
  add_acl {| Acl.lswitch := ovn_name (Port.network_id port);
             Acl.lport := Port.id port;
             Acl.priority := ACL_PRIORITY_ALLOW;
             Acl.action := ACL_ACTION_ALLOW;
             Acl.log := false;
             Acl.direction := "to-lport";
             Acl.match_ :=
               "outport == " +:+ dq +:+ Port.id port +:+ dq
               +:+ " && ip4 && ip4.src == " +:+ Subnet.cidr subnet
               +:+ " && udp && udp.src == 67 && udp.dst == 68";
             Acl.external_ids := {[ "neutron:lport" := Port.id port ]} |}.

(** The DHCP bootstrap entries of a port: one for each fixed IP that lies
    on an IPv4 subnet. *)
Definition dhcp_entries (db : NeutronDb) (cache : gmap string Subnet.t)
    (port : Port.t) (ips : list FixedIp.t) : list OvnCmd :=
  omap (λ ip,
          match resolve_subnet db cache (FixedIp.subnet_id ip) with
          | Some s =>
              if Subnet.ip_version s =? 4 then Some (dhcp_allow port s)
              else None
          | None => None
          end) ips.

(** The action of a command that adds an ACL entry. *)
Definition cmd_action (c : OvnCmd) : option string :=
  match c with
  | add_acl a => Some (Acl.action a)
  | _ => None
  end.

(** The dedup key of a command that adds an ACL entry. *)
Definition cmd_key (c : OvnCmd) : option (string * Z * string * string) :=
  match c with
  | add_acl a => Some (acl_key a)
  | _ => None
  end.

(** Every port of the model store is on a network of the model store. *)
Definition db_wf (db : NeutronDb) : Prop :=
  map_Forall (λ _ p, is_Some (db_networks db !! Port.network_id p))
             (db_ports db).

(** Whether some submitted transaction deletes the ACL entries of a port,
    which is the first step of regenerating them. *)
Definition acl_regenerated (log : list (list OvnCmd)) (port_id : string)
  : bool :=
  existsb
    (existsb (λ c, match c with
                   | delete_acl _ lport => bool_decide (lport = port_id)
                   | _ => false
                   end))
    log.

(** Whether a command belongs to the deletion of the port [port], looked
    up as [port_id]: the removal of its private switch, of its logical
    port, or of its own ACL entries. *)
Definition deletes_only (port_id : string) (port : Port.t) (c : OvnCmd)
  : Prop :=
  c = delete_lswitch (ovn_name (Port.id port)) false
  ∨ c = delete_lport port_id (ovn_name (Port.network_id port))
  ∨ c = delete_acl (ovn_name (Port.network_id port)) (Port.id port).

Definition is_ok {A : Type} (r : result A) : bool :=
  match r with
  | Ok _ => true
  | Raise _ => false
  end.

(** The key sets of the two recognised parameter groups of a binding
    profile, and their union. *)
Definition trunk_keys : gset string := {[ "parent_name"; "tag" ]}.
Definition vtep_keys : gset string :=
  {[ "vtep_physical_switch"; "vtep_logical_switch" ]}.
Definition recognised_keys : gset string := trunk_keys ∪ vtep_keys.

Definition is_invalid_input {A : Type} (r : result A) : Prop :=
  ∃ msg, r = Raise (InvalidInput msg).

(** Whether a command adds an ACL entry. *)
Definition is_add_acl (c : OvnCmd) : Prop := ∃ a, c = add_acl a.

(** Whether a command deletes the ACL entries of some port. *)
Definition is_delete_acl (c : OvnCmd) : bool :=
  match c with
  | delete_acl _ _ => true
  | _ => false
  end.

(** ** Sample data *)

Definition tcp_rule (lo hi : option Z) : Rule.t :=
  {| Rule.id := "rule-1"; Rule.security_group_id := "sg-web";
     Rule.direction := "ingress"; Rule.ethertype := "IPv4";
     Rule.protocol := Some "tcp";
     Rule.port_range_min := lo; Rule.port_range_max := hi;
     Rule.remote_ip_prefix := None; Rule.remote_group_id := None |}.

Definition sample_ip_a : FixedIp.t :=
  {| FixedIp.subnet_id := "subnet-1"; FixedIp.ip_address := "10.0.0.5" |}.
Definition sample_ip_b : FixedIp.t :=
  {| FixedIp.subnet_id := "subnet-1"; FixedIp.ip_address := "10.0.0.6" |}.

Definition sample_port (id : string) (sgs : option (list string))
    (ips : option (list FixedIp.t)) : Port.t :=
  {| Port.id := id; Port.name := "vm-" +:+ id; Port.network_id := "net-1";
     Port.mac_address := "fa:16:3e:00:00:01"; Port.admin_state_up := true;
     Port.fixed_ips := ips; Port.allowed_address_pairs := Some [];
     Port.security_groups := sgs |}.

Definition sample_subnet : Subnet.t :=
  {| Subnet.id := "subnet-1"; Subnet.network_id := "net-1";
     Subnet.ip_version := 4; Subnet.cidr := "10.0.0.0/24" |}.

(** A rule of group [sg-web] that admits tcp up to port 80 from the members
    of group [sg-db]. *)
Definition web_from_db : Rule.t :=
  {| Rule.id := "rule-2"; Rule.security_group_id := "sg-web";
     Rule.direction := "ingress"; Rule.ethertype := "IPv4";
     Rule.protocol := Some "tcp";
     Rule.port_range_min := Some (-1); Rule.port_range_max := Some 80;
     Rule.remote_ip_prefix := None; Rule.remote_group_id := Some "sg-db" |}.

(** A model store with one network, one IPv4 subnet, three security groups
    ([sg-web] with the rule above, [sg-db] and [sg-empty] without rules) and
    one port, [port-web], bound to [sg-web]. *)
Definition sample_db : NeutronDb :=
  {| db_networks :=
       {[ "net-1" := {| Network.id := "net-1"; Network.name := "private" |} ]};
     db_ports :=
       {[ "port-web" := sample_port "port-web" (Some ["sg-web"])
                                    (Some [sample_ip_a]) ]};
     db_subnets := {[ "subnet-1" := sample_subnet ]};
     db_security_groups := {[ "sg-web"; "sg-db"; "sg-empty" ]};
     db_security_group_rules := [web_from_db];
     db_port_bindings :=
       [ {| Binding.port_id := "port-web";
            Binding.security_group_id := "sg-web" |} ] |}.

Definition sample_nb (reachable : bool) : NbStore :=
  {| nb_reachable := reachable;
     nb_switches :=
       {[ "neutron-net-1" :=
            {| LSwitch.external_ids := ∅; LSwitch.ports := [];
               LSwitch.acls := [] |} ]} |}.

Definition sample_world (reachable : bool) : World NbStore :=
  {| w_db := sample_db; w_nb := sample_nb reachable; w_log := [] |}.

Definition no_update : PortUpdate.t :=
  {| PortUpdate.name := None; PortUpdate.admin_state_up := None;
     PortUpdate.fixed_ips := None; PortUpdate.allowed_address_pairs := None;
     PortUpdate.security_groups := None;
     PortUpdate.binding_profile := None |}.

(** The sample world after [port-db], bound to [sg-db], has been created
    and the entries of [port-web] have been recompiled: the allow-related
    entry of [port-web] now lists [port-db]. *)
Definition world_with_two_ports : World NbStore :=
  let w :=
    (create_port (sample_world true)
       {| PortReq.port := sample_port "port-db" (Some ["sg-db"])
                                      (Some [sample_ip_b]);
          PortReq.binding_profile := None |}).2 in
  (update_port w "port-web" no_update).2.

Definition trunk_profile (tag : Z) : gmap string pyval :=
  <["tag" := VInt tag]> {[ "parent_name" := VStr "port-web" ]}.




Definition port_db_request (profile : option (gmap string pyval))
  : PortReq.t :=
  {| PortReq.port := sample_port "port-db" (Some ["sg-db"])
                                 (Some [sample_ip_b]);
     PortReq.binding_profile := profile |}.

(** ** Router interfaces *)

(** The body of an interface request: the port or the subnet that names the
    interface; a key that the request does not carry is [None]. *)
Module InterfaceInfo.
Record t := { port_id : option string; subnet_id : option string }.
End InterfaceInfo.

(** The loop of [remove_router_interface] over the interface ports of the
    router: the first port whose only subnet is [subnet_id]. *)
Fixpoint scan_interface_ports (subnet_id : string) (ports : list Port.t)
  : result (option string) :=
  match ports with
  | [] => Ok None
  | p :: ports =>
      match Port.fixed_ips p with
      | None => Raise (KeyError "fixed_ips")
      | Some ips =>
          let port_subnets := FixedIp.subnet_id <$> ips in
          if bool_decide (subnet_id ∈ port_subnets)
             && bool_decide (length port_subnets = 1%nat)
          then Ok (Some (Port.id p))
          else scan_interface_ports subnet_id ports
      end
  end.

(** The head of [remove_router_interface] in L3 mode: the id of the port
    whose logical router port is to be removed, if any.  [router_ports]
    stands for the [get_ports] query of the model store: the interface
    ports of the router on the network given. *)
Definition interface_port_id (db : NeutronDb)
    (router_ports : string → list Port.t) (interface_info : InterfaceInfo.t)
  : result (option string) :=
  match InterfaceInfo.port_id interface_info with
  | Some port_id => Ok (Some port_id)
  | None =>
      match InterfaceInfo.subnet_id interface_info with
      | Some subnet_id =>
          subnet ← get_subnet db subnet_id;
          scan_interface_ports subnet_id
            (router_ports (Subnet.network_id subnet))
      | None => Ok None
      end
  end.

(** ** Security-group operations *)


Section SecurityGroups.
Context {OvnNb : Type} `{!OvnApi OvnNb}.



End SecurityGroups.

(** ** Specification-level definitions for the further properties *)

(** The port ids of a remote group as they appear in a match: each between
    double quotes, separated by commas. *)
Fixpoint quoted_ids (ids : list string) : string :=
  match ids with
  | [] => EmptyString
  | [id] => dq +:+ id +:+ dq
  | id :: ids => dq +:+ id +:+ dq +:+ "," +:+ quoted_ids ids
  end.

(** [w'] is [w] after some transactions were submitted: the model store is
    the same and the list of submitted transactions has grown. *)
Definition submitted {OvnNb : Type} (w w' : World OvnNb)
    (l : list (list OvnCmd)) : Prop :=
  w_db w' = w_db w ∧ w_log w' = w_log w ++ l.

(** The ACL entry that a command adds, if it adds one. *)
Definition cmd_acl (c : OvnCmd) : option Acl.t :=
  match c with
  | add_acl a => Some a
  | _ => None
  end.

(** An ACL entry of [port] as the compiler builds them: on the switch of the
    port's network, for the port, and tagged with the port as owner. *)
Definition acl_of_port (port : Port.t) (a : Acl.t) : Prop :=
  Acl.lswitch a = ovn_name (Port.network_id port)
  ∧ Acl.lport a = Port.id port
  ∧ Acl.external_ids a = {[ "neutron:lport" := Port.id port ]}.

(** A transaction regenerates the entries of [port]: it deletes them. *)
Definition regenerates (txn : list OvnCmd) (port : Port.t) : Prop :=
  delete_acl (ovn_name (Port.network_id port)) (Port.id port) ∈ txn.

(** The per-rule entries that the group loop has filed: duplicate-free by
    key, each under its own key, each an allow-related entry of the port. *)
Definition rule_entries_ok (port : Port.t)
    (acls : list (string * Z * string * string * Acl.t)) : Prop :=
  NoDup acls.*1
  ∧ Forall (λ kc, kc.1 = acl_key kc.2
                  ∧ acl_of_port port kc.2
                  ∧ Acl.priority kc.2 = ACL_PRIORITY_ALLOW
                  ∧ Acl.action kc.2 = ACL_ACTION_ALLOW_RELATED) acls.


(** A switch of the modelled store with its ACL entries replaced. *)
Definition with_acls (acls : list Acl.t) (sw : LSwitch.t) : LSwitch.t :=
  {| LSwitch.external_ids := LSwitch.external_ids sw;
     LSwitch.ports := LSwitch.ports sw;
     LSwitch.acls := acls |}.




(** ** Sample data for the further properties *)

Definition web_port : Port.t :=
  sample_port "port-web" (Some ["sg-web"]) (Some [sample_ip_a]).

Definition db_port : Port.t :=
  sample_port "port-db" (Some ["sg-db"]) (Some [sample_ip_b]).

(** The model store once [port-db], bound to [sg-db], exists beside
    [port-web]. *)
Definition two_port_db : NeutronDb := w_db world_with_two_ports.

(** A request for a VLAN provider network, and one with a network type
    that is not supported. *)
Definition provider_network (network_type : string) : NetworkReq.t :=
  {| NetworkReq.id := "net-2"; NetworkReq.name := "uplink";
     NetworkReq.physical_network := Some "physnet1";
     NetworkReq.network_type := Some network_type;
     NetworkReq.segmentation_id := Some 100 |}.

(** The sample world after the VLAN provider network has been created, and
    a port for that network. *)
Definition provider_world : World NbStore :=
  (create_network (sample_world true) (provider_network "vlan")).2.

Definition uplink_port : Port.t :=
  {| Port.id := "port-up"; Port.name := "vm-up"; Port.network_id := "net-2";
     Port.mac_address := "fa:16:3e:00:00:02"; Port.admin_state_up := true;
     Port.fixed_ips := Some []; Port.allowed_address_pairs := Some [];
     Port.security_groups := Some [] |}.

(** An update that attaches [sg-db] to a port. *)
Definition attach_sg_db : PortUpdate.t :=
  {| PortUpdate.name := None; PortUpdate.admin_state_up := None;
     PortUpdate.fixed_ips := None; PortUpdate.allowed_address_pairs := None;
     PortUpdate.security_groups := Some ["sg-db"];
     PortUpdate.binding_profile := None |}.

(** An ICMP rule of [sg-web] with a type range. *)
Definition icmp_rule : Rule.t :=
  {| Rule.id := "rule-3"; Rule.security_group_id := "sg-web";
     Rule.direction := "egress"; Rule.ethertype := "IPv4";
     Rule.protocol := Some "icmp";
     Rule.port_range_min := Some 8; Rule.port_range_max := None;
     Rule.remote_ip_prefix := None; Rule.remote_group_id := None |}.

(** Interface ports of a router: one with two addresses on [subnet-1], then
    one with a single address there. *)
Definition sample_router_ports (network_id : string) : list Port.t :=
  if bool_decide (network_id = "net-1") then
    [sample_port "port-r1" None (Some [sample_ip_a; sample_ip_b]);
     sample_port "port-r2" None (Some [sample_ip_b])]
  else [].

(** An ACL entry, and a second one under the same key. *)
Definition sample_acl (log : bool) : Acl.t :=
  {| Acl.lswitch := "neutron-net-1"; Acl.lport := "port-web";
     Acl.priority := ACL_PRIORITY_ALLOW;
     Acl.action := ACL_ACTION_ALLOW_RELATED; Acl.log := log;
     Acl.direction := "to-lport"; Acl.match_ := "ip4";
     Acl.external_ids := {[ "neutron:lport" := "port-web" ]} |}.

(** The sample model store with a topology store that holds no switch. *)
Definition switchless_world : World NbStore :=
  {| w_db := sample_db;
     w_nb := {| nb_reachable := true; nb_switches := ∅ |};
     w_log := [] |}.

(** The model store of the provider world with a topology store that
    cannot be reached. *)
Definition unreachable_provider_world : World NbStore :=
  {| w_db := w_db provider_world; w_nb := sample_nb false; w_log := [] |}.

Definition subnet_interface : InterfaceInfo.t :=
  {| InterfaceInfo.port_id := None;
     InterfaceInfo.subnet_id := Some "subnet-1" |}.

(** The value of a computation that is known to return. *)
Definition from_ok {A : Type} (r : result A) (d : A) : A :=
  match r with
  | Ok a => a
  | Raise _ => d
  end.

(** A compilation pass for [port-web] once [port-db] exists, from an empty
    transaction and after the deletion of its entries. *)
Definition web_port_pass (txn : list OvnCmd)
  : list OvnCmd * option (gmap string SecurityGroup.t)
    * gmap string (list Binding.t) * gmap string Subnet.t :=
  from_ok (_add_acls two_port_db web_port txn None None None)
          ([], None, ∅, ∅).

Definition web_binding : Binding.t :=
  {| Binding.port_id := "port-web"; Binding.security_group_id := "sg-web" |}.

(** Equality of two closed terms by evaluation; the two sides are compared
    when the proof is closed. *)
Ltac vm_refl :=
  match goal with |- _ = ?r => vm_cast_no_check (@eq_refl _ r) end.

(** An ingress rule of [sg-web] with an ethertype that is neither IPv4 nor
    IPv6 and a remote prefix. *)
Definition arp_rule : Rule.t :=
  {| Rule.id := "rule-4"; Rule.security_group_id := "sg-web";
     Rule.direction := "ingress"; Rule.ethertype := "ARP";
     Rule.protocol := None;
     Rule.port_range_min := None; Rule.port_range_max := None;
     Rule.remote_ip_prefix := Some "10.0.0.0/8";
     Rule.remote_group_id := None |}.

(** * Properties *)

(** ** Strings *)

Lemma append_cons (c : ascii) (s1 s2 : string) :
  String c s1 +:+ s2 = String c (s1 +:+ s2).
Proof. reflexivity. Qed.

Lemma length_append (s1 s2 : string) :
  String.length (s1 +:+ s2) = (String.length s1 + String.length s2)%nat.
Proof.
  induction s1 as [|c s1 IH]; [done |].
  rewrite append_cons. simpl. by rewrite IH.
Qed.

Lemma append_assoc (s1 s2 s3 : string) :
  (s1 +:+ s2) +:+ s3 = s1 +:+ (s2 +:+ s3).
Proof.
  induction s1 as [|c s1 IH]; [done |].
  rewrite !append_cons. by f_equal.
Qed.

Lemma append_nil_r (s : string) : s +:+ EmptyString = s.
Proof.
  induction s as [|c s IH]; [done |].
  rewrite append_cons. by f_equal.
Qed.

(** A string is never equal to itself with a non-empty string put in
    front of it. *)
Lemma append_neq_self (s1 s : string) :
  (0 < String.length s1)%nat → s1 +:+ s ≠ s.
Proof.
  intros Hne Heq. apply (f_equal String.length) in Heq.
  rewrite length_append in Heq. lia.
Qed.

(** ** Match expression builder: protocol and port range *)

Lemma with_port_range_min_id (r : Rule.t) :
  Rule.with_port_range_min (Rule.port_range_min r) r = r.
Proof. by destruct r. Qed.

Lemma with_port_range_max_id (r : Rule.t) :
  Rule.with_port_range_max (Rule.port_range_max r) r = r.
Proof. by destruct r. Qed.

(** For tcp and udp the protocol part of a match is the protocol tag
    followed by the clauses of the two bounds. *)
Lemma protocol_and_ports_l4 (r : Rule.t) (icmp : option string) (p : string) :
  Rule.protocol r = Some p → p = "tcp" ∨ p = "udp" →
  _acl_protocol_and_ports r icmp
  = " && " +:+ p +:+ bound_clause (p +:+ ".dst") " >= " (Rule.port_range_min r)
           +:+ bound_clause (p +:+ ".dst") " <= " (Rule.port_range_max r).
Proof.
  intros Hp Hl4. unfold _acl_protocol_and_ports. rewrite Hp.
  destruct (Rule.port_range_min r) as [lo|], (Rule.port_range_max r) as [hi|];
    destruct Hl4 as [-> | ->]; simpl; unfold bound_clause;
    repeat case_bool_decide; simplify_eq;
    repeat match goal with
    | |- context [?n =? 0] => destruct (Z.eqb_spec n 0); try lia
    | H : ¬ (_ ∨ _) |- _ => apply Decidable.not_or in H as [? ?]
    | H : _ ∨ _ |- _ => destruct H; try lia
    end; simpl; try congruence; try lia;
    rewrite ?append_nil_r, ?append_assoc; simpl; reflexivity.
Qed.

(** A bound of [-1], [0] or [None] leaves the protocol part as it is with
    the bound unset; this holds for every protocol. *)
Lemma port_range_min_unset (r : Rule.t) (icmp : option string) (v : option Z) :
  v = None ∨ v = Some 0 ∨ v = Some (-1) →
  _acl_protocol_and_ports (Rule.with_port_range_min v r) icmp
  = _acl_protocol_and_ports (Rule.with_port_range_min None r) icmp.
Proof. intros [-> | [-> | ->]]; reflexivity. Qed.

Lemma port_range_max_unset (r : Rule.t) (icmp : option string) (v : option Z) :
  v = None ∨ v = Some 0 ∨ v = Some (-1) →
  _acl_protocol_and_ports (Rule.with_port_range_max v r) icmp
  = _acl_protocol_and_ports (Rule.with_port_range_max None r) icmp.
Proof.
  intros Hv. unfold _acl_protocol_and_ports. simpl.
  destruct Hv as [-> | [-> | ->]]; reflexivity.
Qed.

(** The bounds of a rule reach the compiled entry only through the protocol
    part of the match. *)
Lemma sg_rule_acl_protocol_part (db : NeutronDb) (port : Port.t)
    (r r' : Rule.t) (cache : gmap string (list Binding.t)) :
  Rule.direction r' = Rule.direction r →
  Rule.ethertype r' = Rule.ethertype r →
  Rule.remote_ip_prefix r' = Rule.remote_ip_prefix r →
  Rule.remote_group_id r' = Rule.remote_group_id r →
  (∀ icmp, _acl_protocol_and_ports r' icmp = _acl_protocol_and_ports r icmp) →
  _add_sg_rule_acl_for_port db port r' cache
  = _add_sg_rule_acl_for_port db port r cache.
Proof.
  intros Hd He Hp Hg Hpp.
  unfold _add_sg_rule_acl_for_port, _acl_direction, _acl_ethertype,
    _acl_remote_ip_prefix, _acl_remote_group_id.
  rewrite Hd, He, Hp, Hg.
  repeat case_decide; simpl; by rewrite ?Hpp.
Qed.

(** C7 -- Port-range boundary.  A bound equal to [-1] is treated as unset:
    the protocol part of the match, and with it the whole compiled entry, is
    the one of the rule with that bound absent.  For a tcp rule with
    [port_range_min = -1] and [port_range_max = 80] the protocol part is
    [ && tcp && tcp.dst <= 80]: it holds the upper-bound clause and no
    lower-bound clause, and the match of the compiled entry ends with it. *)
Theorem port_range_boundary (r : Rule.t) (icmp : option string) :
  (Rule.port_range_min r = Some (-1) →
     _acl_protocol_and_ports r icmp
     = _acl_protocol_and_ports (Rule.with_port_range_min None r) icmp
     ∧ ∀ db port cache,
         _add_sg_rule_acl_for_port db port r cache
         = _add_sg_rule_acl_for_port db port
             (Rule.with_port_range_min None r) cache)
  ∧ (Rule.port_range_max r = Some (-1) →
     _acl_protocol_and_ports r icmp
     = _acl_protocol_and_ports (Rule.with_port_range_max None r) icmp
     ∧ ∀ db port cache,
         _add_sg_rule_acl_for_port db port r cache
         = _add_sg_rule_acl_for_port db port
             (Rule.with_port_range_max None r) cache)
  ∧ (Rule.protocol r = Some "tcp" →
     Rule.port_range_min r = Some (-1) →
     Rule.port_range_max r = Some 80 →
     _acl_protocol_and_ports r icmp = " && tcp && tcp.dst <= 80"
     ∧ contains (_acl_protocol_and_ports r icmp) "tcp.dst <= 80" = true
     ∧ contains (_acl_protocol_and_ports r icmp) "tcp.dst >=" = false
     ∧ ∀ db port cache cmd cache',
         _add_sg_rule_acl_for_port db port r cache = Ok (Some cmd, cache') →
         ∃ pre, Acl.match_ cmd = pre +:+ " && tcp && tcp.dst <= 80").
Proof.
  split; [| split].
  - intros Hmin.
    assert (Hpp : ∀ icmp',
      _acl_protocol_and_ports (Rule.with_port_range_min None r) icmp'
      = _acl_protocol_and_ports r icmp').
    { intros icmp'. rewrite <- (with_port_range_min_id r) at 2.
      rewrite Hmin. symmetry. apply port_range_min_unset. auto. }
    split; [by rewrite Hpp |].
    intros db port cache. symmetry.
    by apply sg_rule_acl_protocol_part.
  - intros Hmax.
    assert (Hpp : ∀ icmp',
      _acl_protocol_and_ports (Rule.with_port_range_max None r) icmp'
      = _acl_protocol_and_ports r icmp').
    { intros icmp'. rewrite <- (with_port_range_max_id r) at 2.
      rewrite Hmax. symmetry. apply port_range_max_unset. auto. }
    split; [by rewrite Hpp |].
    intros db port cache. symmetry.
    by apply sg_rule_acl_protocol_part.
  - intros Hp Hmin Hmax.
    assert (Hpp : ∀ icmp',
      _acl_protocol_and_ports r icmp' = " && tcp && tcp.dst <= 80").
    { intros icmp'. rewrite (protocol_and_ports_l4 r icmp' "tcp") by auto.
      rewrite Hmin, Hmax. reflexivity. }
    rewrite Hpp. repeat split; try reflexivity.
    intros db port cache cmd cache'.
    unfold _add_sg_rule_acl_for_port.
    destruct (_acl_direction r port) as [m remote_portdir].
    destruct (_acl_ethertype r) as [[ip_match ip] icmp'].
    destruct (_acl_remote_group_id db r cache port remote_portdir)
      as [[group_match [|]] cache'']; [done |].
    rewrite Hpp.
    destruct (dir_map (Rule.direction r)) as [d|e]; simpl; [| done].
    intros [= <- <-]. simpl. eauto.
Qed.

Lemma port_range_boundary_witness :
  _acl_protocol_and_ports (tcp_rule (Some (-1)) (Some 80)) (Some "icmp4")
  = " && tcp && tcp.dst <= 80"
  ∧ _acl_protocol_and_ports (tcp_rule (Some (-1)) (Some 80)) (Some "icmp4")
    = _acl_protocol_and_ports (tcp_rule None (Some 80)) (Some "icmp4")
  ∧ _acl_protocol_and_ports (tcp_rule (Some 22) (Some (-1))) (Some "icmp4")
    = _acl_protocol_and_ports (tcp_rule (Some 22) None) (Some "icmp4").
Proof.
  destruct (port_range_boundary (tcp_rule (Some (-1)) (Some 80))
                                (Some "icmp4")) as (Hmin & _ & Htcp).
  destruct (port_range_boundary (tcp_rule (Some 22) (Some (-1)))
                                (Some "icmp4")) as (_ & Hmax & _).
  split; [apply Htcp; reflexivity |].
  split; [apply Hmin; reflexivity | apply Hmax; reflexivity].
Defined.

(** C10 -- Port bound 0 is treated as unset (amended).  For a tcp or udp
    rule, a bound that is [None] or [0] produces no clause, exactly as a
    bound of [-1]; every other bound, negative ones included, produces its
    clause. *)
Theorem port_bound_zero_unset (r : Rule.t) (icmp : option string)
    (p : string) :
  Rule.protocol r = Some p → p = "tcp" ∨ p = "udp" →
  (Rule.port_range_min r = None ∨ Rule.port_range_min r = Some 0 →
     _acl_protocol_and_ports r icmp
     = _acl_protocol_and_ports (Rule.with_port_range_min (Some (-1)) r) icmp
     ∧ _acl_protocol_and_ports r icmp
       = " && " +:+ p
         +:+ bound_clause (p +:+ ".dst") " <= " (Rule.port_range_max r))
  ∧ (Rule.port_range_max r = None ∨ Rule.port_range_max r = Some 0 →
     _acl_protocol_and_ports r icmp
     = _acl_protocol_and_ports (Rule.with_port_range_max (Some (-1)) r) icmp
     ∧ _acl_protocol_and_ports r icmp
       = " && " +:+ p
         +:+ bound_clause (p +:+ ".dst") " >= " (Rule.port_range_min r))
  ∧ (∀ n, Rule.port_range_min r = Some n → n ≠ 0 → n ≠ -1 →
     _acl_protocol_and_ports r icmp
     = " && " +:+ p +:+ (" && " +:+ p +:+ ".dst >= " +:+ str_of_Z n)
       +:+ bound_clause (p +:+ ".dst") " <= " (Rule.port_range_max r)
     ∧ _acl_protocol_and_ports r icmp
       ≠ _acl_protocol_and_ports (Rule.with_port_range_min None r) icmp)
  ∧ (∀ n, Rule.port_range_max r = Some n → n ≠ 0 → n ≠ -1 →
     _acl_protocol_and_ports r icmp
     = " && " +:+ p
       +:+ bound_clause (p +:+ ".dst") " >= " (Rule.port_range_min r)
       +:+ (" && " +:+ p +:+ ".dst <= " +:+ str_of_Z n)
     ∧ _acl_protocol_and_ports r icmp
       ≠ _acl_protocol_and_ports (Rule.with_port_range_max None r) icmp).
Proof.
  intros Hp Hl4.
  assert (Hform := λ r', protocol_and_ports_l4 r' icmp p).
  split; [| split; [| split]].
  - intros Hmin. split.
    + rewrite <- (with_port_range_min_id r) at 1.
      rewrite !(port_range_min_unset r icmp) by tauto.
      symmetry. apply port_range_min_unset. tauto.
    + rewrite Hform by done. by destruct Hmin as [-> | ->].
  - intros Hmax. split.
    + rewrite <- (with_port_range_max_id r) at 1.
      rewrite !(port_range_max_unset r icmp) by tauto.
      symmetry. apply port_range_max_unset. tauto.
    + rewrite Hform by done.
      destruct Hmax as [-> | ->]; simpl; by rewrite append_nil_r.
  - intros n Hmin Hn0 Hn1.
    rewrite !Hform by done. simpl. rewrite Hmin. simpl.
    rewrite bool_decide_eq_false_2 by lia.
    split; [by rewrite !append_assoc |].
    rewrite !append_assoc. intros Heq.
    apply String.app_inj, String.app_inj in Heq.
    revert Heq. rewrite <- !append_assoc. apply append_neq_self.
    rewrite !length_append. simpl. lia.
  - intros n Hmax Hn0 Hn1.
    rewrite !Hform by done. simpl. rewrite Hmax. simpl.
    rewrite bool_decide_eq_false_2 by lia.
    split; [by rewrite !append_assoc |].
    intros Heq. apply (f_equal String.length) in Heq.
    rewrite !length_append in Heq. simpl in Heq. lia.
Qed.

Lemma port_bound_zero_unset_witness :
  _acl_protocol_and_ports (tcp_rule (Some 0) None) None
  = _acl_protocol_and_ports (tcp_rule (Some (-1)) None) None
  ∧ _acl_protocol_and_ports (tcp_rule (Some 22) (Some 0)) None
    = _acl_protocol_and_ports (tcp_rule (Some 22) (Some (-1))) None
  ∧ _acl_protocol_and_ports (tcp_rule (Some 22) (Some 0)) None
    ≠ _acl_protocol_and_ports (tcp_rule None (Some 0)) None
  ∧ _acl_protocol_and_ports (tcp_rule (Some 0) (Some 80)) None
    ≠ _acl_protocol_and_ports (tcp_rule (Some 0) None) None.
Proof.
  destruct (port_bound_zero_unset (tcp_rule (Some 0) None) None "tcp"
              eq_refl (or_introl eq_refl)) as (Hmin & _ & _ & _).
  destruct (port_bound_zero_unset (tcp_rule (Some 22) (Some 0)) None "tcp"
              eq_refl (or_introl eq_refl)) as (_ & Hmax & Hlo & _).
  destruct (port_bound_zero_unset (tcp_rule (Some 0) (Some 80)) None "tcp"
              eq_refl (or_introl eq_refl)) as (_ & _ & _ & Hhi).
  split; [apply Hmin; right; reflexivity |].
  split; [apply Hmax; right; reflexivity |].
  split; [apply (Hlo 22); [reflexivity | lia | lia] |].
  apply (Hhi 80); [reflexivity | lia | lia].
Defined.

(** C10, as stated, fails: a negative bound other than [-1] is not
    strictly positive, yet it emits its clause. *)
Lemma port_bound_negative_emits :
  Rule.protocol (tcp_rule (Some (-2)) None) = Some "tcp"
  ∧ ¬ (0 < -2)
  ∧ _acl_protocol_and_ports (tcp_rule (Some (-2)) None) None
    = " && tcp && tcp.dst >= -2"
  ∧ contains (_acl_protocol_and_ports (tcp_rule (Some (-2)) None) None)
             "tcp.dst >=" = true
  ∧ _acl_protocol_and_ports (tcp_rule (Some (-2)) None) None
    ≠ _acl_protocol_and_ports (tcp_rule None None) None.
Proof. repeat split; try reflexivity; [lia | discriminate]. Qed.

(** ** Port option resolver *)




(** ** ACL rule compiler *)

(** C6 -- Empty remote-group elision.  For a rule with a remote-group id,
    when no port other than the subject port is bound to that group, the
    remote-group builder signals "no entry", the rule compiles to no
    command (and raises nothing), and [_add_acl_cmd] leaves the set of
    compiled entries as it is. *)
Theorem empty_remote_group_elision (db : NeutronDb) (port : Port.t)
    (r : Rule.t) (sg_ports_cache : gmap string (list Binding.t))
    (g : string) :
  Rule.remote_group_id r = Some g → g ≠ EmptyString →
  (∀ l, sg_ports_cache !! g = Some l →
        l = _get_port_security_group_bindings db g) →
  filter (λ b, Binding.port_id b ≠ Port.id port)
         (_get_port_security_group_bindings db g) = [] →
  (∀ remote_portdir, ∃ cache',
     _acl_remote_group_id db r sg_ports_cache port remote_portdir
     = (EmptyString, true, cache'))
  ∧ (∃ cache',
       _add_sg_rule_acl_for_port db port r sg_ports_cache = Ok (None, cache'))
  ∧ (∀ acls, _add_acl_cmd acls None = acls).
Proof.
  intros Hg Hne Hcache Hempty.
  assert (Hgroup : ∀ remote_portdir, ∃ cache',
     _acl_remote_group_id db r sg_ports_cache port remote_portdir
     = (EmptyString, true, cache')).
  { intros remote_portdir. unfold _acl_remote_group_id. rewrite Hg. simpl.
    rewrite bool_decide_eq_false_2 by done. simpl.
    destruct (sg_ports_cache !! g) as [l|] eqn:Hl.
    - rewrite (Hcache l eq_refl), Hempty. eauto.
    - rewrite Hempty. eauto. }
  split; [done |]. split; [| done].
  unfold _add_sg_rule_acl_for_port.
  destruct (_acl_direction r port) as [m remote_portdir].
  destruct (_acl_ethertype r) as [[ip_match ip] icmp].
  destruct (Hgroup remote_portdir) as [cache' ->]. eauto.
Qed.

Lemma drop_all_ip_traffic_spec (port : Port.t) (txn : list OvnCmd) :
  _drop_all_ip_traffic_for_port port txn
  = txn ++ [drop_all port "from-lport" "inport";
            drop_all port "to-lport" "outport"].
Proof.
  unfold _drop_all_ip_traffic_for_port. simpl.
  by rewrite <- app_assoc.
Qed.

Lemma resolve_subnet_insert (db : NeutronDb) (cache : gmap string Subnet.t)
    (k : string) (s : Subnet.t) :
  cache !! k = None → db_subnets db !! k = Some s →
  ∀ id, resolve_subnet db (<[k := s]> cache) id = resolve_subnet db cache id.
Proof.
  intros Hc Hs id. unfold resolve_subnet.
  destruct (decide (k = id)) as [<- | Hne].
  - by rewrite lookup_insert_eq, Hc, Hs.
  - by rewrite lookup_insert_ne.
Qed.

Lemma dhcp_loop_spec (db : NeutronDb) (port : Port.t)
    (cache0 : gmap string Subnet.t) (ips : list FixedIp.t) :
  (∀ ip, ip ∈ ips → is_Some (resolve_subnet db cache0 (FixedIp.subnet_id ip))) →
  ∀ txn cache,
    (∀ id, resolve_subnet db cache id = resolve_subnet db cache0 id) →
    ∃ cache',
      for_each (add_acl_dhcp_step db port) ips (txn, cache)
      = Ok (txn ++ dhcp_entries db cache0 port ips, cache').
Proof.
  induction ips as [|ip ips IH]; intros Hres txn cache Hsame.
  - simpl. rewrite app_nil_r. eauto.
  - destruct (Hres ip) as [s Hs]; [by left |].
    assert (Hrest : ∀ ip', ip' ∈ ips →
      is_Some (resolve_subnet db cache0 (FixedIp.subnet_id ip')))
      by (intros; apply Hres; by right).
    assert (Hs' := Hs). rewrite <- Hsame in Hs'.
    unfold dhcp_entries. cbn [for_each omap list_omap]. rewrite Hs.
    fold (dhcp_entries db cache0 port ips).
    unfold add_acl_dhcp_step at 1. unfold resolve_subnet in Hs'.
    destruct (cache !! FixedIp.subnet_id ip) as [s'|] eqn:Hc.
    + simplify_eq. cbn. rewrite Hc. cbn.
      destruct (Subnet.ip_version s =? 4) eqn:Hv; cbn.
      * destruct (IH Hrest (txn ++ [dhcp_allow port s]) cache Hsame)
          as [cache' Heq].
        rewrite <- app_assoc in Heq. eauto.
      * by apply IH.
    + cbn. rewrite Hc. unfold get_subnet. rewrite Hs'. cbn.
      assert (Hsame' : ∀ id,
        resolve_subnet db (<[FixedIp.subnet_id ip := s]> cache) id
        = resolve_subnet db cache0 id).
      { intros id. rewrite <- Hsame. by apply resolve_subnet_insert. }
      destruct (Subnet.ip_version s =? 4) eqn:Hv; cbn.
      * destruct (IH Hrest (txn ++ [dhcp_allow port s]) _ Hsame')
          as [cache' Heq].
        rewrite <- app_assoc in Heq. eauto.
      * by apply IH.
Qed.

(** The DHCP step succeeds whenever every subnet of the port resolves, and
    appends exactly the bootstrap entries. *)
Lemma add_acl_dhcp_spec (db : NeutronDb) (port : Port.t)
    (ips : list FixedIp.t) (cache : gmap string Subnet.t)
    (txn : list OvnCmd) :
  Port.fixed_ips port = Some ips →
  (∀ ip, ip ∈ ips → is_Some (resolve_subnet db cache (FixedIp.subnet_id ip))) →
  ∃ cache',
    _add_acl_dhcp db port txn cache
    = Ok (txn ++ dhcp_entries db cache port ips, cache').
Proof.
  intros Hips Hres. unfold _add_acl_dhcp. rewrite Hips.
  by apply dhcp_loop_spec.
Qed.

Lemma dhcp_entries_action (db : NeutronDb) (cache : gmap string Subnet.t)
    (port : Port.t) (ips : list FixedIp.t) :
  Forall (λ c, ∃ s, c = dhcp_allow port s ∧ Subnet.ip_version s = 4
                    ∧ ∃ ip, ip ∈ ips
                        ∧ resolve_subnet db cache (FixedIp.subnet_id ip)
                          = Some s)
         (dhcp_entries db cache port ips).
Proof.
  apply Forall_forall. intros c Hc.
  apply list_elem_of_omap in Hc as (ip & Hip & Hc).
  destruct (resolve_subnet db cache (FixedIp.subnet_id ip)) as [s|] eqn:Hs;
    [| done].
  destruct (Z.eqb_spec (Subnet.ip_version s) 4); [| done].
  simplify_eq. eauto 10.
Qed.

(** A group without rules leaves the compiled entries as they are. *)
Lemma group_loop_no_rules (db : NeutronDb) (port : Port.t)
    (sgs : list string) :
  (∀ sg, sg ∈ sgs →
     sg ∈ db_security_groups db
     ∧ filter (λ r, Rule.security_group_id r = sg)
              (db_security_group_rules db) = []) →
  ∀ acls sg_cache sg_ports_cache,
    (∀ c sg g, sg_cache = Some c → sg ∈ sgs → c !! sg = Some g →
               SecurityGroup.security_group_rules g = []) →
    ∃ sg_cache',
      for_each (add_acls_group_step db port) sgs
               (acls, sg_cache, sg_ports_cache)
      = Ok (acls, sg_cache', sg_ports_cache).
Proof.
  induction sgs as [|sg sgs IH]; intros Hsgs acls sg_cache spc Hcache.
  - simpl. eauto.
  - destruct (Hsgs sg) as [Hin Hnone]; [by left |].
    assert (Hdb : get_security_group db sg
      = Ok {| SecurityGroup.id := sg;
              SecurityGroup.security_group_rules := [] |}).
    { unfold get_security_group. rewrite decide_True by done.
      by rewrite Hnone. }
    assert (Hrest : ∀ sg', sg' ∈ sgs →
      sg' ∈ db_security_groups db
      ∧ filter (λ r, Rule.security_group_id r = sg')
               (db_security_group_rules db) = [])
      by (intros; apply Hsgs; by right).
    cbn [for_each]. unfold add_acls_group_step at 1.
    destruct sg_cache as [c|]; cbn.
    + destruct (if bool_decide (c = ∅) then None else c !! sg) as [g|] eqn:Hg.
      * assert (Hc : c !! sg = Some g) by (by case_bool_decide).
        cbn. rewrite (Hcache c sg g eq_refl (list_elem_of_here _ _) Hc). cbn.
        apply IH; [done |].
        intros c' sg' g' [= <-] Hin'. apply Hcache; [done | by right].
      * rewrite Hdb. cbn. apply IH; [done |].
        intros c' sg' g' [= <-] Hin' Hl.
        destruct (decide (sg = sg')) as [<- | Hne].
        -- rewrite lookup_insert_eq in Hl. by simplify_eq.
        -- rewrite lookup_insert_ne in Hl by done.
           eapply Hcache; [done | by right | done].
    + rewrite Hdb. cbn. apply IH; [done | done].
Qed.

(** C5 -- Default-deny.  For a port with at least one security group, all
    of whose groups have no rules, the compiler succeeds and adds exactly
    the two drop-all entries, one per direction, followed by the DHCP
    bootstrap allow entries of the port's IPv4 subnets; none of the added
    entries is an allow-related entry. *)
Theorem default_deny (db : NeutronDb) (port : Port.t) (txn : list OvnCmd)
    (sg_cache : option (gmap string SecurityGroup.t))
    (sg_ports_cache : option (gmap string (list Binding.t)))
    (subnet_cache : option (gmap string Subnet.t))
    (sgs : list string) (ips : list FixedIp.t) :
  Port.security_groups port = Some sgs → sgs ≠ [] →
  (∀ sg, sg ∈ sgs →
     sg ∈ db_security_groups db
     ∧ filter (λ r, Rule.security_group_id r = sg)
              (db_security_group_rules db) = []) →
  (∀ c sg g, sg_cache = Some c → sg ∈ sgs → c !! sg = Some g →
             SecurityGroup.security_group_rules g = []) →
  Port.fixed_ips port = Some ips →
  (∀ ip, ip ∈ ips →
     is_Some (resolve_subnet db (default ∅ subnet_cache)
                             (FixedIp.subnet_id ip))) →
  let added :=
    [drop_all port "from-lport" "inport"; drop_all port "to-lport" "outport"]
    ++ dhcp_entries db (default ∅ subnet_cache) port ips in
  (∃ sg_cache' sg_ports_cache' subnet_cache',
     _add_acls db port txn sg_cache sg_ports_cache subnet_cache
     = Ok (txn ++ added, sg_cache', sg_ports_cache', subnet_cache'))
  ∧ Forall (λ c, ∃ s, c = dhcp_allow port s)
           (dhcp_entries db (default ∅ subnet_cache) port ips)
  ∧ Forall (λ c, cmd_action c ≠ Some ACL_ACTION_ALLOW_RELATED) added.
Proof.
  intros Hsgs Hne Hrules Hcache Hips Hres added.
  assert (Hdhcp := dhcp_entries_action db (default ∅ subnet_cache) port ips).
  split; [| split].
  - unfold _add_acls, port_get_list. rewrite decide_True by done.
    rewrite Hsgs. simpl. destruct sgs as [|sg sgs]; [done |].
    rewrite drop_all_ip_traffic_spec.
    destruct (add_acl_dhcp_spec db port ips (default ∅ subnet_cache)
                (txn ++ [drop_all port "from-lport" "inport";
                         drop_all port "to-lport" "outport"]) Hips Hres)
      as [snc ->].
    cbn [mbind result_bind].
    destruct (group_loop_no_rules db port (sg :: sgs) Hrules []
                sg_cache (default ∅ sg_ports_cache) Hcache) as [sgc ->].
    cbn. rewrite app_nil_r, <- app_assoc. eauto.
  - eapply Forall_impl; [exact Hdhcp |]. intros c (s & -> & _). eauto.
  - apply Forall_app. split.
    + repeat constructor; discriminate.
    + eapply Forall_impl; [exact Hdhcp |]. by intros c (s & -> & _).
Qed.

Lemma default_deny_witness :
  ∃ sg_cache' sg_ports_cache' subnet_cache',
    _add_acls sample_db
      (sample_port "port-1" (Some ["sg-empty"]) (Some [sample_ip_a]))
      [] None None None
    = Ok ([] ++ [drop_all (sample_port "port-1" (Some ["sg-empty"])
                                       (Some [sample_ip_a]))
                          "from-lport" "inport";
                 drop_all (sample_port "port-1" (Some ["sg-empty"])
                                       (Some [sample_ip_a]))
                          "to-lport" "outport"]
             ++ dhcp_entries sample_db ∅
                  (sample_port "port-1" (Some ["sg-empty"])
                               (Some [sample_ip_a])) [sample_ip_a],
          sg_cache', sg_ports_cache', subnet_cache').
Proof.
  apply (default_deny sample_db
           (sample_port "port-1" (Some ["sg-empty"]) (Some [sample_ip_a]))
           [] None None None ["sg-empty"] [sample_ip_a]).
  - reflexivity.
  - discriminate.
  - intros sg Hsg. apply list_elem_of_singleton in Hsg as ->.
    split; [set_solver | reflexivity].
  - discriminate.
  - reflexivity.
  - intros ip Hip. apply list_elem_of_singleton in Hip as ->.
    by eexists.
Defined.

(** C6 on the sample store: no other port is bound to [sg-db]. *)
Lemma empty_remote_group_elision_witness :
  ∃ cache',
    _add_sg_rule_acl_for_port sample_db
      (sample_port "port-web" (Some ["sg-web"]) (Some [sample_ip_a]))
      web_from_db ∅
    = Ok (None, cache').
Proof.
  destruct (empty_remote_group_elision sample_db
              (sample_port "port-web" (Some ["sg-web"]) (Some [sample_ip_a]))
              web_from_db ∅ "sg-db") as (_ & H & _).
  - reflexivity.
  - discriminate.
  - intros l Hl. discriminate Hl.
  - reflexivity.
  - exact H.
Defined.

(** [_add_acl_cmd] never files two commands under one key, and files every
    command under its own key. *)
Lemma add_acl_cmd_NoDup (acls : list (string * Z * string * string * Acl.t))
    (cmd : option Acl.t) :
  NoDup acls.*1 → NoDup (_add_acl_cmd acls cmd).*1.
Proof.
  intros Hnd. destruct cmd as [cmd|]; [| done]. simpl.
  case_decide; [done |].
  rewrite fmap_app. apply NoDup_app. split; [done |].
  split; [| apply NoDup_singleton].
  intros k Hk Hk'. apply list_elem_of_singleton in Hk'. by subst.
Qed.

Lemma add_acl_cmd_keys (acls : list (string * Z * string * string * Acl.t))
    (cmd : option Acl.t) :
  Forall (λ kc, kc.1 = acl_key kc.2) acls →
  Forall (λ kc, kc.1 = acl_key kc.2) (_add_acl_cmd acls cmd).
Proof.
  intros Hk. destruct cmd as [cmd|]; [| done]. simpl.
  case_decide; [done |]. apply Forall_app. split; [done |].
  by repeat constructor.
Qed.

(** C2 -- Dedup invariant, at a failing input.  [_add_acl_cmd] keeps the
    per-rule entries free of duplicates, but the DHCP bootstrap entries do
    not pass through it: a port with two fixed IPs on one IPv4 subnet gets
    the same DHCP entry twice in one pass. *)
Theorem dedup_misses_dhcp_entries :
  let port := sample_port "port-1" (Some ["sg-empty"])
                          (Some [sample_ip_a; sample_ip_b]) in
  ∃ sg_cache sg_ports_cache subnet_cache,
    _add_acls sample_db port [] None None None
    = Ok ([drop_all port "from-lport" "inport";
           drop_all port "to-lport" "outport";
           dhcp_allow port sample_subnet;
           dhcp_allow port sample_subnet],
          sg_cache, sg_ports_cache, subnet_cache)
    ∧ ¬ NoDup (omap cmd_key
                 [drop_all port "from-lport" "inport";
                  drop_all port "to-lport" "outport";
                  dhcp_allow port sample_subnet;
                  dhcp_allow port sample_subnet]).
Proof.
  intros port. do 3 eexists. split; [reflexivity |].
  cbn [omap list_omap cmd_key drop_all dhcp_allow].
  intros Hnd. apply NoDup_cons in Hnd as [_ Hnd].
  apply NoDup_cons in Hnd as [_ Hnd].
  apply NoDup_cons in Hnd as [Hnotin _].
  apply Hnotin. by left.
Qed.

(** ** Topology synchroniser *)

Lemma db_delete_created_network (db : NeutronDb) (net : NetworkReq.t)
    (db' : NeutronDb) (row : Network.t) :
  db_wf db →
  db_create_network db net = Ok (db', row) →
  Network.id row = NetworkReq.id net
  ∧ db_networks db !! NetworkReq.id net = None
  ∧ db_delete_network db' (NetworkReq.id net) = Ok db.
Proof.
  intros Hwf. unfold db_create_network.
  destruct (db_networks db !! NetworkReq.id net) eqn:Hfresh; [done |].
  intros [= <- <-]. split; [done |]. split; [done |].
  unfold db_delete_network, set_networks. simpl.
  rewrite lookup_insert_eq.
  rewrite bool_decide_eq_true_2.
  - rewrite delete_insert_id by done. by destruct db.
  - intros k p Hp Heq. destruct (Hwf k p Hp) as [n Hn].
    simpl in Heq. rewrite Heq in Hn. congruence.
Qed.

(** C3 -- Compensating rollback.  When the model-store row of a new network
    has been written and the creation of its Logical Switch fails, the
    operation fails with a service-unavailable error and the model store is
    back to what it was before the request: it holds no row for the
    network. *)
Theorem compensating_rollback {OvnNb : Type} `{!OvnApi OvnNb}
    (w : World OvnNb) (net : NetworkReq.t) (ext_ids : gmap string string)
    (db' : NeutronDb) (row : Network.t) (e : exn) :
  db_wf (w_db w) →
  network_ext_ids net = Ok ext_ids →
  db_create_network (w_db w) net = Ok (db', row) →
  execute (w_nb w)
    [create_lswitch (ovn_name (Network.id row))
       (<[OVN_NETWORK_NAME_EXT_ID_KEY := Network.name row]> ext_ids)]
  = Raise e →
  (create_network w net).1 = Raise ServiceUnavailable
  ∧ db_networks (w_db (create_network w net).2) !! Network.id row = None
  ∧ w_db (create_network w net).2 = w_db w.
Proof.
  intros Hwf Hext Hrow Hfail.
  destruct (db_delete_created_network _ _ _ _ Hwf Hrow)
    as (Hid & Hfresh & Hdel).
  unfold create_network. rewrite Hext, Hrow.
  unfold create_network_in_ovn, commit. simpl. rewrite Hfail.
  unfold delete_network, commit. simpl. rewrite Hid, Hdel. simpl.
  destruct (execute (w_nb w) [delete_lswitch (ovn_name (NetworkReq.id net)) true]);
    simpl; by rewrite Hfresh.
Qed.

Lemma compensating_rollback_witness :
  (create_network (sample_world false)
     {| NetworkReq.id := "net-2"; NetworkReq.name := "backend";
        NetworkReq.physical_network := None;
        NetworkReq.network_type := None;
        NetworkReq.segmentation_id := None |}).1
  = Raise ServiceUnavailable.
Proof.
  eapply (compensating_rollback (sample_world false)
            {| NetworkReq.id := "net-2"; NetworkReq.name := "backend";
               NetworkReq.physical_network := None;
               NetworkReq.network_type := None;
               NetworkReq.segmentation_id := None |}).
  - apply (bool_decide_unpack _). vm_compute. exact I.
  - reflexivity.
  - reflexivity.
  - reflexivity.
Defined.

Lemma for_each_app_result {A S : Type} (body : S → A → result S)
    (l1 l2 : list A) (s : S) :
  for_each body (l1 ++ l2) s = s' ← for_each body l1 s; for_each body l2 s'.
Proof.
  revert s. induction l1 as [|x l1 IH]; intros s; simpl; [done |].
  destruct (body s x); simpl; [apply IH | done].
Qed.

(** The transactions that [delete_port] submits, whatever the topology
    store answers. *)
Lemma delete_port_log {OvnNb : Type} `{!OvnApi OvnNb}
    (w : World OvnNb) (port_id : string) :
  match db_ports (w_db w) !! port_id with
  | None => w_log (delete_port w port_id).2 = w_log w
  | Some port =>
      w_log (delete_port w port_id).2
      = w_log w ++ [[delete_lswitch (ovn_name (Port.id port)) false]]
      ∨ w_log (delete_port w port_id).2
        = w_log w ++ [[delete_lswitch (ovn_name (Port.id port)) false];
                      [delete_lport port_id (ovn_name (Port.network_id port));
                       delete_acl (ovn_name (Port.network_id port))
                                  (Port.id port)]]
  end.
Proof.
  unfold delete_port, get_port.
  destruct (db_ports (w_db w) !! port_id) as [port|] eqn:Hport; [| done].
  unfold commit. simpl.
  destruct (execute (w_nb w) [delete_lswitch (ovn_name (Port.id port)) false])
    as [nb|e]; simpl.
  - unfold db_delete_port. simpl. rewrite Hport. simpl. by left.
  - destruct e; simpl; try by left.
    destruct (execute (w_nb w) _) as [nb|e']; simpl.
    + unfold db_delete_port. simpl. rewrite Hport. simpl.
      right. by rewrite <- app_assoc.
    + right. by rewrite <- app_assoc.
Qed.

(** On the modelled store, deleting a port leaves every switch other than
    the port's private one in place, with all the ACL entries that the port
    does not own. *)
Lemma delete_port_store (w : World NbStore) (port_id : string)
    (port : Port.t) (name : string) (sw : LSwitch.t) :
  db_ports (w_db w) !! port_id = Some port →
  name ≠ ovn_name (Port.id port) →
  nb_switches (w_nb w) !! name = Some sw →
  ∃ sw',
    nb_switches (w_nb (delete_port w port_id).2) !! name = Some sw'
    ∧ filter (λ a, ¬ acl_owned_by (Port.id port) a) (LSwitch.acls sw')
      = filter (λ a, ¬ acl_owned_by (Port.id port) a) (LSwitch.acls sw).
Proof.
  intros Hport Hname Hsw.
  unfold delete_port, get_port. rewrite Hport.
  unfold commit. simpl. unfold nb_execute.
  destruct (nb_reachable (w_nb w)) eqn:Hup; simpl;
    [| rewrite Hup; simpl; eauto].
  destruct (nb_switches (w_nb w) !! ovn_name (Port.id port)) as [priv|]
    eqn:Hpriv; simpl.
  - unfold db_delete_port. simpl. rewrite Hport. simpl.
    rewrite lookup_delete_ne by done. eauto.
  - rewrite Hup. unfold on_switch.
    destruct (nb_switches (w_nb w) !! ovn_name (Port.network_id port))
      as [shared|] eqn:Hshared; simpl; [| eauto].
    rewrite lookup_insert_eq. simpl.
    unfold db_delete_port. simpl. rewrite Hport. simpl.
    rewrite insert_insert_eq.
    destruct (decide (ovn_name (Port.network_id port) = name)) as [<- | Hne].
    + rewrite lookup_insert_eq. eexists. split; [done |]. simpl.
      simplify_eq. rewrite list_filter_filter.
      apply list_filter_iff. tauto.
    + rewrite lookup_insert_ne by done. eauto.
Qed.

(** C9 -- Port deletion leaves other ports' ACLs untouched.  Whatever the
    topology store answers, [delete_port] submits either the deletion of
    the port's private switch alone, or that followed by the deletion of
    its logical port and of its own ACL entries; no submitted command adds
    an entry or deletes the entries of another port.  On the modelled store
    every switch other than the private one stays, with all the entries the
    port does not own: entries of other ports that list the deleted port
    are left as they are. *)
Theorem delete_port_leaves_other_acls (port_id : string) (port : Port.t) :
  (∀ (OvnNb : Type) (api : OvnApi OvnNb) (w : World OvnNb),
     db_ports (w_db w) !! port_id = Some port →
     ∃ l,
       w_log (delete_port w port_id).2 = w_log w ++ l
       ∧ (l = [[delete_lswitch (ovn_name (Port.id port)) false]]
          ∨ l = [[delete_lswitch (ovn_name (Port.id port)) false];
                 [delete_lport port_id (ovn_name (Port.network_id port));
                  delete_acl (ovn_name (Port.network_id port))
                             (Port.id port)]])
       ∧ Forall (Forall (deletes_only port_id port)) l
       ∧ ∀ q, q ≠ Port.id port → acl_regenerated l q = false)
  ∧ (∀ (w : World NbStore) (name : string) (sw : LSwitch.t),
       db_ports (w_db w) !! port_id = Some port →
       name ≠ ovn_name (Port.id port) →
       nb_switches (w_nb w) !! name = Some sw →
       ∃ sw',
         nb_switches (w_nb (delete_port w port_id).2) !! name = Some sw'
         ∧ filter (λ a, ¬ acl_owned_by (Port.id port) a) (LSwitch.acls sw')
           = filter (λ a, ¬ acl_owned_by (Port.id port) a) (LSwitch.acls sw)).
Proof.
  split.
  - intros OvnNb api w Hport.
    assert (Hlog := delete_port_log w port_id). rewrite Hport in Hlog.
    assert (Hq : ∀ q l,
      q ≠ Port.id port → Forall (Forall (deletes_only port_id port)) l →
      acl_regenerated l q = false).
    { intros q l Hne Hl. unfold acl_regenerated.
      apply not_true_is_false. intros Hex.
      apply existsb_exists in Hex as (txn & Htxn & Hex).
      apply existsb_exists in Hex as (c & Hc & Hdel).
      apply list_elem_of_In in Htxn, Hc.
      rewrite Forall_forall in Hl. specialize (Hl txn Htxn).
      rewrite Forall_forall in Hl. specialize (Hl c Hc).
      destruct Hl as [-> | [-> | ->]]; try done.
      apply bool_decide_eq_true in Hdel. by subst. }
    destruct Hlog as [Hlog | Hlog]; eexists; (split; [exact Hlog |]).
    + assert (Hall : Forall (Forall (deletes_only port_id port))
        [[delete_lswitch (ovn_name (Port.id port)) false]]).
      { repeat first [apply Forall_nil_2 | apply Forall_cons_2];
        unfold deletes_only; auto. }
      split; [by left |]. split; [done |]. intros q Hne. by apply Hq.
    + assert (Hall : Forall (Forall (deletes_only port_id port))
        [[delete_lswitch (ovn_name (Port.id port)) false];
         [delete_lport port_id (ovn_name (Port.network_id port));
          delete_acl (ovn_name (Port.network_id port)) (Port.id port)]]).
      { repeat first [apply Forall_nil_2 | apply Forall_cons_2];
        unfold deletes_only; auto. }
      split; [by right |]. split; [done |]. intros q Hne. by apply Hq.
  - intros w name sw Hport Hname Hsw. by eapply delete_port_store.
Qed.

Lemma delete_port_leaves_other_acls_witness :
  (∃ l,
     w_log (delete_port world_with_two_ports "port-db").2
     = w_log world_with_two_ports ++ l
     ∧ acl_regenerated l "port-web" = false)
  ∧ ∃ sw sw',
      nb_switches (w_nb world_with_two_ports) !! "neutron-net-1" = Some sw
      ∧ nb_switches (w_nb (delete_port world_with_two_ports "port-db").2)
          !! "neutron-net-1" = Some sw'
      ∧ filter (λ a, ¬ acl_owned_by "port-db" a) (LSwitch.acls sw')
        = filter (λ a, ¬ acl_owned_by "port-db" a) (LSwitch.acls sw)
      ∧ existsb (λ a, bool_decide (Acl.lport a = "port-web")
                      && contains (Acl.match_ a) "port-db")
                (LSwitch.acls sw') = true.
Proof.
  destruct (delete_port_leaves_other_acls "port-db"
              (sample_port "port-db" (Some ["sg-db"]) (Some [sample_ip_b])))
    as [Hlog Hstore].
  split.
  { destruct (Hlog NbStore nb_store_api world_with_two_ports)
      as (l & Hl & _ & _ & Hq); [vm_compute; reflexivity |].
    exists l. split; [exact Hl | apply Hq; discriminate]. }
  destruct (nb_switches (w_nb world_with_two_ports) !! "neutron-net-1")
    as [sw|] eqn:Hsw; [| by vm_compute in Hsw].
  destruct (Hstore world_with_two_ports "neutron-net-1" sw)
    as (sw' & Hsw' & Hf);
    [vm_compute; reflexivity | discriminate | exact Hsw |].
  exists sw, sw'. split; [reflexivity |].
  split; [exact Hsw' |]. split; [exact Hf |].
  revert Hsw'. vm_compute. intros [= <-]. reflexivity.
Defined.

(** ** Binding-profile validation *)

(** One round of the loop over the parameter groups, for a group of two
    keys. *)
Lemma select_param_set_pair (profile : gmap string pyval)
    (k1 k2 : string) (t1 t2 : option pytype)
    (rest : list (list (string * option pytype)))
    (last : option (list (string * option pytype))) :
  k1 ≠ k2 →
  select_param_set profile ([(k1, t1); (k2, t2)] :: rest) ∅ last
  = match profile !! k1, profile !! k2 with
    | None, None =>
        select_param_set profile rest ∅ (Some [(k1, t1); (k2, t2)])
    | Some v1, Some v2 =>
        if bool_decide (size profile = 2%nat)
        then Ok (<[k2 := v2]> (<[k1 := v1]> ∅), Some [(k1, t1); (k2, t2)])
        else Raise (InvalidInput
                      "Invalid binding:profile. too many parameters")
    | _, _ =>
        Raise (InvalidInput "Invalid binding:profile. all are required.")
    end.
Proof.
  intros Hne. cbn [select_param_set fmap list_fmap foldl fst length].
  destruct (profile !! k1) as [v1|], (profile !! k2) as [v2|];
    rewrite ?map_size_insert_None, ?map_size_empty
      by (rewrite ?lookup_insert_ne by done; apply lookup_empty);
    simpl; [by case_bool_decide | done | done | done].
Qed.

Lemma dom_pair_iff (profile : gmap string pyval) (k1 k2 : string) :
  k1 ≠ k2 →
  dom profile = ({[ k1; k2 ]} : gset string)
  ↔ is_Some (profile !! k1) ∧ is_Some (profile !! k2)
    ∧ size profile = 2%nat.
Proof.
  intros Hne. split.
  - intros Hdom.
    assert (Hsz : size (dom profile) = 2%nat).
    { rewrite Hdom, size_union by set_solver. by rewrite !size_singleton. }
    rewrite size_dom in Hsz.
    split; [| split; [| done]]; apply elem_of_dom; rewrite Hdom; set_solver.
  - intros (H1 & H2 & Hsz). apply elem_of_dom in H1, H2.
    symmetry. apply set_subseteq_size_eq; [set_solver |].
    rewrite size_dom, Hsz, size_union by set_solver.
    by rewrite !size_singleton.
Qed.

Lemma profile_of_pair (profile : gmap string pyval) (k1 k2 : string)
    (v1 v2 : pyval) :
  k1 ≠ k2 → profile !! k1 = Some v1 → profile !! k2 = Some v2 →
  size profile = 2%nat →
  <[k2 := v2]> (<[k1 := v1]> ∅) = profile.
Proof.
  intros Hne H1 H2 Hsz.
  assert (Hdom : dom profile = ({[ k1; k2 ]} : gset string)).
  { apply dom_pair_iff; eauto. }
  apply map_eq. intros k.
  destruct (decide (k = k2)) as [-> | Hk2]; [by rewrite lookup_insert_eq |].
  rewrite lookup_insert_ne by done.
  destruct (decide (k = k1)) as [-> | Hk1]; [by rewrite lookup_insert_eq |].
  rewrite lookup_insert_ne, lookup_empty by done.
  symmetry. apply not_elem_of_dom. rewrite Hdom. set_solver.
Qed.

Lemma disjoint_recognised_iff (profile : gmap string pyval) :
  dom profile ## recognised_keys
  ↔ profile !! "parent_name" = None ∧ profile !! "tag" = None
    ∧ profile !! "vtep_physical_switch" = None
    ∧ profile !! "vtep_logical_switch" = None.
Proof.
  rewrite <- !not_elem_of_dom. unfold recognised_keys, trunk_keys, vtep_keys.
  set_solver.
Qed.

(** A profile without any recognised key yields empty binding data. *)
Lemma profile_unrecognised (db : NeutronDb) (profile : gmap string pyval) :
  profile !! "parent_name" = None → profile !! "tag" = None →
  profile !! "vtep_physical_switch" = None →
  profile !! "vtep_logical_switch" = None →
  _get_data_from_binding_profile db OVN_PORT_BINDING_PROFILE_PARAMS
    (Some profile) = Ok ∅.
Proof.
  intros Hpn Htg Hps Hls.
  unfold _get_data_from_binding_profile, OVN_PORT_BINDING_PROFILE_PARAMS.
  rewrite select_param_set_pair, Hpn, Htg by done.
  rewrite select_param_set_pair, Hps, Hls by done.
  reflexivity.
Qed.

(** A profile with part of the trunk group, or with the whole group and
    more, is rejected. *)
Lemma profile_trunk_rejected (db : NeutronDb) (profile : gmap string pyval) :
  is_Some (profile !! "parent_name") ∨ is_Some (profile !! "tag") →
  dom profile ≠ trunk_keys →
  is_invalid_input
    (_get_data_from_binding_profile db OVN_PORT_BINDING_PROFILE_PARAMS
       (Some profile)).
Proof.
  intros Hsome Hdom.
  unfold _get_data_from_binding_profile, OVN_PORT_BINDING_PROFILE_PARAMS.
  rewrite select_param_set_pair by done.
  destruct (profile !! "parent_name") as [vp|] eqn:Hpn,
           (profile !! "tag") as [vt|] eqn:Htg;
    try (by eexists).
  - case_bool_decide as Hsz; [| by eexists].
    exfalso. apply Hdom. apply dom_pair_iff; eauto.
  - destruct Hsome as [[? ?] | [? ?]]; done.
Qed.

(** The checks made on a profile that is exactly the trunk group. *)
Lemma profile_trunk (db : NeutronDb) (profile : gmap string pyval)
    (vp vt : pyval) :
  dom profile = trunk_keys →
  profile !! "parent_name" = Some vp → profile !! "tag" = Some vt →
  _get_data_from_binding_profile db OVN_PORT_BINDING_PROFILE_PARAMS
    (Some profile)
  = match vp with
    | VStr parent =>
        if isinstance vt TInteger then
          match db_ports db !! parent with
          | Some _ =>
              if (default 0 (int_ vt) <? 0) || (default 0 (int_ vt) >? 4095)
              then Raise (InvalidInput
                "Invalid binding:profile. tag must be an int between 1 and 4096, inclusive.")
              else Ok profile
          | None => Raise (PortNotFound parent)
          end
        else Raise (InvalidInput "Invalid binding:profile. value invalid type")
    | _ => Raise (InvalidInput "Invalid binding:profile. value invalid type")
    end.
Proof.
  intros Hdom Hpn Htg.
  apply dom_pair_iff in Hdom as (_ & _ & Hsz); [| done].
  unfold _get_data_from_binding_profile, OVN_PORT_BINDING_PROFILE_PARAMS.
  rewrite select_param_set_pair, Hpn, Htg by done.
  rewrite bool_decide_eq_true_2 by done.
  rewrite (profile_of_pair profile "parent_name" "tag") by done.
  cbn [mbind result_bind].
  rewrite bool_decide_eq_false_2
    by (intros ->; by rewrite lookup_empty in Hpn).
  simpl. rewrite Hpn, Htg.
  destruct vp as [|bp|np|parent], vt as [|b|n|s]; simpl; try reflexivity;
    unfold get_port; destruct (db_ports db !! parent); simpl;
    try reflexivity.
  - by destruct b.
  - by destruct (n <? 0) eqn:?, (n >? 4095) eqn:?.
Qed.

(** A profile without trunk keys that has part of the VTEP group, or the
    whole group and more, is rejected. *)
Lemma profile_vtep_rejected (db : NeutronDb) (profile : gmap string pyval) :
  profile !! "parent_name" = None → profile !! "tag" = None →
  is_Some (profile !! "vtep_physical_switch")
  ∨ is_Some (profile !! "vtep_logical_switch") →
  dom profile ≠ vtep_keys →
  is_invalid_input
    (_get_data_from_binding_profile db OVN_PORT_BINDING_PROFILE_PARAMS
       (Some profile)).
Proof.
  intros Hpn Htg Hsome Hdom.
  unfold _get_data_from_binding_profile, OVN_PORT_BINDING_PROFILE_PARAMS.
  rewrite select_param_set_pair, Hpn, Htg by done.
  rewrite select_param_set_pair by done.
  destruct (profile !! "vtep_physical_switch") as [a|] eqn:Hps,
           (profile !! "vtep_logical_switch") as [b|] eqn:Hls;
    try (by eexists).
  - case_bool_decide as Hsz; [| by eexists].
    exfalso. apply Hdom. apply dom_pair_iff; eauto.
  - destruct Hsome as [[? ?] | [? ?]]; done.
Qed.

(** The checks made on a profile that is exactly the VTEP group. *)
Lemma profile_vtep (db : NeutronDb) (profile : gmap string pyval)
    (a b : pyval) :
  dom profile = vtep_keys →
  profile !! "vtep_physical_switch" = Some a →
  profile !! "vtep_logical_switch" = Some b →
  _get_data_from_binding_profile db OVN_PORT_BINDING_PROFILE_PARAMS
    (Some profile)
  = match a, b with
    | VStr _, VStr _ => Ok profile
    | _, _ => Raise (InvalidInput "Invalid binding:profile. value invalid type")
    end.
Proof.
  intros Hdom Hps Hls.
  assert (Hpn : profile !! "parent_name" = None).
  { apply not_elem_of_dom. rewrite Hdom. unfold vtep_keys. set_solver. }
  assert (Htg : profile !! "tag" = None).
  { apply not_elem_of_dom. rewrite Hdom. unfold vtep_keys. set_solver. }
  apply dom_pair_iff in Hdom as (_ & _ & Hsz); [| done].
  unfold _get_data_from_binding_profile, OVN_PORT_BINDING_PROFILE_PARAMS.
  rewrite select_param_set_pair, Hpn, Htg by done.
  rewrite select_param_set_pair, Hps, Hls by done.
  rewrite bool_decide_eq_true_2 by done.
  rewrite (profile_of_pair profile "vtep_physical_switch"
             "vtep_logical_switch") by done.
  cbn [mbind result_bind].
  rewrite bool_decide_eq_false_2
    by (intros ->; by rewrite lookup_empty in Hps).
  simpl. rewrite Hps, Hls.
  by destruct a as [|ba|na|sa], b as [|bb|nb|sb].
Qed.






(** ** Cascade refresher *)

Lemma dhcp_loop_only_adds (db : NeutronDb) (port : Port.t)
    (ips : list FixedIp.t) :
  ∀ txn cache txn' cache',
    for_each (add_acl_dhcp_step db port) ips (txn, cache) = Ok (txn', cache') →
    ∃ adds, txn' = txn ++ adds ∧ Forall is_add_acl adds.
Proof.
  induction ips as [|ip ips IH]; intros txn cache txn' cache' Hrun.
  - simpl in Hrun. simplify_eq. exists []. by rewrite app_nil_r.
  - cbn [for_each] in Hrun.
    destruct (add_acl_dhcp_step db port (txn, cache) ip)
      as [[txn1 cache1]|e] eqn:Hstep; [| done].
    cbn in Hrun. apply IH in Hrun as (adds & -> & Hadds).
    unfold add_acl_dhcp_step in Hstep.
    destruct (cache !! FixedIp.subnet_id ip) as [s|]; cbn in Hstep.
    + destruct (Subnet.ip_version s =? 4); cbn in Hstep; simplify_eq.
      * eexists. rewrite <- app_assoc. split; [done |].
        apply Forall_app. split; [| done].
        apply Forall_singleton. by eexists.
      * eauto.
    + destruct (get_subnet db (FixedIp.subnet_id ip)) as [s|]; [| done].
      cbn in Hstep.
      destruct (Subnet.ip_version s =? 4); cbn in Hstep; simplify_eq.
      * eexists. rewrite <- app_assoc. split; [done |].
        apply Forall_app. split; [| done].
        apply Forall_singleton. by eexists.
      * eauto.
Qed.

(** The compiler only ever appends commands that add ACL entries. *)
Lemma add_acls_only_adds (db : NeutronDb) (port : Port.t) (txn : list OvnCmd)
    (sg_cache : option (gmap string SecurityGroup.t))
    (sg_ports_cache : option (gmap string (list Binding.t)))
    (subnet_cache : option (gmap string Subnet.t))
    (txn' : list OvnCmd) (sgc : option (gmap string SecurityGroup.t))
    (spc : gmap string (list Binding.t)) (snc : gmap string Subnet.t) :
  _add_acls db port txn sg_cache sg_ports_cache subnet_cache
  = Ok (txn', sgc, spc, snc) →
  ∃ adds, txn' = txn ++ adds ∧ Forall is_add_acl adds.
Proof.
  unfold _add_acls.
  destruct (port_get_list port "security_groups") as [|sg sgs].
  { intros [= <- _ _ _]. exists []. by rewrite app_nil_r. }
  rewrite drop_all_ip_traffic_spec. unfold _add_acl_dhcp.
  destruct (Port.fixed_ips port) as [ips|]; [| done].
  destruct (for_each (add_acl_dhcp_step db port) ips _)
    as [[txn1 snc1]|e] eqn:Hdhcp; [| done].
  apply dhcp_loop_only_adds in Hdhcp as (adds & -> & Hadds).
  cbn [mbind result_bind].
  destruct (for_each (add_acls_group_step db port) (sg :: sgs) _)
    as [[[acls sgc1] spc1]|e]; [| done].
  cbn. intros [= <- _ _ _]. eexists. rewrite <- !app_assoc.
  split; [done |].
  repeat (apply Forall_app; split); try done.
  - repeat (apply Forall_cons; split); try apply Forall_nil; by eexists.
  - apply Forall_fmap, Forall_forall. intros a _. by eexists.
Qed.

Lemma acl_regenerated_app (l1 l2 : list (list OvnCmd)) (q : string) :
  acl_regenerated (l1 ++ l2) q = acl_regenerated l1 q || acl_regenerated l2 q.
Proof. apply existsb_app. Qed.

Lemma acl_regenerated_adds (txn : list OvnCmd) (q : string) :
  Forall (λ c, is_delete_acl c = false) txn →
  acl_regenerated [txn] q = false.
Proof.
  intros Hall. unfold acl_regenerated. simpl. rewrite orb_false_r.
  apply not_true_is_false. intros Hex.
  apply existsb_exists in Hex as (c & Hc & Hdel).
  apply list_elem_of_In in Hc. rewrite Forall_forall in Hall.
  specialize (Hall c Hc). by destruct c.
Qed.

Lemma commit_spec {OvnNb : Type} `{!OvnApi OvnNb} (w w' : World OvnNb)
    (txn : list OvnCmd) (r : result unit) :
  commit w txn = (r, w') →
  w_log w' = w_log w ++ [txn] ∧ w_db w' = w_db w.
Proof.
  unfold commit. by destruct (execute (w_nb w) txn); intros [= _ <-].
Qed.

Lemma create_port_txn_no_delete (db : NeutronDb) (port : Port.t)
    (ovn_port_info : OvnPortInfo.t) (net_ext_ids : gmap string string)
    (lswitch_name : string) (external_ids : gmap string string)
    (txn : list OvnCmd) (sgc : option (gmap string SecurityGroup.t))
    (spc : gmap string (list Binding.t)) (snc : gmap string Subnet.t) :
  create_port_txn db port ovn_port_info net_ext_ids lswitch_name external_ids
  = Ok (txn, sgc, spc, snc) →
  Forall (λ c, is_delete_acl c = false) txn.
Proof.
  unfold create_port_txn.
  destruct (if truthy_str _ then _ else _) as [txn0|e] eqn:Hpre; [| done].
  cbn [mbind result_bind]. intros Hacls.
  apply add_acls_only_adds in Hacls as (adds & -> & Hadds).
  repeat (apply Forall_app; split).
  - destruct (truthy_str _); [| simplify_eq; constructor].
    destruct (net_ext_ids !! OVN_SEGID_EXT_ID_KEY) as [vlan|];
      [destruct (int_ (VStr vlan)) |];
      cbn in Hpre; simplify_eq; by repeat constructor.
  - by repeat constructor.
  - eapply Forall_impl; [exact Hadds |]. by intros c [a ->].
Qed.

(** [_create_port_in_ovn] never deletes the ACL entries of any port: its
    refresh loop runs over the empty list. *)
Lemma create_port_in_ovn_no_regeneration {OvnNb : Type} `{!OvnApi OvnNb}
    (w : World OvnNb) (port : Port.t) (ovn_port_info : OvnPortInfo.t)
    (q : string) :
  acl_regenerated (w_log (_create_port_in_ovn w port ovn_port_info).2) q
  = acl_regenerated (w_log w) q.
Proof.
  unfold _create_port_in_ovn.
  destruct (lswitch_external_ids _ _) as [net_ext_ids|]; [| done].
  change (port_get_list port "security_group") with (@nil string).
  destruct (if truthy_str (net_ext_ids !! OVN_PHYSNET_EXT_ID_KEY)
            then commit w _ else _) as [r w1] eqn:Hfirst.
  assert (Hw1 : acl_regenerated (w_log w1) q = acl_regenerated (w_log w) q
                ∧ w_db w1 = w_db w).
  { destruct (truthy_str _); [| by simplify_eq].
    apply commit_spec in Hfirst as [-> ->].
    by rewrite acl_regenerated_app, orb_false_r. }
  destruct Hw1 as [Hlog Hdb]. destruct r as [[]|e]; [| done].
  destruct (create_port_txn _ _ _ _ _ _) as [[[[txn sgc] spc] snc]|e]
    eqn:Htxn; [| done].
  apply create_port_txn_no_delete in Htxn.
  destruct (commit w1 txn) as [r w2] eqn:Hsecond.
  apply commit_spec in Hsecond as [Hlog2 _].
  assert (acl_regenerated (w_log w2) q = acl_regenerated (w_log w) q) as Hw2.
  { by rewrite Hlog2, acl_regenerated_app, Hlog, acl_regenerated_adds,
      orb_false_r. }
  by destruct r.
Qed.

(** C1 -- Cascade completeness, at a failing input.  [_create_port_in_ovn]
    looks for the groups of the new port under the key ['security_group'],
    which no port dictionary has, so the refresh loop never runs and no
    transaction of a port creation deletes the entries of any port.  On the
    sample store group [sg-web] has a rule whose remote group is [sg-db] and
    [port-web] is bound to [sg-web]: creating a port bound to [sg-db]
    succeeds without regenerating the entries of [port-web], whereas
    attaching [sg-db] to an existing port by an update does regenerate
    them. *)
Theorem cascade_missing_on_create :
  (∀ port, port_get_list port "security_group" = [])
  ∧ (∀ (OvnNb : Type) (api : OvnApi OvnNb) (w : World OvnNb) (port : Port.t)
       (ovn_port_info : OvnPortInfo.t) (q : string),
       acl_regenerated (w_log (_create_port_in_ovn w port ovn_port_info).2) q
       = acl_regenerated (w_log w) q)
  ∧ (let '(r, w) :=
       create_port (sample_world true)
         {| PortReq.port := sample_port "port-db" (Some ["sg-db"])
                                        (Some [sample_ip_b]);
            PortReq.binding_profile := None |} in
     is_ok r = true
     ∧ Port.security_groups <$> db_ports (w_db w) !! "port-db"
       = Some (Some ["sg-db"])
     ∧ length (w_log w) = 1%nat
     ∧ acl_regenerated (w_log w) "port-web" = false)
  ∧ (let '(_, w) :=
       create_port (sample_world true)
         {| PortReq.port := sample_port "port-db" (Some [])
                                        (Some [sample_ip_b]);
            PortReq.binding_profile := None |} in
     let '(r, w) :=
       update_port w "port-db"
         {| PortUpdate.name := None; PortUpdate.admin_state_up := None;
            PortUpdate.fixed_ips := None;
            PortUpdate.allowed_address_pairs := None;
            PortUpdate.security_groups := Some ["sg-db"];
            PortUpdate.binding_profile := None |} in
     is_ok r = true
     ∧ acl_regenerated (w_log w) "port-web" = true).
Proof.
  split; [done |].
  split; [intros; apply create_port_in_ovn_no_regeneration |].
  split; vm_compute; auto.
Qed.

(** * Further properties *)

(** ** Port option resolver *)

Lemma elem_of_foldl_union {A : Type} (f : A → string) (l : list A)
    (s0 : gset string) (x : string) :
  x ∈ foldl (λ s a, s ∪ {[ f a ]}) s0 l ↔ x ∈ s0 ∨ ∃ a, a ∈ l ∧ f a = x.
Proof.
  revert s0. induction l as [|a l IH]; intros s0; simpl.
  - split; [by left | intros [? | (? & Hin & _)]; [done | by inversion Hin]].
  - rewrite IH, elem_of_union, elem_of_singleton. split.
    + intros [[? | ->] | (b & Hb & <-)]; [by left | right .. ].
      * exists a. split; [by left | done].
      * exists b. split; [by right | done].
    + intros [? | (b & Hb & <-)]; [by left; left |].
      apply elem_of_cons in Hb as [-> | Hb]; [by left; right |].
      right. eauto.
Qed.

(** X1 -- The allowed MAC addresses of a port hold no address twice, and an
    address is among them exactly when it is the MAC of the port or the MAC
    of one of its allowed address pairs. *)
Theorem allowed_mac_addresses_spec (port : Port.t) :
  NoDup (_get_allowed_mac_addresses_from_port port)
  ∧ ∀ mac,
      mac ∈ _get_allowed_mac_addresses_from_port port
      ↔ mac = Port.mac_address port
        ∨ ∃ a, a ∈ default [] (Port.allowed_address_pairs port)
               ∧ AddressPair.mac_address a = mac.
Proof.
  unfold _get_allowed_mac_addresses_from_port. split.
  - apply NoDup_elements.
  - intros mac.
    rewrite elem_of_elements, elem_of_foldl_union, elem_of_singleton.
    reflexivity.
Qed.

(** ** Match expression builder *)

Lemma str_last_snoc (s : string) (c : ascii) :
  str_last (s +:+ String c EmptyString) = Some c.
Proof.
  induction s as [|c' s IH]; [done |].
  rewrite append_cons. simpl. rewrite IH.
  destruct (s +:+ String c EmptyString) eqn:Hs; [| done].
  by destruct s.
Qed.

Lemma str_init_snoc (s : string) (c : ascii) :
  str_init (s +:+ String c EmptyString) = s.
Proof.
  induction s as [|c' s IH]; [done |].
  rewrite append_cons. simpl. rewrite IH.
  destruct (s +:+ String c EmptyString) eqn:Hs; [| done].
  by destruct s.
Qed.

Lemma foldl_quoted_ids (l : list Binding.t) (b : Binding.t) (m : string) :
  foldl (λ m p, m +:+ dq +:+ Binding.port_id p +:+ dq +:+ ",") m (b :: l)
  = (m +:+ quoted_ids (Binding.port_id <$> (b :: l))) +:+ ",".
Proof.
  revert b m. induction l as [|b' l IH]; intros b m.
  - simpl. by rewrite !append_assoc.
  - change (foldl _ m (b :: b' :: l))
      with (foldl (λ m p, m +:+ dq +:+ Binding.port_id p +:+ dq +:+ ",")
                  (m +:+ dq +:+ Binding.port_id b +:+ dq +:+ ",") (b' :: l)).
    rewrite IH. cbn [fmap list_fmap quoted_ids]. by rewrite !append_assoc.
Qed.

(** X2 -- Remote-group match.  For a rule with a remote group that has
    members other than the subject port, the builder yields the membership
    clause over the remote direction that lists exactly those members, in
    the order of the binding table; the subject port is never listed; and
    afterwards the cache holds the bindings of the group. *)
Theorem remote_group_match (db : NeutronDb) (r : Rule.t)
    (sg_ports_cache : gmap string (list Binding.t)) (port : Port.t)
    (remote_portdir g : string) :
  Rule.remote_group_id r = Some g → g ≠ EmptyString →
  let sg_ports :=
    default (_get_port_security_group_bindings db g) (sg_ports_cache !! g) in
  let others := filter (λ p, Binding.port_id p ≠ Port.id port) sg_ports in
  others ≠ [] →
  _acl_remote_group_id db r sg_ports_cache port remote_portdir
  = (" && " +:+ remote_portdir +:+ " == {"
       +:+ quoted_ids (Binding.port_id <$> others) +:+ "}",
     false, <[g := sg_ports]> sg_ports_cache)
  ∧ Port.id port ∉ Binding.port_id <$> others.
Proof.
  intros Hg Hne sg_ports others Hothers. split.
  - unfold _acl_remote_group_id. rewrite Hg. simpl.
    rewrite bool_decide_eq_false_2 by done. simpl.
    assert (Hcache :
      match sg_ports_cache !! g with
      | Some l => (l, sg_ports_cache)
      | None => (_get_port_security_group_bindings db g,
                 <[g := _get_port_security_group_bindings db g]> sg_ports_cache)
      end = (sg_ports, <[g := sg_ports]> sg_ports_cache)).
    { subst sg_ports. destruct (sg_ports_cache !! g) as [l|] eqn:Hl; simpl;
        [by rewrite insert_id | done]. }
    rewrite Hcache. fold others.
    destruct others as [|b l] eqn:Ho; [done |].
    rewrite foldl_quoted_ids.
    change "," with (String ","%char EmptyString).
    rewrite str_last_snoc, bool_decide_eq_true_2, str_init_snoc by done.
    by rewrite !append_assoc.
  - intros Hin. apply list_elem_of_fmap in Hin as (b & Hid & Hb).
    apply list_elem_of_filter in Hb as [Hb _]. by apply Hb.
Qed.


(** X4 -- Protocol part of an ICMP rule.  For an ICMP rule the protocol part
    is the ICMP tag of the rule's ethertype followed by the clauses of the
    bounds over its [type] field; when the ethertype is neither IPv4 nor
    IPv6 there is no ICMP tag and the part is empty, whatever the bounds.
    For a protocol other than tcp, udp and icmp (or none) the part is
    empty as well. *)
Theorem protocol_and_ports_icmp (r : Rule.t) :
  (Rule.protocol r = Some "icmp" →
     (∀ tag, tag ≠ EmptyString →
        _acl_protocol_and_ports r (Some tag)
        = " && " +:+ tag
          +:+ bound_clause (tag +:+ ".type") " >= " (Rule.port_range_min r)
          +:+ bound_clause (tag +:+ ".type") " <= " (Rule.port_range_max r))
     ∧ _acl_protocol_and_ports r None = EmptyString
     ∧ (Rule.ethertype r = "IPv4" →
        _acl_protocol_and_ports r (_acl_ethertype r).2
        = " && icmp4"
          +:+ bound_clause "icmp4.type" " >= " (Rule.port_range_min r)
          +:+ bound_clause "icmp4.type" " <= " (Rule.port_range_max r))
     ∧ (Rule.ethertype r ≠ "IPv4" → Rule.ethertype r ≠ "IPv6" →
        _acl_protocol_and_ports r (_acl_ethertype r).2 = EmptyString))
  ∧ (Rule.protocol r ≠ Some "tcp" → Rule.protocol r ≠ Some "udp" →
     Rule.protocol r ≠ Some "icmp" →
     ∀ icmp, _acl_protocol_and_ports r icmp = EmptyString).
Proof.
  assert (Hicmp : ∀ tag, Rule.protocol r = Some "icmp" → tag ≠ EmptyString →
    _acl_protocol_and_ports r (Some tag)
    = " && " +:+ tag
      +:+ bound_clause (tag +:+ ".type") " >= " (Rule.port_range_min r)
      +:+ bound_clause (tag +:+ ".type") " <= " (Rule.port_range_max r)).
  { intros tag Hp Htag. unfold _acl_protocol_and_ports. rewrite Hp. simpl.
    rewrite (bool_decide_eq_false_2 (tag = EmptyString)) by done. simpl.
    destruct (Rule.port_range_min r) as [lo|],
             (Rule.port_range_max r) as [hi|];
      simpl; unfold bound_clause;
      repeat case_bool_decide; simplify_eq;
      repeat match goal with
      | |- context [?n =? 0] => destruct (Z.eqb_spec n 0); try lia
      | H : ¬ (_ ∨ _) |- _ => apply Decidable.not_or in H as [? ?]
      | H : _ ∨ _ |- _ => destruct H; try lia
      end; simpl; try congruence; try lia;
      rewrite ?append_nil_r, ?append_assoc; simpl; reflexivity. }
  split.
  - intros Hp. split; [intros; by apply Hicmp |].
    split; [unfold _acl_protocol_and_ports; by rewrite Hp |].
    unfold _acl_ethertype. split.
    + intros ->. simpl. by rewrite (Hicmp "icmp4").
    + intros H4 H6. rewrite !decide_False by done. simpl.
      unfold _acl_protocol_and_ports. by rewrite Hp.
  - intros Ht Hu Hi icmp. unfold _acl_protocol_and_ports.
    by rewrite !bool_decide_eq_false_2 by done.
Qed.

(** ** ACL rule compiler *)

(** X5 -- [_add_acl_cmd] keeps the first command filed under a key: a
    command whose key is taken changes nothing, so filing a command twice
    is the same as filing it once, and a command filed under a fresh key
    goes last; [None] is ignored. *)
Theorem add_acl_cmd_first_wins
    (acls : list (string * Z * string * string * Acl.t)) (cmd : Acl.t) :
  (acl_key cmd ∈ acls.*1 → _add_acl_cmd acls (Some cmd) = acls)
  ∧ (acl_key cmd ∉ acls.*1 →
     _add_acl_cmd acls (Some cmd) = acls ++ [(acl_key cmd, cmd)])
  ∧ _add_acl_cmd (_add_acl_cmd acls (Some cmd)) (Some cmd)
    = _add_acl_cmd acls (Some cmd)
  ∧ (∀ other, acl_key other = acl_key cmd →
       _add_acl_cmd (_add_acl_cmd acls (Some cmd)) (Some other)
       = _add_acl_cmd acls (Some cmd)).
Proof.
  assert (Hin : acl_key cmd ∈ (_add_acl_cmd acls (Some cmd)).*1).
  { simpl. case_decide; [done |]. rewrite fmap_app. set_solver. }
  split; [intros; simpl; by rewrite decide_True |].
  split; [intros; simpl; by rewrite decide_False |].
  split.
  - generalize dependent (_add_acl_cmd acls (Some cmd)). intros acls' Hin'.
    simpl. by rewrite decide_True.
  - intros other Hk.
    generalize dependent (_add_acl_cmd acls (Some cmd)). intros acls' Hin'.
    simpl. rewrite Hk. by rewrite decide_True.
Qed.

(** A property kept by every step of a loop holds when the loop ends. *)
Lemma for_each_invariant {A S : Type} (P : S → Prop)
    (body : S → A → result S) (l : list A) (s s' : S) :
  (∀ s x s', x ∈ l → P s → body s x = Ok s' → P s') →
  P s → for_each body l s = Ok s' → P s'.
Proof.
  revert s. induction l as [|x l IH]; intros s Hstep Hs Hrun.
  - simpl in Hrun. by simplify_eq.
  - simpl in Hrun. destruct (body s x) as [s1|e] eqn:Hx; [| done].
    simpl in Hrun. eapply (IH s1); [| | done].
    + intros s2 y s3 Hy. apply Hstep. by right.
    + eapply (Hstep s x s1); [by left | done | done].
Qed.

Lemma sg_rule_acl_fields (db : NeutronDb) (port : Port.t) (r : Rule.t)
    (spc spc' : gmap string (list Binding.t)) (cmd : Acl.t) :
  _add_sg_rule_acl_for_port db port r spc = Ok (Some cmd, spc') →
  acl_of_port port cmd
  ∧ Acl.priority cmd = ACL_PRIORITY_ALLOW
  ∧ Acl.action cmd = ACL_ACTION_ALLOW_RELATED.
Proof.
  unfold _add_sg_rule_acl_for_port.
  destruct (_acl_direction r port) as [m remote_portdir].
  destruct (_acl_ethertype r) as [[ip_match ip] icmp].
  destruct (_acl_remote_group_id db r spc port remote_portdir)
    as [[group_match [|]] cache'']; [done |].
  destruct (dir_map (Rule.direction r)) as [d|e]; simpl; [| done].
  by intros [= <- <-].
Qed.

Lemma rule_step_entries (db : NeutronDb) (port : Port.t)
    (acls acls' : list (string * Z * string * string * Acl.t))
    (spc spc' : gmap string (list Binding.t)) (r : Rule.t) :
  rule_entries_ok port acls →
  add_acls_rule_step db port (acls, spc) r = Ok (acls', spc') →
  rule_entries_ok port acls'.
Proof.
  intros [Hnd Hall]. unfold add_acls_rule_step.
  destruct (_add_sg_rule_acl_for_port db port r spc) as [[cmd spc1]|e]
    eqn:Hcmd; [| done].
  simpl. intros [= <- <-]. split; [by apply add_acl_cmd_NoDup |].
  destruct cmd as [cmd|]; [| done]. simpl. case_decide; [done |].
  apply Forall_app. split; [done |]. apply Forall_singleton. simpl.
  by destruct (sg_rule_acl_fields db port r spc spc1 cmd Hcmd) as (? & ? & ?).
Qed.

Lemma group_loop_entries (db : NeutronDb) (port : Port.t)
    (sgs : list string)
    (acls acls' : list (string * Z * string * string * Acl.t))
    (sgc sgc' : option (gmap string SecurityGroup.t))
    (spc spc' : gmap string (list Binding.t)) :
  rule_entries_ok port acls →
  for_each (add_acls_group_step db port) sgs (acls, sgc, spc)
  = Ok (acls', sgc', spc') →
  rule_entries_ok port acls'.
Proof.
  intros Hok Hrun.
  apply (for_each_invariant (λ st, rule_entries_ok port st.1.1) _ _ _ _)
    in Hrun; [done | | done].
  intros [[a c] p] sg [[a' c'] p'] _ Ha. simpl in Ha. simpl.
  unfold add_acls_group_step.
  destruct (match c with Some _ => _ | None => _ end) as [[g c1]|e]; [| done].
  simpl.
  destruct (for_each (add_acls_rule_step db port) _ (a, p))
    as [[a1 p1]|e] eqn:Hrules; [| done].
  simpl. intros [= <- <- <-].
  apply (for_each_invariant (λ st, rule_entries_ok port st.1) _ _ _ _)
    in Hrules; [done | | done].
  intros [a2 p2] r [a3 p3] _. simpl. apply rule_step_entries.
Qed.

Lemma dhcp_loop_entries (db : NeutronDb) (port : Port.t)
    (ips : list FixedIp.t) :
  ∀ txn cache txn' cache',
    for_each (add_acl_dhcp_step db port) ips (txn, cache) = Ok (txn', cache') →
    ∃ dhcp, txn' = txn ++ dhcp
            ∧ Forall (λ c, ∃ s, c = dhcp_allow port s
                               ∧ Subnet.ip_version s = 4) dhcp.
Proof.
  induction ips as [|ip ips IH]; intros txn cache txn' cache' Hrun.
  - simpl in Hrun. simplify_eq. exists []. by rewrite app_nil_r.
  - cbn [for_each] in Hrun.
    destruct (add_acl_dhcp_step db port (txn, cache) ip)
      as [[txn1 cache1]|e] eqn:Hstep; [| done].
    cbn in Hrun. apply IH in Hrun as (dhcp & -> & Hdhcp).
    assert (Hone : txn1 = txn
                   ∨ ∃ s, txn1 = txn ++ [dhcp_allow port s]
                          ∧ Subnet.ip_version s = 4).
    { unfold add_acl_dhcp_step in Hstep.
      destruct (cache !! FixedIp.subnet_id ip) as [s|]; cbn in Hstep.
      - destruct (Z.eqb_spec (Subnet.ip_version s) 4); cbn in Hstep;
          simplify_eq; eauto.
      - destruct (get_subnet db (FixedIp.subnet_id ip)) as [s|]; [| done].
        cbn in Hstep.
        destruct (Z.eqb_spec (Subnet.ip_version s) 4); cbn in Hstep;
          simplify_eq; eauto. }
    destruct Hone as [-> | (s & -> & Hv)]; [eauto |].
    eexists. rewrite <- app_assoc. split; [done |].
    apply Forall_cons. eauto.
Qed.


Lemma dhcp_loop_resolved (db : NeutronDb) (port : Port.t)
    (cache0 : gmap string Subnet.t) (ips : list FixedIp.t) :
  (∀ ip, ip ∈ ips → is_Some (resolve_subnet db cache0 (FixedIp.subnet_id ip))) →
  ∀ txn cache,
    (∀ id, resolve_subnet db cache id = resolve_subnet db cache0 id) →
    ∃ txn' cache',
      for_each (add_acl_dhcp_step db port) ips (txn, cache) = Ok (txn', cache')
      ∧ ∀ id, resolve_subnet db cache' id = resolve_subnet db cache0 id.
Proof.
  induction ips as [|ip ips IH]; intros Hres txn cache Hsame.
  - simpl. eauto.
  - destruct (Hres ip) as [s Hs]; [by left |].
    assert (Hrest : ∀ ip', ip' ∈ ips →
      is_Some (resolve_subnet db cache0 (FixedIp.subnet_id ip')))
      by (intros; apply Hres; by right).
    assert (Hs' := Hs). rewrite <- Hsame in Hs'.
    cbn [for_each]. unfold add_acl_dhcp_step at 1.
    unfold resolve_subnet in Hs'.
    destruct (cache !! FixedIp.subnet_id ip) as [s'|] eqn:Hc.
    + simplify_eq. cbn. rewrite Hc. cbn.
      destruct (Subnet.ip_version s =? 4); cbn; by apply IH.
    + cbn. rewrite Hc. unfold get_subnet. rewrite Hs'. cbn.
      assert (Hsame' : ∀ id,
        resolve_subnet db (<[FixedIp.subnet_id ip := s]> cache) id
        = resolve_subnet db cache0 id).
      { intros id. rewrite <- Hsame. by apply resolve_subnet_insert. }
      destruct (Subnet.ip_version s =? 4); cbn; by apply IH.
Qed.

(** X7 -- Failures of the DHCP step.  A port dictionary without a
    [fixed_ips] key makes the step raise a key error; a fixed IP whose
    subnet is neither cached nor stored makes it raise the subnet lookup's
    error for the first such IP; and then a compilation pass for a secured
    port raises the same error instead of yielding a transaction. *)
Theorem add_acl_dhcp_errors (db : NeutronDb) (port : Port.t)
    (txn : list OvnCmd) (subnet_cache : gmap string Subnet.t) :
  (Port.fixed_ips port = None →
     _add_acl_dhcp db port txn subnet_cache = Raise (KeyError "fixed_ips"))
  ∧ (∀ pre ip post,
       Port.fixed_ips port = Some (pre ++ ip :: post) →
       (∀ ip', ip' ∈ pre →
          is_Some (resolve_subnet db subnet_cache (FixedIp.subnet_id ip'))) →
       resolve_subnet db subnet_cache (FixedIp.subnet_id ip) = None →
       _add_acl_dhcp db port txn subnet_cache
       = Raise (SubnetNotFound (FixedIp.subnet_id ip))
       ∧ (port_get_list port "security_groups" ≠ [] →
          ∀ sg_cache sg_ports_cache,
            _add_acls db port txn sg_cache sg_ports_cache (Some subnet_cache)
            = Raise (SubnetNotFound (FixedIp.subnet_id ip)))).
Proof.
  split; [unfold _add_acl_dhcp; by intros -> |].
  intros pre ip post Hips Hpre Hip.
  assert (Hloop : ∀ txn0,
    for_each (add_acl_dhcp_step db port) (pre ++ ip :: post)
             (txn0, subnet_cache)
    = Raise (SubnetNotFound (FixedIp.subnet_id ip))).
  { intros txn0. rewrite for_each_app_result.
    destruct (dhcp_loop_resolved db port subnet_cache pre Hpre txn0
                subnet_cache) as (txn1 & cache1 & -> & Hsame); [done |].
    cbn. specialize (Hsame (FixedIp.subnet_id ip)). rewrite Hip in Hsame.
    unfold resolve_subnet in Hsame.
    destruct (cache1 !! FixedIp.subnet_id ip); [done |].
    unfold get_subnet. by rewrite Hsame. }
  split.
  - unfold _add_acl_dhcp. by rewrite Hips, Hloop.
  - intros Hsecured sg_cache sg_ports_cache. unfold _add_acls.
    destruct (port_get_list port "security_groups"); [done |].
    unfold _add_acl_dhcp. simpl. by rewrite Hips, Hloop.
Qed.

Lemma add_acls_entries_owned (db : NeutronDb) (port : Port.t)
    (txn txn' : list OvnCmd)
    (sg_cache sgc : option (gmap string SecurityGroup.t))
    (sg_ports_cache : option (gmap string (list Binding.t)))
    (subnet_cache : option (gmap string Subnet.t))
    (spc : gmap string (list Binding.t)) (snc : gmap string Subnet.t) :
  _add_acls db port txn sg_cache sg_ports_cache subnet_cache
  = Ok (txn', sgc, spc, snc) →
  ∃ adds, txn' = txn ++ adds
          ∧ Forall (λ c, ∃ a, c = add_acl a ∧ acl_of_port port a) adds.
Proof.
  unfold _add_acls.
  destruct (port_get_list port "security_groups") as [|sg sgs].
  { intros [= <- _ _ _]. exists []. by rewrite app_nil_r. }
  rewrite drop_all_ip_traffic_spec. unfold _add_acl_dhcp.
  destruct (Port.fixed_ips port) as [ips|]; [| done].
  destruct (for_each (add_acl_dhcp_step db port) ips _)
    as [[txn1 snc1]|e] eqn:Hdhcp; [| done].
  apply dhcp_loop_entries in Hdhcp as (dhcp & -> & Hdhcp).
  cbn [mbind result_bind].
  destruct (for_each (add_acls_group_step db port) (sg :: sgs) _)
    as [[[acls sgc1] spc1]|e] eqn:Hgroups; [| done].
  cbn. intros [= <- _ _ _].
  apply group_loop_entries in Hgroups as [_ Hall];
    [| split; [apply NoDup_nil_2 | apply Forall_nil_2]].
  eexists. rewrite <- !app_assoc. split; [done |].
  repeat (apply Forall_app; split).
  - repeat (apply Forall_cons; split); try apply Forall_nil;
      by eexists.
  - eapply Forall_impl; [exact Hdhcp |]. intros c (s & -> & _).
    by eexists.
  - apply Forall_fmap, Forall_fmap. eapply Forall_impl; [exact Hall |].
    intros [k c] (_ & ? & _). simpl. eauto.
Qed.

(** ** ACL regeneration on the modelled store *)

Lemma set_switches_insert_insert (nb : NbStore) (name : string)
    (sw1 sw2 : LSwitch.t) :
  set_switches (insert name sw2) (set_switches (insert name sw1) nb)
  = set_switches (insert name sw2) nb.
Proof. unfold set_switches. simpl. by rewrite insert_insert_eq. Qed.

Lemma nb_apply_adds (adds : list OvnCmd) (name : string) :
  Forall (λ c, ∃ a, c = add_acl a ∧ Acl.lswitch a = name) adds →
  ∀ (nb : NbStore) (sw : LSwitch.t),
    nb_switches nb !! name = Some sw →
    for_each nb_apply adds nb
    = Ok (set_switches
            (insert name (with_acls (LSwitch.acls sw ++ omap cmd_acl adds) sw))
            nb).
Proof.
  induction 1 as [|c adds (a & -> & Hsw) _ IH]; intros nb sw Hlook.
  - simpl. rewrite app_nil_r. f_equal. destruct nb as [up sws], sw.
    unfold set_switches, with_acls. simpl in *. by rewrite insert_id.
  - cbn [for_each nb_apply]. unfold on_switch. rewrite Hsw, Hlook. cbn.
    rewrite (IH _ (with_acls (LSwitch.acls sw ++ [a]) sw))
      by (simpl; apply lookup_insert_eq).
    rewrite set_switches_insert_insert. simpl.
    unfold with_acls. simpl. by rewrite <- app_assoc.
Qed.

Lemma acl_of_port_owned (port : Port.t) (a : Acl.t) :
  acl_of_port port a → acl_owned_by (Port.id port) a.
Proof.
  intros (_ & _ & Hext). unfold acl_owned_by. rewrite Hext.
  apply lookup_singleton_eq.
Qed.

(** X8 -- Idempotent regeneration.  On the modelled store, the transaction
    that regenerates the entries of a port (delete its entries, then add
    the compiled ones) leaves the switch of the port's network with the
    entries the port does not own followed by the compiled entries, all of
    them owned by the port; running the same transaction again changes
    nothing. *)
Theorem regeneration_idempotent (db : NeutronDb) (port : Port.t)
    (txn : list OvnCmd)
    (sg_cache sgc : option (gmap string SecurityGroup.t))
    (sg_ports_cache : option (gmap string (list Binding.t)))
    (subnet_cache : option (gmap string Subnet.t))
    (spc : gmap string (list Binding.t)) (snc : gmap string Subnet.t)
    (nb : NbStore) (sw : LSwitch.t) :
  _add_acls db port
    [delete_acl (ovn_name (Port.network_id port)) (Port.id port)]
    sg_cache sg_ports_cache subnet_cache
  = Ok (txn, sgc, spc, snc) →
  nb_reachable nb = true →
  nb_switches nb !! ovn_name (Port.network_id port) = Some sw →
  ∃ nb1 entries,
    nb_execute nb txn = Ok nb1
    ∧ nb_switches nb1 !! ovn_name (Port.network_id port)
      = Some (with_acls
                (filter (λ a, ¬ acl_owned_by (Port.id port) a)
                        (LSwitch.acls sw) ++ entries) sw)
    ∧ Forall (acl_of_port port) entries
    ∧ nb_execute nb1 txn = Ok nb1.
Proof.
  intros Hacls Hup Hsw.
  apply add_acls_entries_owned in Hacls as (adds & -> & Hadds).
  set (name := ovn_name (Port.network_id port)) in *.
  set (kept := filter (λ a, ¬ acl_owned_by (Port.id port) a)
                      (LSwitch.acls sw)).
  assert (Hon : Forall (λ c, ∃ a, c = add_acl a ∧ Acl.lswitch a = name) adds).
  { eapply Forall_impl; [exact Hadds |]. intros c (a & -> & Ha & _). eauto. }
  assert (Hentries : Forall (acl_of_port port) (omap cmd_acl adds)).
  { apply Forall_forall. intros a Ha.
    apply list_elem_of_omap in Ha as (c & Hc & Hca).
    rewrite Forall_forall in Hadds.
    destruct (Hadds c Hc) as (a' & -> & Hok). simpl in Hca. by simplify_eq. }
  assert (Hgone : filter (λ a, ¬ acl_owned_by (Port.id port) a)
                         (omap cmd_acl adds) = []).
  { clear -Hentries. induction Hentries as [|a l Ha _ IH]; [done |].
    rewrite filter_cons_False; [done |].
    intros Hn. by apply Hn, acl_of_port_owned. }
  exists (set_switches
            (insert name (with_acls (kept ++ omap cmd_acl adds) sw)) nb),
         (omap cmd_acl adds).
  assert (Hrun : ∀ nb0 sw0,
    nb_reachable nb0 = true → nb_switches nb0 !! name = Some sw0 →
    filter (λ a, ¬ acl_owned_by (Port.id port) a) (LSwitch.acls sw0) = kept →
    LSwitch.external_ids sw0 = LSwitch.external_ids sw →
    LSwitch.ports sw0 = LSwitch.ports sw →
    nb_execute nb0 ([delete_acl name (Port.id port)] ++ adds)
    = Ok (set_switches
            (insert name (with_acls (kept ++ omap cmd_acl adds) sw)) nb0)).
  { intros nb0 sw0 Hup0 Hsw0 Hkept Hext Hports.
    unfold nb_execute. rewrite Hup0.
    cbn [app for_each nb_apply]. rewrite Hsw0. cbn.
    rewrite (nb_apply_adds adds name Hon _ _ (lookup_insert_eq _ _ _)).
    rewrite set_switches_insert_insert. simpl. rewrite Hkept.
    unfold with_acls. simpl. by rewrite Hext, Hports. }
  split; [by apply (Hrun nb sw) |].
  split; [simpl; apply lookup_insert_eq |]. split; [done |].
  rewrite (Hrun _ (with_acls (kept ++ omap cmd_acl adds) sw));
    [by rewrite set_switches_insert_insert | done
    | simpl; apply lookup_insert_eq | | done | done].
  simpl. rewrite filter_app, Hgone, app_nil_r. unfold kept.
  rewrite list_filter_filter. apply list_filter_iff. tauto.
Qed.

(** ** Topology synchroniser *)

(** [int(str(n))] is [n]. *)
Lemma int_str_of_Z (n : Z) : int_ (VStr (str_of_Z n)) = Some n.
Proof.
  unfold int_, str_of_Z. rewrite NilZero.isi.
  - simpl. by rewrite DecimalZ.of_to.
  - destruct n as [|p|p]; [done | | done].
    intros [= Hp]. by apply Unsigned.to_uint_nonnil in Hp.
  - destruct n as [|p|p]; [done | done |].
    intros [= Hp]. by apply Unsigned.to_uint_nonnil in Hp.
Qed.

(** X9 -- Unsupported provider network types.  [create_network] raises an
    invalid-input error exactly when the request names a physical network
    and its network type is neither flat nor vlan; the request is then
    refused before anything is written: the model store, the topology
    store and the submitted transactions are as they were. *)
Theorem create_network_refuses_provider_type {OvnNb : Type} `{!OvnApi OvnNb}
    (w : World OvnNb) (net : NetworkReq.t) :
  let unsupported :=
    truthy_str (NetworkReq.physical_network net) = true
    ∧ NetworkReq.network_type net ≠ Some "flat"
    ∧ NetworkReq.network_type net ≠ Some "vlan" in
  (unsupported → ∃ msg, create_network w net = (Raise (InvalidInput msg), w))
  ∧ (∀ msg w', create_network w net = (Raise (InvalidInput msg), w') →
       unsupported ∧ w' = w).
Proof.
  intros unsupported. subst unsupported. split.
  - intros (Hphys & Hflat & Hvlan). unfold create_network, network_ext_ids.
    rewrite Hphys, !bool_decide_eq_false_2 by done. simpl. eauto.
  - intros msg w'. unfold create_network.
    destruct (network_ext_ids net) as [ext|e] eqn:Hext.
    + unfold db_create_network.
      destruct (db_networks (w_db w) !! NetworkReq.id net); [done |].
      unfold create_network_in_ovn.
      destruct (commit _ _) as [[[]|e] w1]; [done |].
      unfold delete_network, db_delete_network. simpl.
      destruct (db_networks (w_db w1) !! _); [| done].
      case_bool_decide; [| done]. by destruct (commit _ _).
    + intros [= -> <-]. split; [| done].
      unfold network_ext_ids in Hext.
      destruct (truthy_str (NetworkReq.physical_network net)); [| done].
      split; [done |].
      destruct (negb _) eqn:Htype;
        [| by destruct (truthy_int (NetworkReq.segmentation_id net))].
      apply negb_true_iff, orb_false_iff in Htype as [Hf Hv].
      apply bool_decide_eq_false in Hf, Hv. done.
Qed.

(** X10 -- A network creation that succeeds has written the row, and has
    submitted exactly one transaction: the creation of the switch named
    after the network id, whose external ids carry the display name and,
    for a provider network, the physical network, the network type and the
    segmentation id (the latter only when it is set and not zero). *)
Theorem create_network_stashes_attributes {OvnNb : Type} `{!OvnApi OvnNb}
    (w w' : World OvnNb) (net : NetworkReq.t) (row : Network.t) :
  create_network w net = (Ok row, w') →
  row = {| Network.id := NetworkReq.id net;
           Network.name := NetworkReq.name net |}
  ∧ db_networks (w_db w) !! NetworkReq.id net = None
  ∧ db_networks (w_db w') !! NetworkReq.id net = Some row
  ∧ ∃ ext_ids,
      w_log w' = w_log w
                 ++ [[create_lswitch (ovn_name (NetworkReq.id net)) ext_ids]]
      ∧ ext_ids !! OVN_NETWORK_NAME_EXT_ID_KEY = Some (NetworkReq.name net)
      ∧ (if truthy_str (NetworkReq.physical_network net) then
           ext_ids !! OVN_PHYSNET_EXT_ID_KEY = NetworkReq.physical_network net
           ∧ ext_ids !! OVN_NETTYPE_EXT_ID_KEY = NetworkReq.network_type net
           ∧ ext_ids !! OVN_SEGID_EXT_ID_KEY
             = (if truthy_int (NetworkReq.segmentation_id net)
                then str_of_Z <$> NetworkReq.segmentation_id net
                else None)
         else
           ext_ids !! OVN_PHYSNET_EXT_ID_KEY = None
           ∧ ext_ids !! OVN_NETTYPE_EXT_ID_KEY = None
           ∧ ext_ids !! OVN_SEGID_EXT_ID_KEY = None).
Proof.
  unfold create_network.
  destruct (network_ext_ids net) as [ext|e] eqn:Hext; [| done].
  unfold db_create_network.
  destruct (db_networks (w_db w) !! NetworkReq.id net) eqn:Hfresh; [done |].
  unfold create_network_in_ovn, commit. simpl.
  destruct (execute (w_nb w) _) as [nb|e] eqn:Hexec; simpl.
  - intros [= <- <-]. simpl. split; [done |]. split; [done |].
    split; [apply lookup_insert_eq |]. eexists. split; [done |].
    split; [apply lookup_insert_eq |].
    rewrite !lookup_insert_ne by done.
    unfold network_ext_ids in Hext.
    destruct (truthy_str (NetworkReq.physical_network net)) eqn:Hphys.
    + destruct (NetworkReq.physical_network net) as [physnet|]; [| done].
      destruct (negb _) eqn:Htype; [done |].
      apply negb_false_iff, orb_true_iff in Htype.
      assert (Hty : pystr (NetworkReq.network_type net) = "flat"
                    ∧ NetworkReq.network_type net = Some "flat"
                    ∨ pystr (NetworkReq.network_type net) = "vlan"
                      ∧ NetworkReq.network_type net = Some "vlan").
      { destruct Htype as [Ht | Ht]; apply bool_decide_eq_true in Ht;
          rewrite Ht; auto. }
      assert (Hnt : Some (pystr (NetworkReq.network_type net))
                    = NetworkReq.network_type net).
      { by destruct Hty as [[-> ->] | [-> ->]]. }
      destruct (truthy_int (NetworkReq.segmentation_id net)) eqn:Hseg;
        simplify_eq.
      * destruct (NetworkReq.segmentation_id net) as [segid|]; [| done].
        repeat split;
          repeat (rewrite lookup_insert_eq
                  || rewrite lookup_insert_ne by done
                  || rewrite lookup_empty); done.
      * repeat split;
          repeat (rewrite lookup_insert_eq
                  || rewrite lookup_insert_ne by done
                  || rewrite lookup_empty); done.
    + by simplify_eq.
  - unfold delete_network. simpl.
    destruct (db_delete_network _ _); [| done].
    simpl. by destruct (commit _ _) as [? ?].
Qed.

(** ** Networks and ports: the order of the two stores *)

(** X11 -- [delete_network] fails only for the reasons of the model store.
    When the model store deletes the row, the call returns normally with
    the row gone and exactly one transaction submitted, the removal of the
    switch with [if_exists] set, even when that transaction fails (the
    topology store is then as before).  When the model store refuses
    (unknown network, or a network that still has ports), its error is
    raised and nothing is submitted. *)
Theorem delete_network_swallows_store_failure {OvnNb : Type} `{!OvnApi OvnNb}
    (w : World OvnNb) (network_id : string) :
  (∀ db, db_delete_network (w_db w) network_id = Ok db →
     ∃ w', delete_network w network_id = (Ok tt, w')
           ∧ w_db w' = db
           ∧ db_networks db !! network_id = None
           ∧ w_log w' = w_log w ++ [[delete_lswitch (ovn_name network_id) true]]
           ∧ (∀ e, execute (w_nb w) [delete_lswitch (ovn_name network_id) true]
                   = Raise e → w_nb w' = w_nb w))
  ∧ (∀ e, db_delete_network (w_db w) network_id = Raise e →
       delete_network w network_id = (Raise e, w)
       ∧ (e = NetworkNotFound network_id ∨ e = NetworkInUse network_id)).
Proof.
  split.
  - intros db Hdb. unfold delete_network, commit. rewrite Hdb. simpl.
    assert (Hgone : db_networks db !! network_id = None).
    { unfold db_delete_network in Hdb.
      destruct (db_networks (w_db w) !! network_id); [| done].
      case_bool_decide; [| done]. simplify_eq. simpl.
      apply lookup_delete_eq. }
    destruct (execute (w_nb w) _) as [nb|e] eqn:Hexec; simpl;
      eexists; (split; [done |]); simpl; repeat (split; [done |]);
      by intros.
  - intros e Hdb. unfold delete_network. rewrite Hdb. split; [done |].
    unfold db_delete_network in Hdb.
    destruct (db_networks (w_db w) !! network_id); [| simplify_eq; auto].
    case_bool_decide; simplify_eq; auto.
Qed.

(** X12 -- [delete_port] touches the model store last.  A deletion that
    raises leaves the model store as it was; for an unknown port it raises
    the not-found error of the port lookup with nothing submitted.  A
    deletion that returns has removed the row of the port and its
    security-group bindings, and no other row or binding. *)
Theorem delete_port_model_store_last {OvnNb : Type} `{!OvnApi OvnNb}
    (w w' : World OvnNb) (port_id : string) (r : result unit) :
  delete_port w port_id = (r, w') →
  match r with
  | Raise e =>
      w_db w' = w_db w
      ∧ (db_ports (w_db w) !! port_id = None →
         e = PortNotFound port_id ∧ w' = w)
  | Ok _ =>
      is_Some (db_ports (w_db w) !! port_id)
      ∧ db_ports (w_db w') = delete port_id (db_ports (w_db w))
      ∧ db_port_bindings (w_db w')
        = filter (λ b, Binding.port_id b ≠ port_id)
                 (db_port_bindings (w_db w))
      ∧ db_networks (w_db w') = db_networks (w_db w)
      ∧ db_security_group_rules (w_db w') = db_security_group_rules (w_db w)
  end.
Proof.
  unfold delete_port, get_port.
  destruct (db_ports (w_db w) !! port_id) as [port|] eqn:Hport;
    [| by intros [= <- <-]].
  destruct (match commit w [delete_lswitch _ _] with
            | (Raise (RuntimeError _), w0) => _
            | other => other
            end) as [r2 w2] eqn:Hovn.
  assert (Hdb : w_db w2 = w_db w).
  { destruct (commit w [delete_lswitch _ _]) as [r1 w1] eqn:H1.
    apply commit_spec in H1 as [_ Hdb1].
    destruct r1 as [[]|e1]; [by simplify_eq |].
    destruct e1; try (by simplify_eq).
    apply commit_spec in Hovn as [_ ->]. done. }
  destruct r2 as [[]|e2].
  - cbn. unfold db_delete_port. rewrite Hdb, Hport.
    by intros [= <- <-].
  - cbn. intros [= <- <-]. done.
Qed.

Lemma create_port_in_ovn_db {OvnNb : Type} `{!OvnApi OvnNb}
    (w w' : World OvnNb) (port : Port.t) (ovn_port_info : OvnPortInfo.t)
    (r : result Port.t) :
  _create_port_in_ovn w port ovn_port_info = (r, w') → w_db w' = w_db w.
Proof.
  unfold _create_port_in_ovn.
  destruct (lswitch_external_ids (w_nb w) _) as [net_ext_ids|];
    [| by intros [= _ <-]].
  destruct (if truthy_str (net_ext_ids !! OVN_PHYSNET_EXT_ID_KEY)
            then commit w _ else (Ok tt, w)) as [r1 w1] eqn:H1.
  assert (Hdb1 : w_db w1 = w_db w).
  { destruct (truthy_str _); [| by simplify_eq].
    by apply commit_spec in H1 as [_ ?]. }
  destruct r1 as [[]|e]; [| by intros [= _ <-]].
  destruct (create_port_txn _ _ _ _ _ _) as [[[[txn sgc] spc] snc]|e];
    [| by intros [= _ <-]].
  destruct (commit w1 txn) as [r2 w2] eqn:H2.
  apply commit_spec in H2 as [_ Hdb2].
  destruct r2 as [[]|e]; [| intros [= _ <-]; congruence].
  change (port_get_list port "security_group") with (@nil string).
  simpl. intros [= _ <-]. congruence.
Qed.

(** X13 -- A port creation is never rolled back.  Once the binding profile
    is accepted and the model store has written the row, the row stays in
    the model store whatever the topology store does afterwards: whether
    [create_port] returns or raises, the model store is the one after the
    write.  In particular, when the switch of the network is missing the
    call raises a runtime error, submits nothing, and the port remains. *)
Theorem create_port_no_rollback {OvnNb : Type} `{!OvnApi OvnNb}
    (w : World OvnNb) (req : PortReq.t) (binding_profile : gmap string pyval)
    (db : NeutronDb) (row : Port.t) :
  _get_data_from_binding_profile (w_db w) OVN_PORT_BINDING_PROFILE_PARAMS
    (PortReq.binding_profile req) = Ok binding_profile →
  db_create_port (w_db w) (PortReq.port req) = Ok (db, row) →
  w_db (create_port w req).2 = db
  ∧ db_ports db !! Port.id (PortReq.port req) = Some row
  ∧ (lswitch_external_ids (w_nb w)
       (ovn_name (Port.network_id (PortReq.port req))) = None →
     ∃ msg, create_port w req = (Raise (RuntimeError msg), with_db db w)).
Proof.
  intros Hprofile Hrow. unfold create_port. rewrite Hprofile. simpl.
  rewrite Hrow. simpl.
  assert (Hnet : Port.network_id row = Port.network_id (PortReq.port req)
                 ∧ db_ports db !! Port.id (PortReq.port req) = Some row).
  { unfold db_create_port in Hrow.
    destruct (db_networks (w_db w) !! _); [| done].
    destruct (db_ports (w_db w) !! _); [done |].
    simplify_eq. simpl. split; [done | apply lookup_insert_eq]. }
  destruct Hnet as [Hnet Hlook]. split; [| split; [done |]].
  - destruct (_create_port_in_ovn _ _ _) as [r w'] eqn:Hovn.
    by apply create_port_in_ovn_db in Hovn.
  - intros Hswitch. unfold _create_port_in_ovn. simpl.
    rewrite Hnet, Hswitch. eauto.
Qed.

(** The provider attributes that [create_network] stashes on the switch of
    a network are those that [_create_port_in_ovn] reads back. *)
Lemma network_ext_ids_physnet (net : NetworkReq.t) (ext : gmap string string)
    (name : string) :
  network_ext_ids net = Ok ext →
  truthy_str (NetworkReq.physical_network net) = true →
  let stored := <[OVN_NETWORK_NAME_EXT_ID_KEY := name]> ext in
  stored !! OVN_PHYSNET_EXT_ID_KEY = NetworkReq.physical_network net
  ∧ stored !! OVN_SEGID_EXT_ID_KEY
    = (if truthy_int (NetworkReq.segmentation_id net)
       then str_of_Z <$> NetworkReq.segmentation_id net else None).
Proof.
  unfold network_ext_ids. intros Hext Hphys. rewrite Hphys in Hext.
  destruct (NetworkReq.physical_network net) as [physnet|]; [| done].
  destruct (negb _); [done |]. simpl.
  destruct (truthy_int (NetworkReq.segmentation_id net)) eqn:Hseg;
    simplify_eq.
  - destruct (NetworkReq.segmentation_id net) as [segid|]; [| done].
    split;
      repeat (rewrite lookup_insert_eq
              || rewrite lookup_insert_ne by done
              || rewrite lookup_empty); done.
  - split;
      repeat (rewrite lookup_insert_eq
              || rewrite lookup_insert_ne by done
              || rewrite lookup_empty); done.
Qed.

(** X14 -- Ports of a provider network.  When the switch of the port's
    network carries the provider attributes that [create_network] stashed
    for a request, a port creation that succeeds has submitted exactly two
    transactions: first the creation of a switch private to the port, named
    after the port id; then, on that switch, a [localnet] port with address
    [unknown], the physical network of the request as [network_name] and
    the segmentation id of the request as tag (no tag when it is unset or
    zero), followed by the port itself and its ACL entries. *)
Theorem provider_port_round_trip {OvnNb : Type} `{!OvnApi OvnNb}
    (w w' : World OvnNb) (port p : Port.t) (ovn_port_info : OvnPortInfo.t)
    (net : NetworkReq.t) (ext : gmap string string) (name : string) :
  network_ext_ids net = Ok ext →
  truthy_str (NetworkReq.physical_network net) = true →
  lswitch_external_ids (w_nb w) (ovn_name (Port.network_id port))
  = Some (<[OVN_NETWORK_NAME_EXT_ID_KEY := name]> ext) →
  _create_port_in_ovn w port ovn_port_info = (Ok p, w') →
  let external_ids : gmap string string :=
    {[ OVN_PORT_NAME_EXT_ID_KEY := Port.name port ]} in
  let private := ovn_name (Port.id port) in
  ∃ acls,
    w_log w'
    = w_log w
      ++ [[create_lswitch private external_ids];
          [create_lport
             {| LPort.lport_name := "provnet-" +:+ Port.id port;
                LPort.lswitch_name := private;
                LPort.addresses := ["unknown"];
                LPort.external_ids := external_ids;
                LPort.parent_name := VNone;
                LPort.tag :=
                  match NetworkReq.segmentation_id net with
                  | Some segid => if segid =? 0 then VNone else VInt segid
                  | None => VNone
                  end;
                LPort.enabled := None;
                LPort.options :=
                  Some {[ "network_name" :=
                            VStr (pystr (NetworkReq.physical_network net)) ]};
                LPort.type := Some "localnet";
                LPort.port_security := [] |};
           create_lport (tenant_lport port private external_ids
                                      ovn_port_info)] ++ acls]
    ∧ Forall is_add_acl acls.
Proof.
  intros Hext Hphys Hswitch Hrun external_ids private.
  destruct (network_ext_ids_physnet net ext name Hext Hphys)
    as [Hp Hs].
  unfold _create_port_in_ovn in Hrun. rewrite Hswitch in Hrun.
  rewrite Hp, Hphys in Hrun.
  destruct (commit w _) as [r1 w1] eqn:H1.
  apply commit_spec in H1 as [Hlog1 Hdb1].
  destruct r1 as [[]|e]; [| done].
  destruct (create_port_txn _ _ _ _ _ _) as [[[[txn sgc] spc] snc]|e]
    eqn:Htxn; [| done].
  destruct (commit w1 txn) as [r2 w2] eqn:H2.
  apply commit_spec in H2 as [Hlog2 Hdb2].
  destruct r2 as [[]|e]; [| done].
  change (port_get_list port "security_group") with (@nil string) in Hrun.
  simpl in Hrun. injection Hrun as _ <-.
  unfold create_port_txn in Htxn. rewrite Hp, Hphys, Hs in Htxn.
  assert (Htag :
    (match (if truthy_int (NetworkReq.segmentation_id net)
            then str_of_Z <$> NetworkReq.segmentation_id net else None) with
     | None => Ok VNone
     | Some vlan_id =>
         match int_ (VStr vlan_id) with
         | Some n => Ok (VInt n)
         | None => Raise ValueError
         end
     end)
    = Ok (match NetworkReq.segmentation_id net with
          | Some segid => if segid =? 0 then VNone else VInt segid
          | None => VNone
          end)).
  { destruct (NetworkReq.segmentation_id net) as [segid|]; [| done].
    unfold truthy_int. destruct (segid =? 0); [done |].
    cbn [negb fmap option_fmap option_map]. by rewrite int_str_of_Z. }
  rewrite Htag in Htxn. cbn [mbind result_bind] in Htxn.
  apply add_acls_only_adds in Htxn as (acls & -> & Hadds).
  exists acls. split; [| done].
  rewrite Hlog2, Hlog1, <- app_assoc. done.
Qed.

(** ** Port updates and the cascade refresher *)

(** X15 -- An update that leaves the set of security groups of the port as
    it was submits exactly one transaction when it succeeds: the new
    settings of the logical port (resolved from the validated binding
    profile and the updated row), the deletion of the ACL entries of the
    port, and then only additions of ACL entries.  The updated row is the
    one stored. *)
Theorem update_port_single_transaction {OvnNb : Type} `{!OvnApi OvnNb}
    (w w' : World OvnNb) (id : string) (req : PortUpdate.t)
    (original_port p : Port.t) :
  get_port (w_db w) id = Ok original_port →
  update_security_group_on_port req original_port = false →
  update_port w id req = (Ok p, w') →
  ∃ binding_profile adds,
    _get_data_from_binding_profile (w_db w) OVN_PORT_BINDING_PROFILE_PARAMS
      (PortUpdate.binding_profile req) = Ok binding_profile
    ∧ w_log w'
      = w_log w
        ++ [[set_lport
               (tenant_lport p EmptyString
                  {[ OVN_PORT_NAME_EXT_ID_KEY := Port.name p ]}
                  (_get_ovn_port_options binding_profile p));
             delete_acl (ovn_name (Port.network_id p)) (Port.id p)] ++ adds]
    ∧ Forall is_add_acl adds
    ∧ db_ports (w_db w') !! id = Some p.
Proof.
  intros Horig Hsg. unfold update_port.
  destruct (_get_data_from_binding_profile _ _ _) as [binding_profile|e];
    [| done].
  cbn [mbind result_bind]. rewrite Horig. cbn [mbind result_bind].
  unfold db_update_port. rewrite Horig. cbn [mbind result_bind].
  rewrite Hsg. unfold _update_port_in_ovn.
  match goal with
  | |- context [_add_acls ?db ?port ?txn None (Some ∅) (Some ∅)] =>
      destruct (_add_acls db port txn None (Some ∅) (Some ∅))
        as [[[[txn' sgc] spc] snc]|e] eqn:Hacls; [| done]
  end.
  apply add_acls_only_adds in Hacls as (adds & -> & Hadds).
  destruct (commit _ _) as [r1 w1] eqn:H1.
  apply commit_spec in H1 as [Hlog1 Hdb1].
  destruct r1 as [[]|e]; [| done].
  intros [= <- <-]. exists binding_profile, adds.
  split; [done |]. split; [by rewrite Hlog1 |]. split; [done |].
  rewrite Hdb1. simpl. apply lookup_insert_eq.
Qed.

Lemma refresh_loop_spec (db : NeutronDb) (exclude_ports : list string)
    (sg_ports : list Binding.t) :
  ∀ txn sgc spc snc txn' sgc' spc' snc',
    for_each (refresh_acls_step db exclude_ports) sg_ports
             (txn, sgc, spc, snc)
    = Ok (txn', sgc', spc', snc') →
    ∃ ext,
      txn' = txn ++ ext
      ∧ (∀ b, b ∈ sg_ports → Binding.port_id b ∉ exclude_ports →
           ∃ port, db_ports db !! Binding.port_id b = Some port
                   ∧ regenerates ext port)
      ∧ (∀ lswitch lport, delete_acl lswitch lport ∈ ext →
           ∃ b port,
             b ∈ sg_ports ∧ Binding.port_id b ∉ exclude_ports
             ∧ db_ports db !! Binding.port_id b = Some port
             ∧ lswitch = ovn_name (Port.network_id port)
             ∧ lport = Port.id port).
Proof.
  induction sg_ports as [|b l IH];
    intros txn sgc spc snc txn' sgc' spc' snc' Hrun.
  - simpl in Hrun. simplify_eq. exists []. rewrite app_nil_r.
    split; [done |]. split.
    + intros b Hb. by apply elem_of_nil in Hb.
    + intros ls lp Hin. by apply elem_of_nil in Hin.
  - cbn [for_each] in Hrun.
    destruct (refresh_acls_step db exclude_ports (txn, sgc, spc, snc) b)
      as [[[[txn1 sgc1] spc1] snc1]|e] eqn:Hstep; [| done].
    cbn [mbind result_bind] in Hrun.
    apply IH in Hrun as (ext & -> & Hall & Honly).
    unfold refresh_acls_step in Hstep.
    case_bool_decide as Hex.
    + simplify_eq. exists ext. split; [done |]. split.
      * intros b' Hb' Hn. apply elem_of_cons in Hb' as [-> | Hb'];
          [done | by apply Hall].
      * intros ls lp Hin.
        destruct (Honly ls lp Hin) as (b' & port & ? & ?).
        exists b', port. split; [by right | done].
    + unfold get_port in Hstep.
      destruct (db_ports db !! Binding.port_id b) as [port|] eqn:Hport;
        [| done].
      cbn [mbind result_bind] in Hstep.
      apply add_acls_only_adds in Hstep as (adds & -> & Hadds).
      exists ([delete_acl (ovn_name (Port.network_id port)) (Port.id port)]
                ++ adds ++ ext).
      split; [by rewrite <- !app_assoc |]. split.
      * intros b' Hb' Hn. apply elem_of_cons in Hb' as [-> | Hb'].
        -- exists port. split; [done |]. unfold regenerates. set_solver.
        -- destruct (Hall b' Hb' Hn) as (q & ? & Hq). exists q.
           split; [done |]. unfold regenerates in *. set_solver.
      * intros ls lp Hin.
        rewrite !elem_of_app, list_elem_of_singleton in Hin.
        destruct Hin as [Heq | [Hin | Hin]].
        -- simplify_eq. exists b, port. split; [by left | done].
        -- rewrite Forall_forall in Hadds.
           destruct (Hadds _ Hin) as [a Ha]. done.
        -- destruct (Honly ls lp Hin) as (b' & q & ? & ?).
           exists b', q. split; [by right | done].
Qed.

(** X16 -- Refresh of a security group.  A refresh that succeeds leaves the
    model store as it was and submits exactly one transaction; that
    transaction deletes the ACL entries of every port bound to the group
    and not excluded, and of no other port.  When a binding of the group
    names a port that is not excluded and not stored, the refresh raises
    and submits nothing. *)
Theorem update_acls_for_security_group_spec {OvnNb : Type} `{!OvnApi OvnNb}
    (w : World OvnNb) (security_group_id : string)
    (sg_ports_cache : option (gmap string (list Binding.t)))
    (exclude_ports : option (list string))
    (subnet_cache : option (gmap string Subnet.t)) :
  let bound b :=
    b ∈ db_port_bindings (w_db w)
    ∧ Binding.security_group_id b = security_group_id
    ∧ Binding.port_id b ∉ default [] exclude_ports in
  (∀ caches w',
     _update_acls_for_security_group w security_group_id sg_ports_cache
       exclude_ports subnet_cache = (Ok caches, w') →
     w_db w' = w_db w
     ∧ ∃ txn,
         w_log w' = w_log w ++ [txn]
         ∧ (∀ b, bound b →
              ∃ port, db_ports (w_db w) !! Binding.port_id b = Some port
                      ∧ regenerates txn port)
         ∧ (∀ lswitch lport, delete_acl lswitch lport ∈ txn →
              ∃ b port,
                bound b
                ∧ db_ports (w_db w) !! Binding.port_id b = Some port
                ∧ lswitch = ovn_name (Port.network_id port)
                ∧ lport = Port.id port))
  ∧ (∀ b, bound b → db_ports (w_db w) !! Binding.port_id b = None →
     ∃ e, _update_acls_for_security_group w security_group_id sg_ports_cache
            exclude_ports subnet_cache = (Raise e, w)).
Proof.
  intros bound. unfold _update_acls_for_security_group, refresh_acls_txn.
  destruct (for_each _ _ _) as [[[[txn sgc] spc] snc]|e] eqn:Hloop.
  - apply refresh_loop_spec in Hloop as (ext & -> & Hall & Honly).
    assert (Hbound : ∀ b, bound b →
      b ∈ _get_port_security_group_bindings (w_db w) security_group_id).
    { intros b (? & ? & ?). by apply list_elem_of_filter. }
    split.
    + intros caches w'. destruct (commit w _) as [r1 w1] eqn:H1.
      apply commit_spec in H1 as [Hlog1 Hdb1].
      destruct r1 as [[]|e]; [| done]. intros [= _ <-].
      split; [done |]. exists ext. split; [done |]. split.
      * intros b Hb. apply Hall; [by apply Hbound | apply Hb].
      * intros ls lp Hin.
        destruct (Honly ls lp Hin) as (b & port & Hb & Hn & ? & ? & ?).
        apply list_elem_of_filter in Hb as [? ?].
        exists b, port. by repeat split.
    + intros b Hb Hnone.
      destruct (Hall b (Hbound b Hb)) as (port & Hport & _); [apply Hb |].
      congruence.
  - split; [done |]. eauto.
Qed.







(** ** Security-group operations *)



(** ** Router interfaces *)

Lemma only_subnet_iff (subnet_id : string) (port_subnets : list string) :
  bool_decide (subnet_id ∈ port_subnets)
  && bool_decide (length port_subnets = 1%nat) = true
  ↔ port_subnets = [subnet_id].
Proof.
  rewrite andb_true_iff, !bool_decide_eq_true. split.
  - intros [Hin Hlen]. destruct port_subnets as [|s [|s' l]]; try done.
    by apply list_elem_of_singleton in Hin as ->.
  - intros ->. split; [by left | done].
Qed.

(** X21 -- The interface to remove.  A request that names a port yields
    that port, whatever the stores hold.  A request that names only a
    subnet fails with the not-found error of the subnet lookup when the
    subnet is unknown; otherwise it yields the first interface port of the
    router, on the network of the subnet, whose fixed IPs are exactly one
    address on that subnet, and nothing when there is none: a port with a
    second address, even on the same subnet, is passed over.  A request
    that names neither yields nothing. *)
Theorem interface_port_id_spec (db : NeutronDb)
    (router_ports : string → list Port.t) (interface_info : InterfaceInfo.t) :
  match InterfaceInfo.port_id interface_info,
        InterfaceInfo.subnet_id interface_info with
  | Some port_id, _ =>
      interface_port_id db router_ports interface_info = Ok (Some port_id)
  | None, None => interface_port_id db router_ports interface_info = Ok None
  | None, Some subnet_id =>
      match db_subnets db !! subnet_id with
      | None =>
          interface_port_id db router_ports interface_info
          = Raise (SubnetNotFound subnet_id)
      | Some subnet =>
          let ports := router_ports (Subnet.network_id subnet) in
          let only p :=
            FixedIp.subnet_id <$> default [] (Port.fixed_ips p)
            = [subnet_id] in
          Forall (λ p, is_Some (Port.fixed_ips p)) ports →
          (∀ l1 p l2, ports = l1 ++ p :: l2 → only p →
             Forall (λ q, ¬ only q) l1 →
             interface_port_id db router_ports interface_info
             = Ok (Some (Port.id p)))
          ∧ (Forall (λ q, ¬ only q) ports →
             interface_port_id db router_ports interface_info = Ok None)
      end
  end.
Proof.
  unfold interface_port_id.
  destruct (InterfaceInfo.port_id interface_info) as [port_id|]; [done |].
  destruct (InterfaceInfo.subnet_id interface_info) as [subnet_id|];
    [| done].
  unfold get_subnet.
  destruct (db_subnets db !! subnet_id) as [subnet|]; [| done].
  cbn [mbind result_bind].
  generalize (router_ports (Subnet.network_id subnet)). intros ports Hips.
  assert (Hskip : ∀ l rest,
    Forall (λ p, is_Some (Port.fixed_ips p)) l →
    Forall (λ q, ¬ (FixedIp.subnet_id <$> default [] (Port.fixed_ips q)
                    = [subnet_id])) l →
    scan_interface_ports subnet_id (l ++ rest)
    = scan_interface_ports subnet_id rest).
  { intros l rest Hl Hnot. induction Hl as [|q l [ips Hq] _ IH]; [done |].
    apply Forall_cons in Hnot as [Hn Hnot]. simpl. rewrite Hq in *.
    simpl in Hn. rewrite <- only_subnet_iff in Hn.
    apply not_true_is_false in Hn. rewrite Hn. by apply IH. }
  split.
  - intros l1 p l2 -> Hp Hl1.
    apply Forall_app in Hips as [Hips1 Hips2].
    apply Forall_cons in Hips2 as [[ips Hq] _].
    rewrite Hskip by done. simpl. rewrite Hq in *. simpl in Hp.
    apply only_subnet_iff in Hp. by rewrite Hp.
  - intros Hnot. rewrite <- (app_nil_r ports). by rewrite Hskip.
Qed.

(** ** From the binding profile to the logical port *)

(** X22 -- What an accepted binding profile means for the logical port.
    When the validation of a profile returns binding data, the port options
    resolved from that data are as follows.  A profile with a parent name
    gives a plain port (no type, no options) whose parent is that name, the
    name of a stored port, and whose tag is the tag of the profile, an
    integer in [0, 4095].  A profile with a VTEP physical switch gives a
    port of type [vtep] with both switches as options, address [unknown]
    and no port security, unless the physical switch is the empty string:
    then the port is resolved as a plain port without parent or tag.  A
    profile with no recognised key gives a plain port without parent or
    tag. *)
Theorem accepted_profile_port_options (db : NeutronDb)
    (profile binding_profile : gmap string pyval) (port : Port.t) :
  _get_data_from_binding_profile db OVN_PORT_BINDING_PROFILE_PARAMS
    (Some profile) = Ok binding_profile →
  let info := _get_ovn_port_options binding_profile port in
  let plain :=
    OvnPortInfo.type info = None ∧ OvnPortInfo.options info = None
    ∧ OvnPortInfo.port_security info
      = _get_allowed_mac_addresses_from_port port in
  (∀ vp, profile !! "parent_name" = Some vp →
     plain
     ∧ ∃ parent n,
         vp = VStr parent
         ∧ is_Some (db_ports db !! parent)
         ∧ OvnPortInfo.parent_name info = VStr parent
         ∧ profile !! "tag" = Some (OvnPortInfo.tag info)
         ∧ int_ (OvnPortInfo.tag info) = Some n ∧ 0 ≤ n ≤ 4095)
  ∧ (∀ vps, profile !! "vtep_physical_switch" = Some vps →
     ∃ ps ls,
       vps = VStr ps
       ∧ profile !! "vtep_logical_switch" = Some (VStr ls)
       ∧ if bool_decide (ps = EmptyString) then
           plain ∧ OvnPortInfo.parent_name info = VNone
           ∧ OvnPortInfo.tag info = VNone
         else
           OvnPortInfo.type info = Some "vtep"
           ∧ OvnPortInfo.options info
             = Some (<["vtep_physical_switch" := VStr ps]>
                       {[ "vtep_logical_switch" := VStr ls ]})
           ∧ OvnPortInfo.addresses info = ["unknown"]
           ∧ OvnPortInfo.port_security info = []
           ∧ OvnPortInfo.parent_name info = VNone
           ∧ OvnPortInfo.tag info = VNone)
  ∧ (dom profile ## recognised_keys →
     binding_profile = ∅
     ∧ plain ∧ OvnPortInfo.parent_name info = VNone
     ∧ OvnPortInfo.tag info = VNone).
Proof.
  intros Hok info plain. subst plain info.
  destruct (decide (is_Some (profile !! "parent_name")
                    ∨ is_Some (profile !! "tag"))) as [Htrunk | Hno].
  - (* the trunk group *)
    destruct (decide (dom profile = trunk_keys)) as [Hdom | Hdom];
      [| destruct (profile_trunk_rejected db profile Htrunk Hdom) as [m Hm];
         congruence].
    assert (Hdom' := Hdom).
    apply dom_pair_iff in Hdom' as ([vp Hvp] & [vt Hvt] & _); [| done].
    assert (Hps : profile !! "vtep_physical_switch" = None).
    { apply not_elem_of_dom. rewrite Hdom. unfold trunk_keys. set_solver. }
    rewrite (profile_trunk db profile vp vt Hdom Hvp Hvt) in Hok.
    destruct vp as [| | |parent]; try done.
    destruct (isinstance vt TInteger) eqn:Hint; [| done].
    destruct (db_ports db !! parent) as [pp|] eqn:Hparent; [| done].
    destruct ((default 0 (int_ vt) <? 0) || (default 0 (int_ vt) >? 4095))
      eqn:Hrange; [done |].
    injection Hok as <-.
    apply orb_false_iff in Hrange as [Hlo Hhi].
    apply Z.ltb_ge in Hlo. rewrite Z.gtb_ltb in Hhi. apply Z.ltb_ge in Hhi.
    unfold _get_ovn_port_options, dict_get. rewrite Hps, Hvp, Hvt. simpl.
    split; [| split].
    + intros vp' [= <-]. split; [done |].
      exists parent, (default 0 (int_ vt)).
      repeat (split; [done |]).
      destruct vt; try done; simpl in *; split; (done || lia).
    + intros vps Hvps. congruence.
    + intros Hdisj. apply disjoint_recognised_iff in Hdisj as (? & _).
      congruence.
  - assert (Hpn : profile !! "parent_name" = None).
    { destruct (profile !! "parent_name") eqn:?; [| done].
      exfalso. apply Hno. left. eauto. }
    assert (Htg : profile !! "tag" = None).
    { destruct (profile !! "tag") eqn:?; [| done].
      exfalso. apply Hno. right. eauto. }
    destruct (decide (is_Some (profile !! "vtep_physical_switch")
                      ∨ is_Some (profile !! "vtep_logical_switch")))
      as [Hvtep | Hnone].
    + (* the VTEP group *)
      destruct (decide (dom profile = vtep_keys)) as [Hdom | Hdom];
        [| destruct (profile_vtep_rejected db profile Hpn Htg Hvtep Hdom)
             as [m Hm]; congruence].
      assert (Hdom' := Hdom).
      apply dom_pair_iff in Hdom' as ([a Ha] & [b Hb] & _); [| done].
      rewrite (profile_vtep db profile a b Hdom Ha Hb) in Hok.
      destruct a as [| | |ps]; try done. destruct b as [| | |ls]; try done.
      injection Hok as <-.
      unfold _get_ovn_port_options, dict_get. rewrite Ha, Hb, Hpn, Htg.
      simpl. split; [| split].
      * intros vp Hvp. congruence.
      * intros vps [= <-]. exists ps, ls. split; [done |]. split; [done |].
        case_bool_decide; simpl; [done |].
        repeat (split; [done |]). done.
      * intros Hdisj.
        apply disjoint_recognised_iff in Hdisj as (_ & _ & ? & _).
        congruence.
    + assert (Hps : profile !! "vtep_physical_switch" = None).
      { destruct (profile !! "vtep_physical_switch") eqn:?; [| done].
        exfalso. apply Hnone. left. eauto. }
      assert (Hls : profile !! "vtep_logical_switch" = None).
      { destruct (profile !! "vtep_logical_switch") eqn:?; [| done].
        exfalso. apply Hnone. right. eauto. }
      rewrite (profile_unrecognised db profile Hpn Htg Hps Hls) in Hok.
      injection Hok as <-.
      unfold _get_ovn_port_options, dict_get. rewrite !lookup_empty. simpl.
      split; [intros; congruence |]. split; [intros; congruence |]. done.
Qed.

(** ** Rules outside IPv4 and IPv6, and ports of plain networks *)

(** X23 -- A remote prefix on a rule that is neither IPv4 nor IPv6.  The
    address family of the prefix clause comes from the ethertype; for an
    ethertype other than IPv4 and IPv6 there is none, and the clause is
    formatted with [None]: an ingress or egress rule with such an
    ethertype, a remote prefix and no remote group compiles to an entry
    whose match is the direction clause followed by
    [ && None.src == <prefix>] (ingress) or [ && None.dst == <prefix>]
    (egress) and the protocol part, which is empty for ICMP. *)
Theorem remote_prefix_without_family (db : NeutronDb) (port : Port.t)
    (r : Rule.t) (sg_ports_cache : gmap string (list Binding.t))
    (prefix : string) :
  Rule.ethertype r ≠ "IPv4" → Rule.ethertype r ≠ "IPv6" →
  Rule.remote_ip_prefix r = Some prefix → prefix ≠ EmptyString →
  truthy_str (Rule.remote_group_id r) = false →
  Rule.direction r = "ingress" ∨ Rule.direction r = "egress" →
  ∃ cmd,
    _add_sg_rule_acl_for_port db port r sg_ports_cache
    = Ok (Some cmd, sg_ports_cache)
    ∧ Acl.match_ cmd
      = (_acl_direction r port).1
        +:+ " && None."
        +:+ (if decide (Rule.direction r = "ingress") then "src" else "dst")
        +:+ " == " +:+ prefix
        +:+ _acl_protocol_and_ports r None
    ∧ (Rule.protocol r = Some "icmp" →
       _acl_protocol_and_ports r None = EmptyString).
Proof.
  intros H4 H6 Hprefix Hne Hgroup Hdir.
  unfold _add_sg_rule_acl_for_port, _acl_ethertype, _acl_remote_group_id.
  rewrite !decide_False, Hgroup by done. simpl.
  destruct (_acl_direction r port) as [m remote_portdir] eqn:Hm. simpl.
  unfold _acl_remote_ip_prefix, dir_map. rewrite Hprefix. simpl.
  rewrite bool_decide_eq_false_2 by done. simpl.
  assert (Hd : ∃ d, (if decide (Rule.direction r = "ingress")
                     then Ok "to-lport"
                     else if decide (Rule.direction r = "egress")
                          then Ok "from-lport"
                          else Raise (KeyError (Rule.direction r)))
                    = Ok d).
  { destruct Hdir as [-> | ->]; simpl; eauto. }
  destruct Hd as [d ->]. simpl. eexists. split; [done |]. simpl.
  split.
  - rewrite append_nil_r, !append_assoc. done.
  - intros Hp. unfold _acl_protocol_and_ports. by rewrite Hp.
Qed.

(** X24 -- Ports of a plain network.  When the switch of the port's
    network carries no physical network, a port creation that succeeds
    stores the row with its list attributes filled in and submits exactly
    one transaction: the creation of the logical port, named after the
    port id, on the switch of the network, with the options resolved from
    the validated binding profile, followed only by additions of ACL
    entries. *)
Theorem plain_network_port_creation {OvnNb : Type} `{!OvnApi OvnNb}
    (w w' : World OvnNb) (req : PortReq.t) (p : Port.t)
    (net_ext_ids : gmap string string) :
  lswitch_external_ids (w_nb w)
    (ovn_name (Port.network_id (PortReq.port req))) = Some net_ext_ids →
  truthy_str (net_ext_ids !! OVN_PHYSNET_EXT_ID_KEY) = false →
  create_port w req = (Ok p, w') →
  ∃ binding_profile adds,
    _get_data_from_binding_profile (w_db w) OVN_PORT_BINDING_PROFILE_PARAMS
      (PortReq.binding_profile req) = Ok binding_profile
    ∧ db_ports (w_db w) !! Port.id (PortReq.port req) = None
    ∧ db_ports (w_db w') !! Port.id (PortReq.port req) = Some p
    ∧ Port.id p = Port.id (PortReq.port req)
    ∧ is_Some (Port.fixed_ips p) ∧ is_Some (Port.security_groups p)
    ∧ w_log w'
      = w_log w
        ++ [[create_lport
               (tenant_lport p (ovn_name (Port.network_id p))
                  {[ OVN_PORT_NAME_EXT_ID_KEY := Port.name p ]}
                  (_get_ovn_port_options binding_profile p))] ++ adds]
    ∧ Forall is_add_acl adds.
Proof.
  intros Hswitch Hplain. unfold create_port.
  destruct (_get_data_from_binding_profile _ _ _) as [binding_profile|e];
    [| done].
  cbn [mbind result_bind]. unfold db_create_port.
  destruct (db_networks (w_db w) !! _); [| done].
  destruct (db_ports (w_db w) !! _) eqn:Hfresh; [done |].
  cbn [mbind result_bind]. unfold _create_port_in_ovn.
  cbn [Port.network_id w_nb with_db]. rewrite Hswitch, Hplain.
  destruct (create_port_txn _ _ _ _ _ _) as [[[[txn sgc] spc] snc]|e]
    eqn:Htxn; [| done].
  unfold create_port_txn in Htxn. rewrite Hplain in Htxn.
  cbn [mbind result_bind app] in Htxn.
  apply add_acls_only_adds in Htxn as (adds & -> & Hadds).
  destruct (commit _ _) as [r1 w1] eqn:H1.
  apply commit_spec in H1 as [Hlog1 Hdb1].
  destruct r1 as [[]|e]; [| done].
  change (port_get_list _ "security_group") with (@nil string).
  simpl. intros [= <- <-]. exists binding_profile, adds.
  split; [done |]. split; [done |].
  split; [rewrite Hdb1; simpl; apply lookup_insert_eq |].
  split; [done |]. split; [by eexists |]. split; [by eexists |].
  split; [by rewrite Hlog1 | done].
Qed.

(** ** The further properties on the sample data *)

Lemma remote_group_match_witness :
  _acl_remote_group_id two_port_db web_from_db ∅ web_port "inport"
  = (" && " +:+ "inport" +:+ " == {" +:+ quoted_ids ["port-db"] +:+ "}",
     false,
     <["sg-db" := _get_port_security_group_bindings two_port_db "sg-db"]> ∅).
Proof.
  refine (proj1 (remote_group_match two_port_db web_from_db ∅ web_port
                   "inport" "sg-db" _ _ _)).
  - reflexivity.
  - discriminate.
  - vm_compute. discriminate.
Defined.


Lemma protocol_and_ports_icmp_witness :
  _acl_protocol_and_ports icmp_rule (_acl_ethertype icmp_rule).2
  = " && icmp4" +:+ bound_clause "icmp4.type" " >= " (Some 8)
                +:+ bound_clause "icmp4.type" " <= " None.
Proof.
  destruct (proj1 (protocol_and_ports_icmp icmp_rule) eq_refl)
    as (_ & _ & H & _).
  exact (H eq_refl).
Defined.

Lemma add_acl_cmd_first_wins_witness :
  _add_acl_cmd (_add_acl_cmd [] (Some (sample_acl false)))
               (Some (sample_acl true))
  = [(acl_key (sample_acl false), sample_acl false)].
Proof.
  destruct (add_acl_cmd_first_wins [] (sample_acl false))
    as (_ & Hfresh & _ & Hother).
  rewrite (Hother (sample_acl true) eq_refl).
  apply Hfresh. apply not_elem_of_nil.
Defined.


Lemma add_acl_dhcp_errors_witness :
  _add_acl_dhcp sample_db (sample_port "port-1" (Some ["sg-web"]) None) [] ∅
  = Raise (KeyError "fixed_ips")
  ∧ _add_acls sample_db
      (sample_port "port-1" (Some ["sg-web"])
         (Some [sample_ip_a;
                {| FixedIp.subnet_id := "subnet-9";
                   FixedIp.ip_address := "10.9.0.5" |}]))
      [] None None (Some ∅)
    = Raise (SubnetNotFound "subnet-9").
Proof.
  split.
  - apply (add_acl_dhcp_errors sample_db
             (sample_port "port-1" (Some ["sg-web"]) None) [] ∅).
    reflexivity.
  - refine (proj2 (proj2 (add_acl_dhcp_errors sample_db _ [] ∅)
                     [sample_ip_a]
                     {| FixedIp.subnet_id := "subnet-9";
                        FixedIp.ip_address := "10.9.0.5" |} [] _ _ _)
                  _ None None).
    + reflexivity.
    + intros ip Hip. apply list_elem_of_singleton in Hip as ->.
      exists sample_subnet. vm_refl.
    + vm_refl.
    + discriminate.
Defined.

Lemma regeneration_idempotent_witness :
  let txn :=
    (web_port_pass [delete_acl (ovn_name "net-1") "port-web"]).1.1.1 in
  ∃ nb1,
    nb_execute (sample_nb true) txn = Ok nb1
    ∧ nb_execute nb1 txn = Ok nb1.
Proof.
  destruct (regeneration_idempotent two_port_db web_port
              (web_port_pass [delete_acl (ovn_name "net-1") "port-web"]).1.1.1
              None
              (web_port_pass [delete_acl (ovn_name "net-1") "port-web"]).1.1.2
              None None
              (web_port_pass [delete_acl (ovn_name "net-1") "port-web"]).1.2
              (web_port_pass [delete_acl (ovn_name "net-1") "port-web"]).2
              (sample_nb true)
              {| LSwitch.external_ids := ∅; LSwitch.ports := [];
                 LSwitch.acls := [] |})
    as (nb1 & entries & H1 & _ & _ & H2).
  - vm_refl.
  - reflexivity.
  - vm_refl.
  - exists nb1. split; [exact H1 | exact H2].
Defined.

Lemma create_network_refuses_provider_type_witness :
  ∃ msg,
    create_network (sample_world true) (provider_network "gre")
    = (Raise (InvalidInput msg), sample_world true).
Proof.
  apply (proj1 (create_network_refuses_provider_type (sample_world true)
                  (provider_network "gre"))).
  split; [reflexivity |]. split; discriminate.
Defined.

Lemma create_network_stashes_attributes_witness :
  ∃ ext_ids,
    w_log provider_world
    = [] ++ [[create_lswitch (ovn_name "net-2") ext_ids]]
    ∧ ext_ids !! OVN_NETWORK_NAME_EXT_ID_KEY = Some "uplink"
    ∧ ext_ids !! OVN_PHYSNET_EXT_ID_KEY = Some "physnet1"
    ∧ ext_ids !! OVN_NETTYPE_EXT_ID_KEY = Some "vlan"
    ∧ ext_ids !! OVN_SEGID_EXT_ID_KEY = Some (str_of_Z 100).
Proof.
  destruct (create_network_stashes_attributes (sample_world true)
              provider_world (provider_network "vlan")
              {| Network.id := "net-2"; Network.name := "uplink" |})
    as (_ & _ & _ & ext_ids & Hlog & Hname & Hphys & Htype & Hseg).
  - vm_refl.
  - exists ext_ids. split; [exact Hlog |]. split; [exact Hname |].
    split; [exact Hphys |]. split; [exact Htype | exact Hseg].
Defined.

Lemma delete_network_swallows_store_failure_witness :
  ∃ w',
    delete_network unreachable_provider_world "net-2" = (Ok tt, w')
    ∧ db_networks (w_db w') !! "net-2" = None
    ∧ w_nb w' = sample_nb false.
Proof.
  destruct (proj1 (delete_network_swallows_store_failure
                     unreachable_provider_world "net-2")
              (from_ok (db_delete_network (w_db unreachable_provider_world)
                          "net-2") sample_db))
    as (w' & Hrun & Hw & Hgone & _ & Hnb).
  - vm_refl.
  - exists w'. split; [exact Hrun |]. split.
    + rewrite Hw. exact Hgone.
    + apply (Hnb (RuntimeError "OVSDB connection lost")). reflexivity.
Defined.

Lemma delete_port_model_store_last_witness :
  w_db (delete_port (sample_world false) "port-web").2 = sample_db.
Proof.
  refine (proj1 (delete_port_model_store_last (sample_world false)
                   (delete_port (sample_world false) "port-web").2
                   "port-web" (Raise (RuntimeError "OVSDB connection lost"))
                   _)).
  vm_refl.
Defined.

Lemma create_port_no_rollback_witness :
  w_db (create_port switchless_world (port_db_request None)).2
  = (from_ok (db_create_port sample_db db_port) (sample_db, db_port)).1
  ∧ is_Some
      ((db_ports
          (from_ok (db_create_port sample_db db_port) (sample_db, db_port)).1)
         !! "port-db")
  ∧ ∃ msg,
      (create_port switchless_world (port_db_request None)).1
      = Raise (RuntimeError msg).
Proof.
  destruct (create_port_no_rollback switchless_world (port_db_request None)
              ∅
              (from_ok (db_create_port sample_db db_port)
                       (sample_db, db_port)).1
              (from_ok (db_create_port sample_db db_port)
                       (sample_db, db_port)).2)
    as (Hdb & Hlook & Hraise).
  - reflexivity.
  - vm_refl.
  - split; [exact Hdb |]. split; [eexists; exact Hlook |].
    destruct (Hraise eq_refl) as [msg Hmsg]. exists msg.
    rewrite Hmsg. reflexivity.
Defined.

Lemma provider_port_round_trip_witness :
  ∃ tenant acls,
    w_log (_create_port_in_ovn provider_world uplink_port
             (_get_ovn_port_options ∅ uplink_port)).2
    = w_log provider_world
      ++ [[create_lswitch (ovn_name "port-up")
             {[ OVN_PORT_NAME_EXT_ID_KEY := "vm-up" ]}];
          [create_lport
             {| LPort.lport_name := "provnet-" +:+ "port-up";
                LPort.lswitch_name := ovn_name "port-up";
                LPort.addresses := ["unknown"];
                LPort.external_ids :=
                  {[ OVN_PORT_NAME_EXT_ID_KEY := "vm-up" ]};
                LPort.parent_name := VNone;
                LPort.tag := VInt 100;
                LPort.enabled := None;
                LPort.options := Some {[ "network_name" := VStr "physnet1" ]};
                LPort.type := Some "localnet";
                LPort.port_security := [] |};
           create_lport tenant] ++ acls].
Proof.
  destruct (provider_port_round_trip provider_world
              (_create_port_in_ovn provider_world uplink_port
                 (_get_ovn_port_options ∅ uplink_port)).2
              uplink_port uplink_port (_get_ovn_port_options ∅ uplink_port)
              (provider_network "vlan")
              (<[OVN_SEGID_EXT_ID_KEY := str_of_Z 100]>
                 (<[OVN_NETTYPE_EXT_ID_KEY := "vlan"]>
                    (<[OVN_PHYSNET_EXT_ID_KEY := "physnet1"]> ∅)))
              "uplink")
    as (acls & Hlog & _).
  - vm_refl.
  - reflexivity.
  - vm_refl.
  - vm_refl.
  - eexists _, acls. exact Hlog.
Defined.

Lemma update_port_single_transaction_witness :
  ∃ lp adds,
    w_log (update_port (sample_world true) "port-web" no_update).2
    = w_log (sample_world true)
      ++ [[set_lport lp; delete_acl (ovn_name "net-1") "port-web"] ++ adds]
    ∧ Forall is_add_acl adds.
Proof.
  destruct (update_port_single_transaction (sample_world true)
              (update_port (sample_world true) "port-web" no_update).2
              "port-web" no_update web_port web_port)
    as (binding_profile & adds & _ & Hlog & Hadds & _).
  - vm_refl.
  - reflexivity.
  - vm_refl.
  - eexists _, adds. split; [exact Hlog | exact Hadds].
Defined.

Lemma update_acls_for_security_group_spec_witness :
  ∃ txn port,
    w_log (_update_acls_for_security_group (sample_world true) "sg-web"
             None None None).2
    = w_log (sample_world true) ++ [txn]
    ∧ db_ports sample_db !! "port-web" = Some port
    ∧ regenerates txn port.
Proof.
  destruct (proj1 (update_acls_for_security_group_spec (sample_world true)
                     "sg-web" None None None)
              (from_ok (_update_acls_for_security_group (sample_world true)
                          "sg-web" None None None).1 (∅, ∅))
              (_update_acls_for_security_group (sample_world true) "sg-web"
                 None None None).2)
    as (_ & txn & Hlog & Hall & _).
  - vm_refl.
  - destruct (Hall web_binding) as (port & Hport & Hreg).
    + split; [apply list_elem_of_here |].
      split; [reflexivity | apply not_elem_of_nil].
    + exists txn, port. split; [exact Hlog |].
      split; [exact Hport | exact Hreg].
Defined.





Lemma interface_port_id_spec_witness :
  interface_port_id sample_db sample_router_ports subnet_interface
  = Ok (Some "port-r2").
Proof.
  refine (proj1 (interface_port_id_spec sample_db sample_router_ports
                   subnet_interface _)
            [sample_port "port-r1" None (Some [sample_ip_a; sample_ip_b])]
            (sample_port "port-r2" None (Some [sample_ip_b])) [] _ _ _).
  - repeat (apply Forall_cons; split; [by eexists |]). apply Forall_nil_2.
  - reflexivity.
  - reflexivity.
  - apply Forall_cons. split; [discriminate | apply Forall_nil_2].
Defined.

Lemma accepted_profile_port_options_witness :
  OvnPortInfo.parent_name (_get_ovn_port_options (trunk_profile 5) db_port)
  = VStr "port-web"
  ∧ OvnPortInfo.tag (_get_ovn_port_options (trunk_profile 5) db_port)
    = VInt 5
  ∧ OvnPortInfo.type (_get_ovn_port_options (trunk_profile 5) db_port)
    = None.
Proof.
  destruct (proj1 (accepted_profile_port_options sample_db (trunk_profile 5)
                     (trunk_profile 5) db_port ltac:(vm_refl))
              (VStr "port-web") ltac:(vm_refl))
    as ((Htype & _) & parent & n & Hparent & _ & Hname & Htag & _).
  injection Hparent as <-. split; [exact Hname |].
  split; [| exact Htype].
  assert (Hlook : trunk_profile 5 !! "tag" = Some (VInt 5)) by vm_refl.
  congruence.
Defined.

Lemma remote_prefix_without_family_witness :
  ∃ cmd,
    _add_sg_rule_acl_for_port sample_db web_port arp_rule ∅
    = Ok (Some cmd, ∅)
    ∧ Acl.match_ cmd
      = (_acl_direction arp_rule web_port).1
        +:+ " && None." +:+ "src" +:+ " == " +:+ "10.0.0.0/8"
        +:+ _acl_protocol_and_ports arp_rule None.
Proof.
  destruct (remote_prefix_without_family sample_db web_port arp_rule ∅
              "10.0.0.0/8") as (cmd & Hrun & Hmatch & _).
  - discriminate.
  - discriminate.
  - reflexivity.
  - discriminate.
  - reflexivity.
  - left. reflexivity.
  - exists cmd. split; [exact Hrun | exact Hmatch].
Defined.

Lemma plain_network_port_creation_witness :
  ∃ lp adds,
    w_log (create_port (sample_world true) (port_db_request None)).2
    = w_log (sample_world true) ++ [[create_lport lp] ++ adds]
    ∧ LPort.lport_name lp = "port-db"
    ∧ LPort.lswitch_name lp = ovn_name "net-1"
    ∧ Forall is_add_acl adds.
Proof.
  destruct (plain_network_port_creation (sample_world true)
              (create_port (sample_world true) (port_db_request None)).2
              (port_db_request None)
              (from_ok (db_create_port sample_db db_port)
                       (sample_db, db_port)).2 ∅)
    as (binding_profile & adds & _ & _ & _ & Hid & _ & _ & Hlog & Hadds).
  - vm_refl.
  - reflexivity.
  - vm_refl.
  - eexists _, adds. split; [exact Hlog |].
    split; [exact Hid |]. split; [vm_refl | exact Hadds].
Defined.
